(** * Video frames: the deferred-write cache of [fiftyone/core/frame.py]

    A shallow embedding of [Frames] and [FramesView]: the pending
    replacements, the pending deletes, the delete-all flag, and the way
    they are reconciled with the frame collection on lookup, iteration
    and save. Python objects live in an explicit heap so that identity and
    aliasing of [Frame] instances can be stated. *)

From Stdlib Require Import Ascii.
From stdpp Require Import gmap strings list fin_maps sorting.

Local Open Scope Z_scope.

(** ** Python values

    Frame numbers handed to the public methods and field values are
    arbitrary hashable Python values; ints, strings and [None] are kept. *)

Inductive pyval :=
| PNone
| PInt (n : Z)
| PStr (s : string).

#[global] Instance pyval_eq_dec : EqDecision pyval.
Proof. solve_decision. Defined.

#[global] Instance pyval_countable : Countable pyval.
Proof.
  apply (inj_countable'
    (λ v, match v with
          | PNone => inl ()
          | PInt n => inr (inl n)
          | PStr s => inr (inr s)
          end)
    (λ x, match x with
          | inl _ => PNone
          | inr (inl n) => PInt n
          | inr (inr s) => PStr s
          end)).
  by intros [].
Defined.

Abbreviation loc := nat.
Abbreviation SampleId := nat.
Abbreviation DocId := nat.

(** ** Exceptions and results *)

Inductive exn :=
| InvalidKey                          (* fofu.validate_frame_number *)
| SchemaViolation                     (* set_field(..., create=False) on an unknown field *)
| FieldNotAccessible                  (* excluded field of a view *)
| ValueError (msg : string)
| BulkWriteError (writeErrors : list string)
| IndexError
| AttributeError
| TypeError_unhashable.                (* TypeError: unhashable type, raised by dict.pop *)

Inductive result (A : Type) :=
| Ok (a : A)
| Raise (e : exn).
Arguments Ok {A} a.
Arguments Raise {A} e.

#[global] Instance result_ret : MRet result := λ A a, Ok a.
#[global] Instance result_bind : MBind result :=
  λ A B f m, match m with Ok a => f a | Raise e => Raise e end.

(** ** Records (Frame / FrameView instances) *)

Inductive DocCls :=
| NoDatasetDoc       (* foo.NoDatasetFrameSampleDocument *)
| DatasetDoc.        (* foo.DatasetFrameSampleDocument *)

#[global] Instance DocCls_eq_dec : EqDecision DocCls.
Proof. solve_decision. Defined.

(** Modelled from the spec: [Document] and [DocumentView]
    (fiftyone.core.document) are not part of the sources. A record is "a
    single addressable entity with a field bag, a backed-by-store flag, and
    an ordinal key", with an "optional store-assigned id (absent until
    first persisted)". [frame_number] and [_sample_id] are the two fields
    declared by the backing document classes of odm/frame.py. *)
Record FrameObj := mkFrame {
  is_view : bool;                      (* FrameView rather than Frame *)
  doc_cls : DocCls;                    (* class of [_doc] *)
  doc_id : option DocId;               (* [_doc.id] *)
  f_sample_id : option SampleId;       (* [_doc._sample_id] *)
  frame_number : Z;
  fields : gmap string pyval;
}.

#[global] Instance FrameObj_inhabited : Inhabited FrameObj :=
  populate (mkFrame false NoDatasetDoc None None 0 ∅).

(** Modelled from the spec: [Document._in_db] is not part of the sources;
    the "currently persisted" flag of a record holds when its backing
    document is a dataset document that has received its [_id]. *)
Definition frame_in_db (f : FrameObj) : bool :=
  match doc_cls f with
  | NoDatasetDoc => false
  | DatasetDoc => bool_decide (is_Some (doc_id f))
  end.

(** ** The frame collection *)

(** A stored document; [frame_number] is a required [FrameNumberField]
    and [_sample_id] a required [ObjectIdField] (odm/frame.py). *)
Record Doc := mkDoc {
  d_id : DocId;
  d_sample : SampleId;
  d_fn : Z;
  d_fields : gmap string pyval;
}.

(** A Python dict on its way to or from the collection: [_id] may be
    missing. *)
Record Bag := mkBag {
  b_id : option DocId;
  b_sample : SampleId;
  b_fn : Z;
  b_fields : gmap string pyval;
}.

Definition bag_of_doc (d : Doc) : Bag :=
  mkBag (Some (d_id d)) (d_sample d) (d_fn d) (d_fields d).

Definition doc_of_bag (i : DocId) (b : Bag) : Doc :=
  mkDoc i (b_sample b) (b_fn b) (b_fields b).

Inductive StoreCall :=
| find_one_call (sid : SampleId) (n : Z)
| aggregate_call (sid : SampleId)
| delete_many_call (sid : SampleId)
| bulk_write_call
| insert_many_call.

(** ** The world: heap, collection, singleton registry, schema *)

Record World := mkWorld {
  heap : gmap loc FrameObj;
  coll : list Doc;                           (* [_frame_collection] *)
  next_id : DocId;                           (* next ObjectId handed out *)
  instances : gmap SampleId (gmap Z loc);    (* [Frame._instances[collection]] *)
  schema : gset string;                      (* frame field schema of the dataset *)
  trace : list StoreCall;                    (* calls made on the collection *)
}.

Definition set_heap (h : gmap loc FrameObj) (w : World) : World :=
  mkWorld h (coll w) (next_id w) (instances w) (schema w) (trace w).
Definition set_coll (c : list Doc) (w : World) : World :=
  mkWorld (heap w) c (next_id w) (instances w) (schema w) (trace w).
Definition set_next_id (i : DocId) (w : World) : World :=
  mkWorld (heap w) (coll w) i (instances w) (schema w) (trace w).
Definition set_instances (r : gmap SampleId (gmap Z loc)) (w : World) : World :=
  mkWorld (heap w) (coll w) (next_id w) r (schema w) (trace w).
Definition set_schema (s : gset string) (w : World) : World :=
  mkWorld (heap w) (coll w) (next_id w) (instances w) s (trace w).
Definition log (c : StoreCall) (w : World) : World :=
  mkWorld (heap w) (coll w) (next_id w) (instances w) (schema w) (trace w ++ [c]).

(** Object allocation: a location not yet in the heap. *)
Definition alloc (f : FrameObj) (w : World) : World * loc :=
  let l := fresh (dom (heap w)) in
  (set_heap (<[l := f]> (heap w)) w, l).

(** Reading an object. Python has no dangling reference; for a location
    outside the heap the default record is returned. *)
Definition deref (w : World) (l : loc) : FrameObj := heap w !!! l.

(** ** The document store

    The collection is an external collaborator (pymongo); its operations
    follow section 6 of the spec: find-one, ordered scan, group-by-key
    existence scan, bulk insert, bulk replace-or-upsert, bulk delete. A
    bulk operation either applies all of its writes or fails as a whole
    with the write errors chosen by the environment ([Faults]); partial
    application of an unordered batch is not modelled. *)

Definition of_sample (sid : SampleId) (d : Doc) : bool :=
  bool_decide (d_sample d = sid).

Definition on_key (sid : SampleId) (n : Z) (d : Doc) : bool :=
  bool_decide (d_sample d = sid ∧ d_fn d = n).

Definition on_pykey (sid : SampleId) (k : pyval) (d : Doc) : bool :=
  bool_decide (d_sample d = sid ∧ PInt (d_fn d) = k).

Definition find_one (sid : SampleId) (n : Z) (docs : list Doc) : option Doc :=
  List.find (on_key sid n) docs.

Definition delete_many (sid : SampleId) (docs : list Doc) : list Doc :=
  List.filter (λ d, negb (of_sample sid d)) docs.

Fixpoint delete_one (p : Doc → bool) (docs : list Doc) : list Doc :=
  match docs with
  | [] => []
  | d :: ds => if p d then ds else d :: delete_one p ds
  end.

Fixpoint replace_one (p : Doc → bool) (b : Bag) (docs : list Doc) : option (list Doc) :=
  match docs with
  | [] => None
  | d :: ds =>
      if p d then Some (doc_of_bag (d_id d) b :: ds)
      else cons d <$> replace_one p b ds
  end.

(** [ReplaceOne(filter, replacement, upsert=True)] *)
Definition upsert_one (sid : SampleId) (n : Z) (b : Bag) (st : list Doc * DocId)
  : list Doc * DocId :=
  match replace_one (on_key sid n) b st.1 with
  | Some ds => (ds, st.2)
  | None => (st.1 ++ [doc_of_bag st.2 b], S st.2)
  end.

(** [insert_many(dicts)]: every dict receives a new [_id]. *)
Fixpoint assign_ids (i : DocId) (bs : list Bag) : list Doc :=
  match bs with
  | [] => []
  | b :: bs' => doc_of_bag i b :: assign_ids (S i) bs'
  end.

Definition fn_le (a b : Doc) : Prop := d_fn a ≤ d_fn b.

#[global] Instance fn_le_dec a b : Decision (fn_le a b).
Proof. unfold fn_le. apply _. Defined.

#[global] Instance fn_le_trans : Transitive fn_le.
Proof. intros a b c. unfold fn_le. lia. Qed.

#[global] Instance fn_le_total : Total fn_le.
Proof. intros a b. unfold fn_le. lia. Qed.

(** Outcome of the bulk writes of one [save()], chosen by the store. *)
Record Faults := mkFaults {
  delete_fault : option (list string);    (* bulk_write of the DeleteOne ops *)
  insert_fault : option (list string);    (* insert_many *)
  replace_fault : option (list string);   (* bulk_write of the ReplaceOne ops *)
}.

Definition no_faults : Faults := mkFaults None None None.

(** ** The singleton registry of [Frame] instances *)

(** Modelled from the spec: [FrameSingleton] (fiftyone.core.singletons) is
    not part of the sources. The spec asks for "a process-wide registry
    mapping (collection-name, parent-id) → live instances, looked up at
    flush time"; [_save_replacements] uses the result of
    [Frame._get_instances] as a dict from frame number to [Frame]. One
    dataset, hence one collection name, is modelled. *)
Definition _get_instances (w : World) (sid : SampleId) : gmap Z loc :=
  default ∅ (instances w !! sid).

Definition register (sid : SampleId) (n : Z) (l : loc) (w : World) : World :=
  set_instances (<[sid := <[n := l]> (_get_instances w sid)]> (instances w)) w.

(** Modelled from the spec: [Document._reset_backing_doc] is not part of
    the sources; an invalidated record is transient again and keeps its
    field values. *)
Definition _reset_backing_doc (f : FrameObj) : FrameObj :=
  mkFrame (is_view f) NoDatasetDoc None None (frame_number f) (fields f).

Definition reset_all (ls : list loc) (h : gmap loc FrameObj) : gmap loc FrameObj :=
  foldr (alter _reset_backing_doc) h ls.

(** Modelled from the spec: [Frame._reset_docs(collection, sample_ids)] is
    not part of the sources; flush must "invalidate any other in-memory
    holder of this parent's records". *)
Definition _reset_docs (w : World) (sid : SampleId) : World :=
  let m := _get_instances w sid in
  set_instances (delete sid (instances w))
    (set_heap (reset_all (map_to_list m).*2 (heap w)) w).

(** Modelled from the spec: [Frame._reset_docs_for_sample] is not part of
    the sources; flush must "invalidate matching in-memory holders" of the
    deleted keys. *)
Definition _reset_docs_for_sample (w : World) (sid : SampleId) (fns : gset pyval) : World :=
  let m := _get_instances w sid in
  let gone := filter (λ kl, PInt kl.1 ∈ fns) m in
  set_instances (<[sid := filter (λ kl, PInt kl.1 ∉ fns) m]> (instances w))
    (set_heap (reset_all (map_to_list gone).*2 (heap w)) w).

(** Modelled from the spec: [Frame._sync_docs_for_sample] is not part of
    the sources; reload must "re-synchronize any live in-memory Record
    instances for this parent against current store contents (discarding
    uncommitted local edits)". A live record whose key is among [fns] is
    bound to the stored document of its key, whatever its own state, so
    that what was not flushed is gone; it is invalidated when there is no
    such document, and so is every record whose key is not among [fns].
    The exceptions that the document layer may raise while it reloads a
    document are not modelled. *)
Definition resync (sid : SampleId) (w : World) (kl : Z * loc) : World :=
  let f := deref w kl.2 in
  let w1 := log (find_one_call sid kl.1) w in
  match find_one sid kl.1 (coll w) with
  | Some d =>
      set_heap (<[kl.2 := mkFrame (is_view f) DatasetDoc (Some (d_id d))
                            (Some (d_sample d)) (d_fn d) (d_fields d)]> (heap w1)) w1
  | None => set_heap (alter _reset_backing_doc kl.2 (heap w1)) w1
  end.

Definition _sync_docs_for_sample (w : World) (sid : SampleId) (fns : gset Z) : World :=
  let m := _get_instances w sid in
  let keep := filter (λ kl, kl.1 ∈ fns) m in
  let gone := filter (λ kl, kl.1 ∉ fns) m in
  let w1 := foldr (λ kl w', resync sid w' kl) w (map_to_list keep) in
  set_instances (<[sid := keep]> (instances w1))
    (set_heap (reset_all (map_to_list gone).*2 (heap w1)) w1).

(** ** The cache: class [Frames] *)

(** Modelled from the spec: [Sample] (fiftyone.core.sample) is not part of
    the sources; the cache consumes the "parent identity (store id)" and
    the "is this parent persisted" flag. [_sample._id] is [None] until the
    sample is in a dataset, and [_sample._in_db] holds exactly then. *)
Record Sample := mkSample { s_id : option SampleId }.

Record Frames := mkFrames {
  _sample : Sample;
  _replacements : gmap Z loc;
  _delete_frames : gset pyval;
  _delete_all : bool;
}.

(** [Frames.__init__] *)
Definition __init__ (sample : Sample) : Frames := mkFrames sample ∅ ∅ false.

Definition _in_db (self : Frames) : bool := bool_decide (is_Some (s_id (_sample self))).

Definition set_replacements (r : gmap Z loc) (self : Frames) : Frames :=
  mkFrames (_sample self) r (_delete_frames self) (_delete_all self).

(** Modelled from the spec: [fofu.validate_frame_number] is not part of the
    sources: "validate key is a positive integer (fail with InvalidKey
    otherwise)". *)
Definition validate_frame_number (k : pyval) : result Z :=
  match k with
  | PInt n => if bool_decide (1 ≤ n) then Ok n else Raise InvalidKey
  | _ => Raise InvalidKey
  end.

(** [Frame(frame_number=n)]: an empty record on a
    [NoDatasetFrameSampleDocument] (odm/frame.py), whose [_sample_id] is
    [None]. *)
Definition new_Frame (w : World) (n : Z) : World * loc :=
  alloc (mkFrame false NoDatasetDoc None None n ∅) w.

(** Modelled from the spec: the construction of a [Frame] on a dataset
    document is not part of the sources. The spec's lookup says
    "Materialize into a Record": a new [Frame] backed by a dataset
    document holding the bag, entered in the registry of live
    instances. *)
Definition new_instance (w : World) (d : Bag) : World * loc :=
  let '(w1, l) := alloc (mkFrame false DatasetDoc (b_id d) (Some (b_sample d))
                           (b_fn d) (b_fields d)) w in
  (register (b_sample d) (b_fn d) l w1, l).

(** Modelled from the spec: [Frame.from_doc] and
    [dataset._frame_dict_to_doc], which [Frames._make_frame] calls, are not
    part of the sources. The docstring of [Frame] (frame.py) says that
    frames attached to samples in datasets are singletons,
    "sample.frames[frame_number] will always return the same Frame
    instance", and the spec keeps "a process-wide registry mapping
    (collection-name, parent-id) → live instances". Materialization
    returns the live instance that is registered for the parent and the
    frame number of the bag and still carries that frame number, as it
    is: the bag is not looked at. When there is none it makes a new
    instance. *)
Definition _make_frame (w : World) (d : Bag) : World * loc :=
  match _get_instances w (b_sample d) !! b_fn d with
  | Some l =>
      if bool_decide (frame_number (deref w l) = b_fn d) then (w, l)
      else new_instance w d
  | None => new_instance w d
  end.

(** Modelled from the spec: [Document._set_backing_doc] is not part of the
    sources; the record is bound to the dataset document and, when it is a
    [Frame], becomes a live instance of its parent. *)
Definition _set_backing_doc (w : World) (l : loc) (d : Bag) : World :=
  let f := deref w l in
  let w1 := set_heap (<[l := mkFrame (is_view f) DatasetDoc (b_id d) (Some (b_sample d))
                             (b_fn d) (b_fields d)]> (heap w)) w in
  if is_view f then w1 else register (b_sample d) (b_fn d) l w1.

(** [Frames._set_replacement] *)
Definition _set_replacement (w : World) (self : Frames) (frame : loc) : Frames :=
  set_replacements (<[frame_number (deref w frame) := frame]> (_replacements self)) self.

(** [Frames._get_frame_db] *)
Definition _get_frame_db (w : World) (sid : SampleId) (n : Z) : World * option Doc :=
  (log (find_one_call sid n) w, find_one sid n (coll w)).

(** [Frames._get_frame_numbers_db] *)
Definition _get_frame_numbers_db (w : World) (sid : SampleId) : World * gset Z :=
  (log (aggregate_call sid) w,
   list_to_set (d_fn <$> List.filter (of_sample sid) (coll w))).

(** [Frames._iter_frames_db]: match the parent, sort by frame number. *)
Definition _iter_frames_db (w : World) (sid : SampleId) : World * list Doc :=
  (log (aggregate_call sid) w,
   merge_sort fn_le (List.filter (of_sample sid) (coll w))).

(** [Frames.__getitem__] *)
Definition __getitem__ (w : World) (self : Frames) (frame_number : pyval)
  : result (World * Frames * loc) :=
  n ← validate_frame_number frame_number;
  match _replacements self !! n with
  | Some frame => Ok (w, self, frame)
  | None =>
      match s_id (_sample self) with
      | None =>
          let '(w1, frame) := new_Frame w n in
          Ok (w1, _set_replacement w1 self frame, frame)
      | Some sid =>
          let '(w1, d) :=
            if _delete_all self || bool_decide (PInt n ∈ _delete_frames self)
            then (w, None)
            else _get_frame_db w sid n in
          let d' := match d with
                    | Some doc => bag_of_doc doc
                    | None => mkBag None sid n ∅
                    end in
          let '(w2, frame) := _make_frame w1 d' in
          Ok (w2, _set_replacement w2 self frame, frame)
      end
  end.

(** [Frames.__delitem__] *)
Definition __delitem__ (self : Frames) (frame_number : pyval) : Frames :=
  let repl := match frame_number with
              | PInt n => delete n (_replacements self)
              | _ => _replacements self
              end in
  match s_id (_sample self) with
  | None => set_replacements repl self
  | Some _ =>
      mkFrames (_sample self) repl ({[frame_number]} ∪ _delete_frames self) (_delete_all self)
  end.



(** [Frames._get_frame_numbers] *)
Definition _get_frame_numbers (w : World) (self : Frames) : World * gset Z :=
  let frame_numbers := dom (_replacements self) in
  match s_id (_sample self) with
  | None => (w, frame_numbers)
  | Some sid =>
      if _delete_all self then (w, frame_numbers)
      else
        let '(w1, db) := _get_frame_numbers_db w sid in
        (w1, filter (λ n, PInt n ∉ _delete_frames self) (frame_numbers ∪ db))
  end.

(** [Frames.__len__] *)
Definition __len__ (w : World) (self : Frames) : World * nat :=
  let '(w1, s) := _get_frame_numbers w self in (w1, size s).

(** [Frames.__contains__] *)
Definition __contains__ (w : World) (self : Frames) (frame_number : pyval) : World * bool :=
  let '(w1, s) := _get_frame_numbers w self in
  (w1, match frame_number with
       | PInt n => bool_decide (n ∈ s)
       | _ => false
       end).

(** [Frames.keys], run to exhaustion. *)
Definition keys (w : World) (self : Frames) : World * list Z :=
  let '(w1, s) := _get_frame_numbers w self in
  (w1, merge_sort Z.le (elements s)).

(** Modelled from the spec: [set_field(field, value, create=expand_schema)]
    is not part of the sources; copying a field bag expands the schema, or
    fails with [SchemaViolation] when "expansion is disallowed and an
    unknown field is present". *)
Definition set_fields (w : World) (flds : gmap string pyval) (create : bool) : result World :=
  if create then Ok (set_schema (schema w ∪ dom flds) w)
  else if bool_decide (dom flds ⊆ schema w) then Ok w
  else Raise SchemaViolation.

(** Modelled from the spec: [Document.copy] is not part of the sources; the
    copy is a new transient [Frame] with the same fields. *)
Definition copy (w : World) (frame : loc) : World * loc :=
  let f := deref w frame in
  alloc (mkFrame false NoDatasetDoc None None (frame_number f) (fields f)) w.

Definition set_frame_number (w : World) (frame : loc) (n : Z) : World :=
  let f := deref w frame in
  set_heap (<[frame := mkFrame (is_view f) (doc_cls f) (doc_id f) (f_sample_id f) n (fields f)]>
              (heap w)) w.

(** [Frames.add_frame]. The argument is a location of the heap, hence a
    [Frame] or a [FrameView]; an exception leaves world and cache as they
    were. In the store-backed branch the document is filled before the
    record that will hold it is chosen: the new [Frame()] of the source is
    allocated together with its backing document. *)
Definition add_frame (w : World) (self : Frames) (frame_number : pyval) (frame : loc)
    (expand_schema : bool) : result (World * Frames) :=
  n ← validate_frame_number frame_number;
  match s_id (_sample self) with
  | Some sid =>
      let _frame := deref w frame in
      w1 ← set_fields w (fields _frame) expand_schema;
      let doc := mkBag None sid n (fields _frame) in
      let '(w2, frame') :=
        if frame_in_db _frame then new_Frame w1 n else (w1, frame) in
      let w3 := _set_backing_doc w2 frame' doc in
      Ok (w3, _set_replacement w3 self frame')
  | None =>
      let '(w1, frame') :=
        if frame_in_db (deref w frame) then copy w frame else (w, frame) in
      let w2 := set_frame_number w1 frame' n in
      Ok (w2, _set_replacement w2 self frame')
  end.

(** [Frames.__setitem__] *)
Definition __setitem__ (w : World) (self : Frames) (frame_number : pyval) (frame : loc)
  : result (World * Frames) :=
  add_frame w self frame_number frame true.

(** [Frames.clear] *)
Definition clear (self : Frames) : Frames :=
  match s_id (_sample self) with
  | None => set_replacements ∅ self
  | Some _ => mkFrames (_sample self) ∅ ∅ true
  end.

(** ** Ordered iteration: [Frames._iter_frames] *)

(** The inner [while d["frame_number"] < frame_number] loop: the cursor
    moves forward through the scan; the flag reports [StopIteration]. *)
Fixpoint advance (d : Doc) (results : list Doc) (n : Z) : Doc * list Doc * bool :=
  if bool_decide (d_fn d < n) then
    match results with
    | [] => (d, [], true)
    | d' :: rs => advance d' rs n
    end
  else (d, results, false).

(** One pass through the body of the [while True] loop, up to the
    [yield]: the pending replacement of the cursor, else the stored
    document of the cursor unless its key is pending deletion. *)
Definition iter_yield (w : World) (self : Frames) (n : Z) (repl_done db_done : bool)
    (d : option Doc) : World * Frames * list loc :=
  match (if repl_done then None else _replacements self !! n), d with
  | Some frame, _ => (w, self, [frame])
  | None, Some doc =>
      if negb db_done && bool_decide (n = d_fn doc)
         && bool_decide (PInt n ∉ _delete_frames self)
      then
        let '(w', frame) := _make_frame w (bag_of_doc doc) in
        (w', _set_replacement w' self frame, [frame])
      else (w, self, [])
  | None, None => (w, self, [])
  end.

(** The rest of the body: [if not db_done: while ...]. *)
Definition iter_advance (db_done : bool) (d : option Doc) (results : list Doc) (n : Z)
  : option Doc * list Doc * bool :=
  match d with
  | Some doc =>
      if db_done then (d, results, true)
      else let '(doc', rs, stop) := advance doc results n in (Some doc', rs, stop)
  | None => (d, results, db_done)
  end.

(** The [while True] loop; [fuel] bounds the number of iterations. *)
Fixpoint iter_loop (fuel : nat) (max_repl_fn : Z) (w : World) (self : Frames)
    (n : Z) (repl_done db_done : bool) (d : option Doc) (results : list Doc)
  : option (World * Frames * list loc) :=
  match fuel with
  | O => None
  | S fuel' =>
      if repl_done && db_done then Some (w, self, [])
      else
        let '(w1, self1, out) := iter_yield w self n repl_done db_done d in
        let n' := n + 1 in
        let repl_done' := if repl_done then true else bool_decide (max_repl_fn < n') in
        let '(d', results', db_done') := iter_advance db_done d results n' in
        match iter_loop fuel' max_repl_fn w1 self1 n' repl_done' db_done' d' results' with
        | Some (w2, self2, rest) => Some (w2, self2, out ++ rest)
        | None => None
        end
  end.

(** [max(self._replacements.keys())], and [-1] when there is none. *)
Definition max_key (m : gmap Z loc) : Z :=
  match elements (dom m) with
  | [] => -1
  | k :: ks => foldr Z.max k ks
  end.

(** Iterations that the cursor can need: one past the largest key. *)
Definition iter_bound (max_repl_fn : Z) (docs : list Doc) : nat :=
  Z.to_nat (foldr Z.max max_repl_fn (d_fn <$> docs)) + 2.

(** [Frames._iter_frames], the generator run to exhaustion: the records
    it yields, in order, and the world and cache it leaves. *)
Definition _iter_frames (w : World) (self : Frames) : option (World * Frames * list loc) :=
  match s_id (_sample self) with
  | Some sid =>
      if _delete_all self then
        Some (w, self, omap (λ n, _replacements self !! n)
                         (merge_sort Z.le (elements (dom (_replacements self)))))
      else
        let max_repl_fn := max_key (_replacements self) in
        let repl_done := bool_decide (_replacements self = ∅) in
        let '(w1, results) := _iter_frames_db w sid in
        let '(d, rs, db_done) :=
          match results with
          | d :: rs => (Some d, rs, false)
          | [] => (None, [], true)
          end in
        iter_loop (iter_bound max_repl_fn results) max_repl_fn w1 self 1
                  repl_done db_done d rs
  | None =>
      Some (w, self, omap (λ n, _replacements self !! n)
                       (merge_sort Z.le (elements (dom (_replacements self)))))
  end.

(** [Frames.values] *)
Definition values (w : World) (self : Frames) : option (World * Frames * list loc) :=
  _iter_frames w self.

(** [Frames.items]: each record with its [frame_number]. *)
Definition items (w : World) (self : Frames) : option (World * Frames * list (Z * loc)) :=
  match _iter_frames w self with
  | Some (w', self', frames) =>
      Some (w', self', (λ l, (frame_number (deref w' l), l)) <$> frames)
  | None => None
  end.

(** ** Flush: [Frames.save] *)

(** [Frames._make_dict]: the record's fields without [_id], linked to the
    parent. *)
Definition _make_dict (w : World) (sid : SampleId) (frame : loc) : Bag :=
  let f := deref w frame in
  mkBag None sid (frame_number f) (fields f).

(** The functions of the flush return the world and cache they leave
    together with the exception raised, if any. *)
Abbreviation outcome := (World * Frames * option exn)%type.

(** [Frames._save_deletions] *)
Definition _save_deletions (flt : Faults) (w : World) (self : Frames) (sid : SampleId)
  : outcome :=
  let '(w1, self1) :=
    if _delete_all self then
      let w' := log (delete_many_call sid) (set_coll (delete_many sid (coll w)) w) in
      (_reset_docs w' sid, mkFrames (_sample self) (_replacements self) ∅ false)
    else (w, self) in
  if bool_decide (_delete_frames self1 = ∅) then (w1, self1, None)
  else
    match delete_fault flt with
    | Some errs => (log bulk_write_call w1, self1, Some (BulkWriteError errs))
    | None =>
        let docs := foldr (λ k ds, delete_one (on_pykey sid k) ds) (coll w1)
                      (elements (_delete_frames self1)) in
        let w2 := log bulk_write_call (set_coll docs w1) in
        (_reset_docs_for_sample w2 sid (_delete_frames self1),
         mkFrames (_sample self1) (_replacements self1) ∅ (_delete_all self1), None)
    end.

(** After [insert_many]: a record still on a [NoDatasetFrameSampleDocument]
    is bound to the inserted document, any other only receives its [_id]. *)
Definition bind_inserted (w : World) (fd : loc * Doc) : World :=
  let f := deref w fd.1 in
  match doc_cls f with
  | NoDatasetDoc => _set_backing_doc w fd.1 (bag_of_doc fd.2)
  | DatasetDoc =>
      set_heap (<[fd.1 := mkFrame (is_view f) DatasetDoc (Some (d_id fd.2)) (f_sample_id f)
                            (frame_number f) (fields f)]> (heap w)) w
  end.

(** [replacements.pop(frame.frame_number, None)] for every new frame. *)
Definition pop_new (w : World) (new_frames : list loc) (replacements : gmap Z loc)
  : gmap Z loc :=
  foldr (λ l r, delete (frame_number (deref w l)) r) replacements new_frames.

(** [Frames._save_replacements]. The dict [replacements] is the cache's
    own [_replacements] (the same object) when the registry has nothing for
    the parent, and a separate dict otherwise. The order in which a dict
    is traversed only decides the order of the documents in a batch. *)
Definition _save_replacements (flt : Faults) (w : World) (self : Frames) (sid : SampleId)
    (include_singletons : bool) : outcome :=
  let insts := if include_singletons then _get_instances w sid else ∅ in
  let aliased := bool_decide (insts = ∅) in
  let replacements := if aliased then _replacements self else _replacements self ∪ insts in
  if bool_decide (replacements = ∅) then (w, self, None)
  else
    let new_frames :=
      List.filter (λ l, negb (frame_in_db (deref w l))) (map_to_list replacements).*2 in
    let inserted : World * gmap Z loc * option exn :=
      match new_frames with
      | [] => (w, replacements, None)
      | _ =>
          let dicts := _make_dict w sid <$> new_frames in
          match insert_fault flt with
          | Some errs =>
              (log insert_many_call w, replacements,
               Some (match errs with
                     | msg :: _ => ValueError msg
                     | [] => IndexError
                     end))
          | None =>
              let docs := assign_ids (next_id w) dicts in
              let w1 := log insert_many_call
                          (set_next_id (next_id w + length docs)%nat
                             (set_coll (coll w ++ docs) w)) in
              let w2 := foldl bind_inserted w1 (zip new_frames docs) in
              (w2, pop_new w2 new_frames replacements, None)
          end
      end in
    match inserted with
    | (w1, _, Some e) => (w1, self, Some e)
    | (w2, replacements', None) =>
        let self' := if aliased then set_replacements replacements' self else self in
        if bool_decide (replacements' = ∅) then (w2, set_replacements ∅ self', None)
        else
          let ops := (λ kl, (kl.1, _make_dict w2 sid kl.2)) <$> map_to_list replacements' in
          match replace_fault flt with
          | Some errs => (log bulk_write_call w2, self', Some (BulkWriteError errs))
          | None =>
              let st := foldl (λ st op, upsert_one sid op.1 op.2 st)
                          (coll w2, next_id w2) ops in
              (log bulk_write_call (set_next_id st.2 (set_coll st.1 w2)),
               set_replacements ∅ self', None)
          end
    end.

(** [Frames.save] *)
Definition save (flt : Faults) (w : World) (self : Frames) : outcome :=
  match s_id (_sample self) with
  | None => (w, self, None)
  | Some sid =>
      match _save_deletions flt w self sid with
      | (w1, self1, Some e) => (w1, self1, Some e)
      | (w1, self1, None) => _save_replacements flt w1 self1 sid true
      end
  end.

(** [Frames.reload]. A sample outside a dataset has no [_dataset], so
    that [_frame_collection_name] cannot be read. *)
Definition reload (w : World) (self : Frames) : outcome :=
  let self' := mkFrames (_sample self) ∅ ∅ false in
  match s_id (_sample self) with
  | None => (w, self', Some AttributeError)
  | Some sid =>
      let '(w1, fns) := _get_frame_numbers w self' in
      (_sync_docs_for_sample w1 sid fns, self', None)
  end.

(** ** The filtered cache: class [FramesView] *)

Module FramesView.

(** What [FramesView.__init__] reads off the view. *)
Record View := mkView {
  _selected_fields : option (gset string);
  _excluded_fields : option (gset string);
  _filtered_fields : gset string;
  _needs_frames : bool;
  _contains_all_fields : bool;
}.

Record t := mk {
  frames : Frames;       (* the state inherited from [Frames] *)
  _view : View;
}.

(** Modelled from the spec: [DocumentView] is not part of the sources;
    "field access outside the selected set fails with
    FieldNotAccessible", and so does access to an excluded field. *)
Definition accessible (v : View) (field : string) : bool :=
  match _selected_fields v with
  | Some sf => bool_decide (field ∈ sf)
  | None => true
  end &&
  match _excluded_fields v with
  | Some ef => bool_decide (field ∉ ef)
  | None => true
  end.

(** [FramesView._make_frame]: the constructor [FrameView(doc, view, ...)];
    frame views are not singletons. *)
Definition _make_frame (w : World) (d : Bag) : World * loc :=
  alloc (mkFrame true DatasetDoc (b_id d) (Some (b_sample d)) (b_fn d) (b_fields d)) w.

(** [FramesView.add_frame]. The view is filled field by field and its
    [frame_number] set last; the new object is allocated with the result,
    and an exception leaves world and cache as they were. *)
Definition add_frame (w : World) (self : t) (frame_number : pyval) (frame : loc)
    (expand_schema : bool) : result (World * t) :=
  n ← validate_frame_number frame_number;
  match s_id (_sample (frames self)) with
  | None => Raise AttributeError
  | Some sid =>
      let flds := fields (deref w frame) in
      if bool_decide (set_Forall (λ field, accessible (_view self) field) (dom flds)) then
        w1 ← set_fields w flds expand_schema;
        let '(w2, frame_view) := _make_frame w1 (mkBag None sid n flds) in
        Ok (w2, mk (_set_replacement w2 (frames self) frame_view) (_view self))
      else Raise FieldNotAccessible
  end.

(** [FramesView.reload] *)
Definition reload (w : World) (self : t) : World * t :=
  (w, mk (mkFrames (_sample (frames self)) ∅ ∅ false) (_view self)).

End FramesView.


(** ** Further methods of [Frames] *)

(** [Frames.__bool__] *)
Definition __bool__ (w : World) (self : Frames) : World * bool :=
  let '(w1, n) := __len__ w self in (w1, bool_decide (0 < n)%nat).

(** [Frames.update] for a dict that maps frame numbers to [Frame] or
    [FrameView] instances, given by its items in order; for such a dict
    [isinstance(frame, dict)] is false. An exception of [add_frame] ends
    the loop and leaves the frames added so far. *)
Fixpoint update (w : World) (self : Frames) (frames : list (pyval * loc))
    (overwrite expand_schema : bool) : outcome :=
  match frames with
  | [] => (w, self, None)
  | (frame_number, frame) :: rest =>
      let '(w1, wanted_here) :=
        if overwrite then (w, true)
        else let '(w', present) := __contains__ w self frame_number in (w', negb present) in
      if wanted_here then
        match add_frame w1 self frame_number frame expand_schema with
        | Ok (w2, self2) => update w2 self2 rest overwrite expand_schema
        | Raise e => (w1, self, Some e)
        end
      else update w1 self rest overwrite expand_schema
  end.

(** *** The iterator protocol: [__iter__] and [__next__] *)

(** The generator object made by [keys()]: its body, which takes the
    snapshot of the frame numbers, runs at the first [next]. *)
Inductive KeysGen :=
| gen_created
| gen_suspended (rest : list Z).

(** The cache together with its attribute [_iter]. *)
Record FramesIter := mkIter {
  cache : Frames;
  _iter : option KeysGen;
}.

Inductive next_outcome :=
| Yielded (k : Z)
| StopIteration
| TypeError.          (* [next(None)] *)

(** [Frames.__iter__]: the object itself, with a new generator in [_iter]. *)
Definition __iter__ (self : FramesIter) : FramesIter :=
  mkIter (cache self) (Some gen_created).

(** [Frames.__next__] *)
Definition __next__ (w : World) (self : FramesIter) : World * FramesIter * next_outcome :=
  match _iter self with
  | None => (w, self, TypeError)
  | Some g =>
      let '(w1, ks) :=
        match g with
        | gen_created => keys w (cache self)
        | gen_suspended rest => (w, rest)
        end in
      match ks with
      | k :: rest => (w1, mkIter (cache self) (Some (gen_suspended rest)), Yielded k)
      | [] => (w1, mkIter (cache self) None, StopIteration)
      end
  end.

(** A [for] statement over the object after [iter()]: [next] is called
    until it does not yield; at most [fuel] calls. *)
Fixpoint drain (fuel : nat) (w : World) (self : FramesIter)
  : World * FramesIter * list next_outcome :=
  match fuel with
  | O => (w, self, [])
  | S fuel' =>
      let '(w1, self1, o) := __next__ w self in
      match o with
      | Yielded _ =>
          let '(w2, self2, os) := drain fuel' w1 self1 in (w2, self2, o :: os)
      | _ => (w1, self1, [o])
      end
  end.

(** *** [Frames.first] *)

(** [next(self._iter_frames())] on a store-backed parent: the loop of
    [_iter_frames] up to its first [yield]. *)
Fixpoint iter_loop_first (fuel : nat) (max_repl_fn : Z) (w : World) (self : Frames)
    (n : Z) (repl_done db_done : bool) (d : option Doc) (results : list Doc)
  : option (World * Frames * option loc) :=
  match fuel with
  | O => None
  | S fuel' =>
      if repl_done && db_done then Some (w, self, None)
      else
        let '(w1, self1, out) := iter_yield w self n repl_done db_done d in
        match out with
        | frame :: _ => Some (w1, self1, Some frame)
        | [] =>
            let n' := n + 1 in
            let repl_done' := if repl_done then true else bool_decide (max_repl_fn < n') in
            let '(d', results', db_done') := iter_advance db_done d results n' in
            iter_loop_first fuel' max_repl_fn w1 self1 n' repl_done' db_done' d' results'
        end
  end.

(** [next(self.values())]: [None] stands for [StopIteration]. *)
Definition next_values (w : World) (self : Frames) : option (World * Frames * option loc) :=
  let from_replacements :=
    match merge_sort Z.le (elements (dom (_replacements self))) with
    | n :: _ => _replacements self !! n
    | [] => None
    end in
  match s_id (_sample self) with
  | Some sid =>
      if _delete_all self then Some (w, self, from_replacements)
      else
        let max_repl_fn := max_key (_replacements self) in
        let repl_done := bool_decide (_replacements self = ∅) in
        let '(w1, results) := _iter_frames_db w sid in
        let '(d, rs, db_done) :=
          match results with
          | d :: rs => (Some d, rs, false)
          | [] => (None, [], true)
          end in
        iter_loop_first (iter_bound max_repl_fn results) max_repl_fn w1 self 1
                        repl_done db_done d rs
  | None => Some (w, self, from_replacements)
  end.

(** [Frames.first]; [id_str] renders [self._sample.id]. *)
Definition first (id_str : SampleId → string) (w : World) (self : Frames)
  : option (World * Frames * result loc) :=
  match next_values w self with
  | Some (w1, self1, Some frame) => Some (w1, self1, Ok frame)
  | Some (w1, self1, None) =>
      let shown := match s_id (_sample self) with
                   | Some sid => " '" +:+ id_str sid +:+ "'"
                   | None => EmptyString
                   end in
      Some (w1, self1, Raise (ValueError ("Sample" +:+ shown +:+ " has no frame labels")))
  | None => None
  end.

(** ** Backing documents: [DatasetFrameSampleDocument] (odm/frame.py) *)

(** [str.split(".")]: the pieces between the dots, at least one. *)
Fixpoint split_dot (s : string) : list string :=
  match s with
  | EmptyString => [EmptyString]
  | String c s' =>
      if Ascii.eqb c "."%char then EmptyString :: split_dot s'
      else match split_dot s' with
           | h :: t => String c h :: t
           | [] => [String c EmptyString]
           end
  end.

(** [DatasetFrameSampleDocument._sample_collection_name], as a function of
    [cls.__name__]: [".".join(cls.__name__.split(".")[1:])]. *)
Definition _sample_collection_name (__name__ : string) : string :=
  String.concat "." (tail (split_dot __name__)).


(** ** Vocabulary of the statements *)

(** The [Frame] that materializes a stored document. *)
Definition frame_of_doc (d : Doc) : FrameObj :=
  mkFrame false DatasetDoc (Some (d_id d)) (Some (d_sample d)) (d_fn d) (d_fields d).

(** The part of the ordered scan that the cursor has not passed. *)
Definition remaining (db_done : bool) (d : option Doc) (results : list Doc) : list Doc :=
  if db_done then []
  else match d with
       | Some doc => doc :: results
       | None => []
       end.

(** A key that ordered iteration has to yield: it has a pending
    replacement, or it is stored and not pending deletion. *)
Definition wanted (R0 : gmap Z loc) (D : gset pyval) (rem : list Doc) (k : Z) : Prop :=
  is_Some (R0 !! k) ∨ ((∃ x, x ∈ rem ∧ d_fn x = k) ∧ PInt k ∉ D).

(** Invariant of the [while True] loop of [_iter_frames] at its head;
    [R0] are the pending replacements and [D] the pending deletes at the
    start of the iteration. *)
Definition loop_inv (R0 : gmap Z loc) (D : gset pyval) (max_repl_fn : Z)
    (w : World) (self : Frames) (n : Z) (repl_done db_done : bool)
    (d : option Doc) (results : list Doc) : Prop :=
  1 ≤ n ∧
  _delete_frames self = D ∧
  (∀ k, n ≤ k → _replacements self !! k = R0 !! k) ∧
  (∀ k, is_Some (R0 !! k) → k ≤ max_repl_fn) ∧
  (repl_done = true → max_repl_fn < n) ∧
  (db_done = false →
     ∃ doc, d = Some doc ∧ n ≤ d_fn doc ∧ StronglySorted fn_le (doc :: results)) ∧
  (∀ k l, R0 !! k = Some l → ∃ f, heap w !! l = Some f ∧ frame_number f = k).

(** What the loop has produced when it stops, started at cursor [n] with
    [rem] still to scan. *)
Definition loop_post (R0 : gmap Z loc) (D : gset pyval) (w : World) (n : Z)
    (rem : list Doc) (res : World * Frames * list loc) : Prop :=
  let key := λ l, frame_number (deref res.1.1 l) in
  (∀ l, is_Some (heap w !! l) → heap res.1.1 !! l = heap w !! l) ∧
  StronglySorted Z.lt (key <$> res.2) ∧
  (∀ k, k ∈ key <$> res.2 ↔ n ≤ k ∧ wanted R0 D rem k) ∧
  (∀ l, l ∈ res.2 →
     R0 !! key l = Some l ∨
     (R0 !! key l = None ∧ ∃ x, x ∈ rem ∧ d_fn x = key l)).

(** The live instance that materialization returns for parent [sid] and
    frame number [n]: it is registered under them and carries [n]. *)
Definition live (w : World) (sid : SampleId) (n : Z) (l : loc) : Prop :=
  _get_instances w sid !! n = Some l ∧ frame_number (deref w l) = n.


(** The collection holds a document of parent [sid] with key [n]. *)
Definition stored (w : World) (sid : SampleId) (n : Z) : Prop :=
  ∃ d, d ∈ coll w ∧ d_sample d = sid ∧ d_fn d = n.

(** The pending replacements are keyed by the frame number of the record
    they hold, and hold records of the heap. *)
Definition replacements_wf (w : World) (self : Frames) : Prop :=
  ∀ n l, _replacements self !! n = Some l → ∃ f, heap w !! l = Some f ∧ frame_number f = n.

(** An exception that wraps the first of the write errors of a failed
    batch: [ValueError(bwe.details["writeErrors"][0]["errmsg"])]. *)
Definition wraps_first_error (errs : list string) (e : exn) : Prop :=
  ∃ msg rest, errs = msg :: rest ∧ e = ValueError msg.


(** ** Vocabulary of the further properties *)

(** The frame numbers that [_get_frame_numbers] answers with, in terms of
    the state of the cache and of the collection. *)
Definition effective (w : World) (self : Frames) (n : Z) : Prop :=
  match s_id (_sample self) with
  | None => n ∈ dom (_replacements self)
  | Some sid =>
      if _delete_all self then n ∈ dom (_replacements self)
      else (n ∈ dom (_replacements self) ∨ stored w sid n) ∧ PInt n ∉ _delete_frames self
  end.

(** The documents of the collection that belong to other parents. *)
Definition others (sid : SampleId) (docs : list Doc) : list Doc :=
  List.filter (λ d, negb (of_sample sid d)) docs.
Arguments others : simpl never.

(** The string has a dot. *)
Fixpoint has_dot (s : string) : bool :=
  match s with
  | EmptyString => false
  | String c s' => Ascii.eqb c "."%char || has_dot s'
  end.


(** ** Example data *)

(** A collection with the frames 1, 3 and 5 of sample 7 and one frame of
    another sample. *)
Definition ex_docs : list Doc :=
  [ mkDoc 10 7 1 {["label" := PStr "one"]};
    mkDoc 11 7 3 {["label" := PStr "three"]};
    mkDoc 12 7 5 {["label" := PStr "five"]};
    mkDoc 13 8 2 {["label" := PStr "other"]} ].

(** The record [R2], staged for frame 2 but never persisted. *)
Definition ex_R2 : FrameObj :=
  mkFrame false DatasetDoc None (Some 7%nat) 2 {["label" := PStr "cat"]}.

(** The world of the iteration scenario: [R2] lives at location 0. *)
Definition ex_world : World :=
  mkWorld {[ 0%nat := ex_R2 ]} ex_docs 20 ∅ {["label"]} [].

(** [pending_replacements = {2: R2}], [pending_deletes = {3}]. *)
Definition ex_frames : Frames :=
  mkFrames (mkSample (Some 7%nat)) {[ 2 := 0%nat ]} {[ PInt 3 ]} false.

(** A transient [Frame] made by the caller, at location 0. *)
Definition ex_input : FrameObj :=
  mkFrame false NoDatasetDoc None None 1 {["label" := PStr "dog"]}.

Definition ex_world_input : World :=
  mkWorld {[ 0%nat := ex_input ]} ex_docs 20 ∅ {["label"]} [].

(** A cache of sample 7 with nothing pending, and one of a sample that
    is in no dataset. *)
Definition ex_backed : Frames := __init__ (mkSample (Some 7%nat)).
Definition ex_transient : Frames := __init__ (mkSample None).

(** A frame of sample 7 that was materialized from the collection (it
    carries the [_id] of its document), is live in the registry, and was
    edited in memory since. *)
Definition ex_edited : FrameObj :=
  mkFrame false DatasetDoc (Some 10%nat) (Some 7%nat) 1 {["label" := PStr "edited"]}.

Definition ex_world_edited : World :=
  mkWorld {[ 0%nat := ex_edited ]} ex_docs 20 {[ 7%nat := {[ 1 := 0%nat ]} ]} {["label"]} [].

(** The edited frame is pending in the cache. *)
Definition ex_frames_edited : Frames :=
  mkFrames (mkSample (Some 7%nat)) {[ 1 := 0%nat ]} ∅ false.

(** A view that selects and filters nothing. *)
Definition ex_view : FramesView.View := FramesView.mkView None None ∅ false true.
Definition ex_frames_view : FramesView.t := FramesView.mk ex_backed ex_view.

(** Stores whose batched insert, respectively batch of replaces, fails
    with two write errors. *)
Definition ex_insert_fails : Faults :=
  mkFaults None (Some ["E11000 duplicate key"; "second error"]) None.
Definition ex_replace_fails : Faults :=
  mkFaults None None (Some ["first error"; "second error"]).

(** The caller's transient frame, pending for frame 1. *)
Definition ex_frames_input : Frames :=
  mkFrames (mkSample (Some 7%nat)) {[ 1 := 0%nat ]} ∅ false.

(** The filtered cache in which the edited frame is pending. *)
Definition ex_view_edited : FramesView.t := FramesView.mk ex_frames_edited ex_view.


(** The cache after [clear()] on sample 7 with [R2] staged since: a
    delete-all is pending. *)
Definition ex_frames_cleared : Frames :=
  mkFrames (mkSample (Some 7%nat)) {[ 2 := 0%nat ]} ∅ true.

(** A world in which [R2] lives at location 0 and a transient [Frame]
    made by the caller at location 1. *)
Definition ex_world_two : World :=
  mkWorld {[ 0%nat := ex_R2; 1%nat := ex_input ]} ex_docs 20 ∅ {["label"]} [].


(** * Properties *)

(** ** Heap and registry facts *)

Arguments deref : simpl never.
Arguments alloc : simpl never.
Arguments _make_frame : simpl never.
Arguments new_instance : simpl never.

Lemma alloc_fresh f w : heap w !! (alloc f w).2 = None.
Proof.
  unfold alloc. simpl. apply not_elem_of_dom, is_fresh.
Qed.

Lemma alloc_deref f w : deref (alloc f w).1 (alloc f w).2 = f.
Proof.
  unfold alloc, deref. simpl. by rewrite lookup_total_insert_eq.
Qed.

Lemma alloc_heap f w : heap (alloc f w).1 = <[(alloc f w).2 := f]> (heap w).
Proof. done. Qed.

Lemma alloc_other f w l : is_Some (heap w !! l) → heap (alloc f w).1 !! l = heap w !! l.
Proof.
  intros Hl. rewrite alloc_heap. apply lookup_insert_ne.
  intros <-. rewrite alloc_fresh in Hl. by destruct Hl.
Qed.

Lemma alloc_frame w f : 
  coll (alloc f w).1 = coll w ∧ trace (alloc f w).1 = trace w ∧
  instances (alloc f w).1 = instances w ∧ schema (alloc f w).1 = schema w ∧
  next_id (alloc f w).1 = next_id w.
Proof. done. Qed.

Lemma register_heap sid n l w : heap (register sid n l w) = heap w.
Proof. done. Qed.

Lemma new_instance_spec w d :
  let r := new_instance w d in
  heap w !! r.2 = None ∧
  heap r.1 = <[r.2 := mkFrame false DatasetDoc (b_id d) (Some (b_sample d)) (b_fn d) (b_fields d)]> (heap w) ∧
  coll r.1 = coll w ∧ trace r.1 = trace w ∧ next_id r.1 = next_id w ∧ schema r.1 = schema w.
Proof.
  unfold new_instance.
  pose proof (alloc_fresh (mkFrame false DatasetDoc (b_id d) (Some (b_sample d)) (b_fn d) (b_fields d)) w) as Hf.
  destruct (alloc _ w) as [w1 l] eqn:Ha. simpl in *.
  unfold alloc in Ha. injection Ha as <- <-. done.
Qed.

Lemma new_instance_deref w d :
  deref (new_instance w d).1 (new_instance w d).2
  = mkFrame false DatasetDoc (b_id d) (Some (b_sample d)) (b_fn d) (b_fields d).
Proof.
  destruct (new_instance_spec w d) as (_ & Hh & _).
  unfold deref. rewrite Hh. by rewrite lookup_total_insert_eq.
Qed.

(** Materialization returns the live instance of the bag's parent and
    frame number, or else makes a new one. *)
Lemma make_frame_cases w d :
  (∃ l, live w (b_sample d) (b_fn d) l ∧ _make_frame w d = (w, l)) ∨
  ((∀ l, ¬ live w (b_sample d) (b_fn d) l) ∧ _make_frame w d = new_instance w d).
Proof.
  unfold _make_frame, live.
  destruct (_get_instances w (b_sample d) !! b_fn d) as [l|] eqn:Hl.
  - destruct (bool_decide (frame_number (deref w l) = b_fn d)) eqn:Hn.
    + apply bool_decide_eq_true in Hn. left. by exists l.
    + apply bool_decide_eq_false in Hn. right. split; [|done].
      intros l' [[= <-] ?]. done.
  - right. split; [|done]. by intros l' [? _].
Qed.

Lemma deref_in_heap w l : frame_number (deref w l) ≠ 0 → is_Some (heap w !! l).
Proof.
  unfold deref, lookup_total, map_lookup_total.
  destruct (heap w !! l) as [f|]; [by eexists|done].
Qed.

Lemma make_frame_frame w d :
  let r := _make_frame w d in
  coll r.1 = coll w ∧ trace r.1 = trace w ∧ next_id r.1 = next_id w ∧ schema r.1 = schema w ∧
  frame_number (deref r.1 r.2) = b_fn d ∧
  (∀ l, is_Some (heap w !! l) → heap r.1 !! l = heap w !! l) ∧
  (b_fn d ≠ 0 → is_Some (heap r.1 !! r.2)).
Proof.
  destruct (make_frame_cases w d) as [(l & [Hl Hn] & ->)|[_ ->]]; cbn zeta.
  - cbn [fst snd]. split_and!; try done. intros Hd. apply deref_in_heap. by rewrite Hn.
  - destruct (new_instance_spec w d) as (Hf & Hh & Hc & Ht & Hi & Hs).
    rewrite new_instance_deref. split_and!; try done.
    + intros l Hl. rewrite Hh. apply lookup_insert_ne. intros <-.
      rewrite Hf in Hl. by destruct Hl.
    + intros _. rewrite Hh, lookup_insert_eq. by eexists.
Qed.

Lemma find_one_key sid n docs d :
  find_one sid n docs = Some d → d_sample d = sid ∧ d_fn d = n ∧ In d docs.
Proof.
  unfold find_one. intros H. apply find_some in H as [Hin Hk].
  unfold on_key in Hk. apply bool_decide_eq_true in Hk as [? ?]. done.
Qed.

(** ** Delete *)

Lemma delitem_replacements (self : Frames) (k : pyval) (n : Z) :
  _replacements (__delitem__ self k) !! n
  = if decide (k = PInt n) then None else _replacements self !! n.
Proof.
  assert (match k with
          | PInt n0 => delete n0 (_replacements self)
          | _ => _replacements self
          end !! n
          = if decide (k = PInt n) then None else _replacements self !! n) as Hrepl.
  { destruct k as [|m|s]; case_decide; simplify_eq; try done.
    - by rewrite lookup_delete_eq.
    - rewrite lookup_delete_ne; [done|congruence]. }
  unfold __delitem__. by destruct (s_id (_sample self)).
Qed.

Lemma delitem_delete_frames (self : Frames) (k : pyval) :
  _delete_frames (__delitem__ self k)
  = (if _in_db self then {[k]} ∪ _delete_frames self else _delete_frames self).
Proof. unfold __delitem__, _in_db. by destruct (s_id (_sample self)). Qed.

Lemma delitem_sample (self : Frames) (k : pyval) :
  _sample (__delitem__ self k) = _sample self ∧
  _delete_all (__delitem__ self k) = _delete_all self.
Proof. unfold __delitem__. by destruct (s_id (_sample self)). Qed.

Lemma delitem_pending (self : Frames) (sid : SampleId) (k : pyval) :
  s_id (_sample self) = Some sid → k ∈ _delete_frames (__delitem__ self k).
Proof.
  intros Hs. rewrite delitem_delete_frames. unfold _in_db. rewrite Hs.
  rewrite bool_decide_eq_true_2 by eauto. apply elem_of_union. left.
  by apply elem_of_singleton.
Qed.


(** ** Lookup *)

Lemma validate_frame_number_pos n : 1 ≤ n → validate_frame_number (PInt n) = Ok n.
Proof. intros. unfold validate_frame_number. by rewrite bool_decide_eq_true_2. Qed.

Lemma set_replacement_lookup w self frame :
  _replacements (_set_replacement w self frame) !! frame_number (deref w frame) = Some frame.
Proof. unfold _set_replacement. simpl. apply lookup_insert_eq. Qed.

Lemma getitem_staged w self n frame :
  1 ≤ n → _replacements self !! n = Some frame →
  __getitem__ w self (PInt n) = Ok (w, self, frame).
Proof.
  intros Hn Hr. unfold __getitem__. rewrite validate_frame_number_pos by done.
  simpl. by rewrite Hr.
Qed.

(** What a lookup that misses the pending replacements does: it asks the
    store unless the key is masked by a pending delete, and stages under
    the key the record that materialization gives it, which is the live
    instance of the key when there is one and a new record otherwise. *)
Lemma getitem_miss w self n :
  1 ≤ n → _replacements self !! n = None →
  ∃ w1 frame,
    __getitem__ w self (PInt n)
    = Ok (w1, set_replacements (<[n := frame]> (_replacements self)) self, frame) ∧
    frame_number (deref w1 frame) = n ∧
    (∀ l, is_Some (heap w !! l) → heap w1 !! l = heap w !! l) ∧
    coll w1 = coll w ∧
    match s_id (_sample self) with
    | None =>
        trace w1 = trace w ∧ heap w !! frame = None ∧
        deref w1 frame = mkFrame false NoDatasetDoc None None n ∅
    | Some sid =>
        let masked := _delete_all self || bool_decide (PInt n ∈ _delete_frames self) in
        trace w1 = (if masked then trace w else trace w ++ [find_one_call sid n]) ∧
        ((live w sid n frame ∧
          w1 = (if masked then w else log (find_one_call sid n) w)) ∨
         ((∀ l, ¬ live w sid n l) ∧ heap w !! frame = None ∧
          deref w1 frame
          = match (if masked then None else find_one sid n (coll w)) with
            | Some d => frame_of_doc d
            | None => mkFrame false DatasetDoc None (Some sid) n ∅
            end))
    end.
Proof.
  intros Hn Hr. unfold __getitem__. rewrite validate_frame_number_pos by done.
  cbn. rewrite Hr.
  destruct (s_id (_sample self)) as [sid|] eqn:Hs.
  - set (masked := _delete_all self || bool_decide (PInt n ∈ _delete_frames self)).
    set (found := if masked then None else find_one sid n (coll w)).
    set (w0 := if masked then w else log (find_one_call sid n) w).
    set (bag := match found with
                | Some doc => bag_of_doc doc
                | None => mkBag None sid n ∅
                end).
    assert ((let '(w1, d) := if masked then (w, None) else _get_frame_db w sid n in
             let '(w2, frame) := _make_frame w1 match d with
                                                | Some doc => bag_of_doc doc
                                                | None => mkBag None sid n ∅
                                                end in
             Ok (w2, _set_replacement w2 self frame, frame))
            = (let '(w2, frame) := _make_frame w0 bag in
               Ok (w2, _set_replacement w2 self frame, frame))) as ->.
    { subst bag found w0. by destruct masked. }
    assert (b_sample bag = sid ∧ b_fn bag = n) as [Hbs Hbn].
    { subst bag. destruct found as [doc|] eqn:Hf; [|done].
      subst found. destruct masked; [done|].
      by apply find_one_key in Hf as (? & ? & _). }
    assert (coll w0 = coll w ∧ heap w0 = heap w ∧
            trace w0 = (if masked then trace w else trace w ++ [find_one_call sid n]) ∧
            ∀ l, live w0 sid n l ↔ live w sid n l) as (Hc0 & Hh0 & Ht0 & Hl0).
    { subst w0. by destruct masked. }
    pose proof (make_frame_frame w0 bag) as (Hc & Ht & _ & _ & Hfn & Ho & _).
    destruct (make_frame_cases w0 bag) as [(l & Hlive & Hmk)|[Hnone Hmk]].
    + rewrite Hmk in Hc, Ht, Hfn, Ho |- *. cbn [fst snd] in *.
      rewrite Hbs, Hbn in Hlive. rewrite Hbn in Hfn.
      exists w0, l. unfold _set_replacement. rewrite Hfn.
      split; [done|]. split; [done|].
      split; [intros l' Hl'; by rewrite Hh0|].
      split; [done|]. cbn zeta. split; [done|].
      left. split; [by apply Hl0|done].
    + rewrite Hmk in Hc, Ht, Hfn, Ho |- *.
      destruct (new_instance_spec w0 bag) as (Hf & _).
      pose proof (new_instance_deref w0 bag) as Hd.
      destruct (new_instance w0 bag) as [w2 frame]. cbn [fst snd] in *.
      rewrite Hbn in Hfn. exists w2, frame. unfold _set_replacement. rewrite Hfn.
      split; [done|]. split; [done|].
      split; [intros l Hl; rewrite <- Hh0 in Hl |- *; by apply Ho|].
      split; [congruence|]. cbn zeta. split; [congruence|].
      right. split_and!.
      * intros l Hl. apply (Hnone l). rewrite Hbs, Hbn. by apply Hl0.
      * by rewrite <- Hh0.
      * rewrite Hd. subst bag. fold masked. fold found.
        destruct found as [doc|]; [done|]. done.
  - pose proof (alloc_fresh (mkFrame false NoDatasetDoc None None n ∅) w) as Hf.
    pose proof (alloc_deref (mkFrame false NoDatasetDoc None None n ∅) w) as Hd.
    pose proof (alloc_other (mkFrame false NoDatasetDoc None None n ∅) w) as Ho.
    pose proof (alloc_frame w (mkFrame false NoDatasetDoc None None n ∅)) as (Hc & Ht & _).
    unfold new_Frame.
    destruct (alloc _ w) as [w1 frame]. cbn in *.
    exists w1, frame. unfold _set_replacement. rewrite Hd. by split_and!.
Qed.

(** C6: two lookups of a valid key in a row return the identical record.
    Whatever the parent (transient or store-backed) and whatever the
    pending state, the first [frames[n]] returns a record that is staged
    under [n] in the pending replacements, and the second lookup returns
    the same location and changes neither the world nor the cache. *)
Theorem getitem_identity_stable (w : World) (self : Frames) (n : Z) :
  1 ≤ n →
  ∃ w1 self1 frame,
    __getitem__ w self (PInt n) = Ok (w1, self1, frame) ∧
    _replacements self1 !! n = Some frame ∧
    __getitem__ w1 self1 (PInt n) = Ok (w1, self1, frame).
Proof.
  intros Hn. destruct (_replacements self !! n) as [frame|] eqn:Hr.
  - exists w, self, frame. split_and!; [by apply getitem_staged | done | by apply getitem_staged].
  - destruct (getitem_miss w self n Hn Hr) as (w1 & frame & Hget & _).
    exists w1, (set_replacements (<[n := frame]> (_replacements self)) self), frame.
    assert (_replacements (set_replacements (<[n := frame]> (_replacements self)) self) !! n
            = Some frame) as Hst by apply lookup_insert_eq.
    split_and!; [done | done | by apply getitem_staged].
Qed.

(** C7, as the code has it: on a store-backed parent, [del frames[n]]
    followed by [frames[n]] does not consult the collection, since the
    pending delete masks the lookup, and hands the bag of an empty frame to
    materialization. When a live [Frame] of the key exists, such as the
    one that an earlier [frames[n]] has materialized from the stored
    document, that instance is returned as it is, fields included, and the
    world is unchanged. Only when there is none is the record new and
    empty. *)
Theorem del_then_get_returns_live_instance
    (w : World) (self : Frames) (sid : SampleId) (n : Z) :
  s_id (_sample self) = Some sid →
  1 ≤ n →
  (∀ L, live w sid n L →
     ∃ self1,
       __getitem__ w (__delitem__ self (PInt n)) (PInt n) = Ok (w, self1, L) ∧
       _replacements self1 !! n = Some L) ∧
  ((∀ L, ¬ live w sid n L) →
     ∃ w1 self1 frame,
       __getitem__ w (__delitem__ self (PInt n)) (PInt n) = Ok (w1, self1, frame) ∧
       heap w !! frame = None ∧
       deref w1 frame = mkFrame false DatasetDoc None (Some sid) n ∅ ∧
       _replacements self1 !! n = Some frame ∧
       trace w1 = trace w ∧
       coll w1 = coll w).
Proof.
  intros Hs Hn.
  destruct (delitem_sample self (PInt n)) as [Hsample _].
  assert (_replacements (__delitem__ self (PInt n)) !! n = None) as Hr.
  { rewrite delitem_replacements. by rewrite decide_True. }
  pose proof (delitem_pending self sid (PInt n) Hs) as Hpend.
  destruct (getitem_miss w _ n Hn Hr) as (w1 & frame & Hget & Hnum & _ & Hc & Hcase).
  rewrite Hsample, Hs in Hcase. cbn zeta in Hcase.
  rewrite (bool_decide_eq_true_2 _ Hpend), orb_true_r in Hcase.
  destruct Hcase as [Ht Hcase].
  split.
  - intros L HL. destruct Hcase as [[[HL1 _] ->]|[Hnone _]].
    + destruct HL as [HL _]. assert (frame = L) as -> by congruence.
      eexists. split; [exact Hget|]. apply lookup_insert_eq.
    + by destruct (Hnone L).
  - intros Hnone. destruct Hcase as [[HL _]|(_ & Hfresh & Hd)].
    + by destruct (Hnone frame).
    + eexists w1, _, frame. split; [exact Hget|].
      split_and!; try done. apply lookup_insert_eq.
Qed.


(** ** Write *)

Lemma set_backing_doc_deref w l d :
  deref (_set_backing_doc w l d) l
  = mkFrame (is_view (deref w l)) DatasetDoc (b_id d) (Some (b_sample d)) (b_fn d) (b_fields d).
Proof.
  unfold _set_backing_doc. destruct (is_view (deref w l)); unfold deref; simpl;
    by rewrite lookup_total_insert_eq.
Qed.

Lemma set_backing_doc_frame w l d :
  coll (_set_backing_doc w l d) = coll w ∧ trace (_set_backing_doc w l d) = trace w ∧
  next_id (_set_backing_doc w l d) = next_id w ∧ schema (_set_backing_doc w l d) = schema w ∧
  heap (_set_backing_doc w l d)
  = <[l := mkFrame (is_view (deref w l)) DatasetDoc (b_id d) (Some (b_sample d))
             (b_fn d) (b_fields d)]> (heap w).
Proof. unfold _set_backing_doc. by destruct (is_view (deref w l)). Qed.

(** The store-backed branch of [add_frame] with schema expansion: the
    record that is staged is the argument itself when it is transient and
    a new [Frame] otherwise; it is bound to a document that carries the
    argument's fields. *)
Lemma add_frame_backed w self sid n r :
  s_id (_sample self) = Some sid → 1 ≤ n →
  ∃ w1 frame,
    add_frame w self (PInt n) r true
    = Ok (w1, set_replacements (<[n := frame]> (_replacements self)) self) ∧
    frame = (if frame_in_db (deref w r) then fresh (dom (heap w)) else r) ∧
    heap w1 = <[frame := mkFrame (if frame_in_db (deref w r) then false else is_view (deref w r))
                          DatasetDoc None (Some sid) n (fields (deref w r))]> (heap w) ∧
    coll w1 = coll w ∧ trace w1 = trace w ∧ next_id w1 = next_id w ∧
    instances w1
    = (if (if frame_in_db (deref w r) then false else is_view (deref w r)) then instances w
       else <[sid := <[n := frame]> (_get_instances w sid)]> (instances w)).
Proof.
  intros Hs Hn. unfold add_frame. rewrite validate_frame_number_pos by done.
  cbn. rewrite Hs. cbn.
  destruct (frame_in_db (deref w r)) eqn:Hdb.
  - unfold new_Frame.
    set (w0 := set_schema (schema w ∪ dom (fields (deref w r))) w).
    pose proof (alloc_deref (mkFrame false NoDatasetDoc None None n ∅) w0) as Hd.
    assert ((alloc (mkFrame false NoDatasetDoc None None n ∅) w0).2 = fresh (dom (heap w))) as Hl by done.
    assert (heap (alloc (mkFrame false NoDatasetDoc None None n ∅) w0).1
            = <[fresh (dom (heap w)) := mkFrame false NoDatasetDoc None None n ∅]> (heap w)) as Hh by done.
    pose proof (alloc_frame w0 (mkFrame false NoDatasetDoc None None n ∅)) as (Hc & Ht & Hi & _ & Hn').
    destruct (alloc _ w0) as [w2 frame]. cbn in *. subst frame.
    exists (_set_backing_doc w2 (fresh (dom (heap w))) (mkBag None sid n (fields (deref w r)))),
           (fresh (dom (heap w))).
    split_and!; try reflexivity.
    + unfold _set_replacement. by rewrite set_backing_doc_deref.
    + destruct (set_backing_doc_frame w2 (fresh (dom (heap w))) (mkBag None sid n (fields (deref w r))))
        as (_ & _ & _ & _ & ->).
      rewrite Hd, Hh. cbn. by rewrite insert_insert_eq.
    + by destruct (set_backing_doc_frame w2 (fresh (dom (heap w))) (mkBag None sid n (fields (deref w r)))) as (-> & _).
    + by destruct (set_backing_doc_frame w2 (fresh (dom (heap w))) (mkBag None sid n (fields (deref w r)))) as (_ & -> & _).
    + by destruct (set_backing_doc_frame w2 (fresh (dom (heap w))) (mkBag None sid n (fields (deref w r)))) as (_ & _ & -> & _).
    + unfold _set_backing_doc. rewrite Hd. cbn. unfold register, _get_instances. cbn.
      by rewrite Hi.
  - exists (_set_backing_doc (set_schema (schema w ∪ dom (fields (deref w r))) w) r
              (mkBag None sid n (fields (deref w r)))), r.
    split_and!; try reflexivity;
      [ unfold _set_replacement; by rewrite set_backing_doc_deref | .. ];
      unfold _set_backing_doc;
      replace (deref (set_schema (schema w ∪ dom (fields (deref w r))) w) r)
        with (deref w r) by done;
      by destruct (is_view (deref w r)).
Qed.

Lemma get_frame_numbers_backed w self sid :
  s_id (_sample self) = Some sid → _delete_all self = false →
  (_get_frame_numbers w self).2
  = filter (λ n, PInt n ∉ _delete_frames self)
      (dom (_replacements self) ∪ list_to_set (d_fn <$> List.filter (of_sample sid) (coll w))).
Proof. intros Hs Hd. unfold _get_frame_numbers. by rewrite Hs, Hd. Qed.

(** C2, as the code has it: on a store-backed parent without a pending
    delete-all, [del frames[n]] followed by [frames[n] = r] stages a
    replacement under [n], and a lookup returns it without touching the
    world; but the pending delete of [n] is still subtracted from the
    frame numbers, so that [n in frames] is false, [keys()] does not list
    [n], and [len] is what it was before the assignment. *)
Theorem del_then_set_not_in_frame_numbers
    (w : World) (self : Frames) (sid : SampleId) (n : Z) (r : loc) :
  s_id (_sample self) = Some sid →
  _delete_all self = false →
  1 ≤ n →
  ∃ w1 self1 frame,
    __setitem__ w (__delitem__ self (PInt n)) (PInt n) r = Ok (w1, self1) ∧
    _replacements self1 !! n = Some frame ∧
    __getitem__ w1 self1 (PInt n) = Ok (w1, self1, frame) ∧
    (__contains__ w1 self1 (PInt n)).2 = false ∧
    (n ∉ snd (keys w1 self1)) ∧
    (__len__ w1 self1).2 = (__len__ w1 (__delitem__ self (PInt n))).2.
Proof.
  intros Hs Hall Hn.
  destruct (delitem_sample self (PInt n)) as [Hsample Hda].
  assert (s_id (_sample (__delitem__ self (PInt n))) = Some sid) as Hs' by by rewrite Hsample.
  pose proof (delitem_pending self sid (PInt n) Hs) as Hin.
  destruct (add_frame_backed w _ sid n r Hs' Hn) as (w1 & frame & Hadd & _ & _ & Hc & _).
  set (self1 := set_replacements (<[n:=frame]> (_replacements (__delitem__ self (PInt n))))
                  (__delitem__ self (PInt n))) in *.
  assert (_replacements self1 !! n = Some frame) as Hst by apply lookup_insert_eq.
  assert (s_id (_sample self1) = Some sid) as Hs1 by done.
  assert (_delete_all self1 = false) as Hall1 by (cbn; congruence).
  assert (n ∉ (_get_frame_numbers w1 self1).2) as Hout.
  { rewrite (get_frame_numbers_backed _ _ sid) by done.
    intros [Hp _]%elem_of_filter. by apply Hp. }
  exists w1, self1, frame. split_and!; try done.
  - by apply getitem_staged.
  - unfold __contains__. destruct (_get_frame_numbers w1 self1) as [w2 s]. cbn in *.
    by apply bool_decide_eq_false_2.
  - unfold keys. destruct (_get_frame_numbers w1 self1) as [w2 s]. cbn in *.
    rewrite merge_sort_Permutation. by rewrite elem_of_elements.
  - unfold __len__.
    pose proof (get_frame_numbers_backed w1 self1 sid Hs1 Hall1) as E1.
    pose proof (get_frame_numbers_backed w1 (__delitem__ self (PInt n)) sid Hs') as E2.
    rewrite Hda in E2. specialize (E2 Hall).
    destruct (_get_frame_numbers w1 self1) as [w2 s].
    destruct (_get_frame_numbers w1 (__delitem__ self (PInt n))) as [w3 s'].
    cbn in *. subst s s'. f_equal. apply set_eq. intros m.
    rewrite !elem_of_filter, !elem_of_union, dom_insert, elem_of_union, elem_of_singleton.
    split; [|tauto]. intros [Hp [[->|?]|?]]; [by destruct Hp|tauto|tauto].
Qed.


(** ** The filtered cache *)

(** C8: [FramesView.add_frame] never aliases or mutates its argument.
    For a record [f] of the heap, a successful call allocates a location
    that was not in the heap (so it differs from [f]), gives it a
    [FrameView] with [f]'s fields and the key, stages that location, and
    changes nothing else in the heap: [f] is as it was. The unfiltered
    [Frames.add_frame] on the same cache state, given a transient [f],
    stages [f] itself. *)
Theorem view_add_frame_never_aliases
    (w : World) (self : FramesView.t) (n : Z) (f : loc) (fo : FrameObj) (es : bool) :
  heap w !! f = Some fo →
  (∀ w' self',
     FramesView.add_frame w self (PInt n) f es = Ok (w', self') →
     ∃ frame_view sid,
       s_id (_sample (FramesView.frames self)) = Some sid ∧
       heap w !! frame_view = None ∧
       frame_view ≠ f ∧
       _replacements (FramesView.frames self') !! n = Some frame_view ∧
       heap w' = <[frame_view := mkFrame true DatasetDoc None (Some sid) n (fields fo)]> (heap w) ∧
       heap w' !! f = Some fo) ∧
  (frame_in_db fo = false →
   ∀ w' fself',
     add_frame w (FramesView.frames self) (PInt n) f es = Ok (w', fself') →
     _replacements fself' !! n = Some f ∧
     frame_number (deref w' f) = n).
Proof.
  intros Hf.
  assert (deref w f = fo) as Hd.
  { unfold deref. by rewrite (lookup_total_correct _ _ _ Hf). }
  split.
  - intros w' self'. unfold FramesView.add_frame, validate_frame_number.
    destruct (bool_decide (1 ≤ n)) eqn:Hn; [cbn|by cbn].
    destruct (s_id (_sample (FramesView.frames self))) as [sid|] eqn:Hs; [|done].
    destruct (bool_decide (set_Forall _ _)) eqn:Hacc; [|done].
    rewrite Hd. unfold set_fields.
    assert (∀ w0, heap w0 = heap w →
      (let '(w2, frame_view) := FramesView._make_frame w0 (mkBag None sid n (fields fo)) in
       Ok (w2, FramesView.mk (_set_replacement w2 (FramesView.frames self) frame_view)
                 (FramesView._view self))) = Ok (w', self') →
      ∃ frame_view sid0, Some sid = Some sid0 ∧ heap w !! frame_view = None ∧ frame_view ≠ f ∧
        _replacements (FramesView.frames self') !! n = Some frame_view ∧
        heap w' = <[frame_view := mkFrame true DatasetDoc None (Some sid0) n (fields fo)]> (heap w) ∧
        heap w' !! f = Some fo) as Hmain.
    { intros w0 Hh0. unfold FramesView._make_frame. cbn.
      set (fv := mkFrame true DatasetDoc None (Some sid) n (fields fo)).
      pose proof (alloc_fresh fv w0) as Hfresh.
      pose proof (alloc_deref fv w0) as Hderef.
      pose proof (alloc_heap fv w0) as Hheap.
      destruct (alloc fv w0) as [w2 frame_view]. cbn in *.
      intros [= <- <-]. rewrite Hh0 in *.
      assert (frame_view ≠ f) as Hne by (intros ->; congruence).
      exists frame_view, sid. split_and!; try done.
      - cbn. pose proof (set_replacement_lookup w2 (FramesView.frames self) frame_view) as Hl.
        by rewrite Hderef in Hl.
      - rewrite Hheap. by rewrite lookup_insert_ne. }
    destruct es; cbn.
    + by apply Hmain.
    + destruct (bool_decide (dom (fields fo) ⊆ schema w)); [cbn|done]. by apply Hmain.
  - intros Htr w' fself'. unfold add_frame, validate_frame_number.
    destruct (bool_decide (1 ≤ n)) eqn:Hn; [cbn|by cbn].
    rewrite Hd, Htr.
    destruct (s_id (_sample (FramesView.frames self))) as [sid|] eqn:Hs.
    + unfold set_fields. destruct es; cbn.
      * intros [= <- <-]. rewrite set_backing_doc_deref. split; [|done].
        pose proof (set_replacement_lookup
          (_set_backing_doc (set_schema (schema w ∪ dom (fields fo)) w) f
             (mkBag None sid n (fields fo))) (FramesView.frames self) f) as Hl.
        by rewrite set_backing_doc_deref in Hl.
      * destruct (bool_decide (dom (fields fo) ⊆ schema w)); [cbn|done].
        intros [= <- <-]. rewrite set_backing_doc_deref. split; [|done].
        pose proof (set_replacement_lookup
          (_set_backing_doc w f (mkBag None sid n (fields fo))) (FramesView.frames self) f) as Hl.
        by rewrite set_backing_doc_deref in Hl.
    + intros [= <- <-].
      assert (frame_number (deref (set_frame_number w f n) f) = n) as Hnum.
      { unfold set_frame_number, deref. cbn. by rewrite lookup_total_insert_eq. }
      split; [|done].
      pose proof (set_replacement_lookup (set_frame_number w f n) (FramesView.frames self) f) as Hl.
      by rewrite Hnum in Hl.
Qed.

(** ** Reload *)

Lemma resync_trace sid w kl :
  ∃ extra, trace (resync sid w kl) = trace w ++ extra.
Proof. unfold resync. destruct (find_one _ _ _); by eexists. Qed.

Lemma sync_docs_trace w sid fns :
  ∃ extra, trace (_sync_docs_for_sample w sid fns) = trace w ++ extra.
Proof.
  unfold _sync_docs_for_sample. cbn.
  generalize (map_to_list (filter (λ kl, kl.1 ∈ fns) (_get_instances w sid))).
  intros ls. induction ls as [|kl ls [extra IH]]; cbn.
  - exists []. by rewrite app_nil_r.
  - destruct (resync_trace sid (foldr (λ kl w', resync sid w' kl) w ls) kl)
      as [extra' ->].
    rewrite IH. exists (extra ++ extra'). by rewrite app_assoc.
Qed.

(** C10: [FramesView.reload] only clears the pending state: the world it
    returns is the world it was given, so no call reaches the collection
    and no record of the heap is touched. [Frames.reload] on the same
    cache state of a store-backed parent clears the same pending state
    and, in addition, scans the collection for the parent's frame numbers
    and re-synchronizes the live [Frame] instances of the sample. *)
Theorem view_reload_only_clears (w : World) (self : FramesView.t) (sid : SampleId) :
  s_id (_sample (FramesView.frames self)) = Some sid →
  let cleared := mkFrames (_sample (FramesView.frames self)) ∅ ∅ false in
  FramesView.reload w self = (w, FramesView.mk cleared (FramesView._view self)) ∧
  reload w (FramesView.frames self)
  = (_sync_docs_for_sample (log (aggregate_call sid) w) sid
       (list_to_set (d_fn <$> List.filter (of_sample sid) (coll w))),
     cleared, None) ∧
  ∃ extra, trace (reload w (FramesView.frames self)).1.1
           = trace w ++ aggregate_call sid :: extra.
Proof.
  intros Hs cleared.
  assert (reload w (FramesView.frames self)
          = (_sync_docs_for_sample (log (aggregate_call sid) w) sid
               (list_to_set (d_fn <$> List.filter (of_sample sid) (coll w))),
             cleared, None)) as Hr.
  { unfold reload, _get_frame_numbers. rewrite Hs. cbn. rewrite Hs. cbn.
    do 2 f_equal. f_equal. apply set_eq. intros m.
    rewrite elem_of_filter, elem_of_union, dom_empty.
    split.
    - intros [_ [Hm|Hm]]; [by apply not_elem_of_empty in Hm|done].
    - intros Hm. split; [apply not_elem_of_empty|by right]. }
  split_and!; [done|done|].
  rewrite Hr.
  destruct (sync_docs_trace (log (aggregate_call sid) w) sid
              (list_to_set (d_fn <$> List.filter (of_sample sid) (coll w)))) as [extra He].
  exists extra. cbn [fst]. rewrite He. cbn. by rewrite <- app_assoc.
Qed.


(** ** Ordered iteration *)

Lemma advance_eq doc results n :
  advance doc results n
  = if bool_decide (d_fn doc < n) then
      match results with
      | [] => (doc, [], true)
      | d' :: rs => advance d' rs n
      end
    else (doc, results, false).
Proof. by destruct results. Qed.

Lemma advance_spec results : ∀ doc n,
  StronglySorted fn_le (doc :: results) →
  match advance doc results n with
  | (doc', rs, false) =>
      n ≤ d_fn doc' ∧ StronglySorted fn_le (doc' :: rs) ∧
      (∀ x, x ∈ doc' :: rs → x ∈ doc :: results) ∧
      (∀ x, x ∈ doc :: results → n ≤ d_fn x → x ∈ doc' :: rs)
  | (_, _, true) => ∀ x, x ∈ doc :: results → d_fn x < n
  end.
Proof.
  induction results as [|d' rs IH]; intros doc n Hsorted; rewrite advance_eq.
  - case_bool_decide as Hlt.
    + intros x ->%list_elem_of_singleton. done.
    + split_and!; [lia|done|done|done].
  - case_bool_decide as Hlt.
    + apply StronglySorted_inv in Hsorted as [Hs' _].
      specialize (IH d' n Hs').
      destruct (advance d' rs n) as [[doc' rs'] [|]].
      * intros x [->|Hx]%elem_of_cons; [done|by apply IH].
      * destruct IH as (? & ? & Hsub & Hsup). split_and!; try done.
        -- intros x Hx. right. by apply Hsub.
        -- intros x [->|Hx]%elem_of_cons Hge; [lia|by apply Hsup].
    + split_and!; [lia|done|done|done].
Qed.

Lemma sorted_head_least doc results x :
  StronglySorted fn_le (doc :: results) → x ∈ doc :: results → d_fn doc ≤ d_fn x.
Proof.
  intros [_ Hall]%StronglySorted_inv [->|Hx]%elem_of_cons; [done|].
  rewrite Forall_forall in Hall. by apply Hall.
Qed.

Lemma foldr_max_ge (l : list Z) b :
  b ≤ foldr Z.max b l ∧ ∀ x, x ∈ l → x ≤ foldr Z.max b l.
Proof.
  induction l as [|a l [IH1 IH2]]; cbn.
  - split; [lia|]. intros x Hx. by apply elem_of_nil in Hx.
  - split; [lia|]. intros x [->|Hx]%elem_of_cons; [lia|]. specialize (IH2 x Hx). lia.
Qed.

Lemma max_key_ge (m : gmap Z loc) k : is_Some (m !! k) → k ≤ max_key m.
Proof.
  intros Hk%elem_of_dom%elem_of_elements. unfold max_key.
  destruct (elements (dom m)) as [|a l]; [by apply elem_of_nil in Hk|].
  destruct (foldr_max_ge l a) as [Ha Hl].
  apply elem_of_cons in Hk as [->|Hk]; [done|by apply Hl].
Qed.

Lemma max_key_empty : max_key ∅ = -1.
Proof. unfold max_key. by rewrite dom_empty_L, elements_empty. Qed.

Lemma make_frame_other w d l :
  is_Some (heap w !! l) → heap (_make_frame w d).1 !! l = heap w !! l.
Proof.
  intros Hl. destruct (make_frame_frame w d) as (_ & _ & _ & _ & _ & Ho & _).
  by apply Ho.
Qed.

Lemma deref_stable w w' l :
  is_Some (heap w !! l) → heap w' !! l = heap w !! l → deref w' l = deref w l.
Proof. intros [f Hf] Heq. unfold deref, lookup_total, map_lookup_total. by rewrite Heq. Qed.


Section iteration.
Variables (R0 : gmap Z loc) (D : gset pyval) (max_repl_fn : Z).

(** The body of the loop up to the [yield]: it yields at most one
    record, whose key is the cursor, and exactly when the cursor is a
    key to yield. *)
Lemma iter_yield_spec w self n repl_done db_done d results :
  loop_inv R0 D max_repl_fn w self n repl_done db_done d results →
  let r := iter_yield w self n repl_done db_done d in
  let rem := remaining db_done d results in
  (∀ l, is_Some (heap w !! l) → heap r.1.1 !! l = heap w !! l) ∧
  _delete_frames r.1.2 = D ∧
  (∀ k, n + 1 ≤ k → _replacements r.1.2 !! k = R0 !! k) ∧
  ((r.2 = [] ∧ ¬ wanted R0 D rem n) ∨
   (∃ l, r.2 = [l] ∧ wanted R0 D rem n ∧
         is_Some (heap r.1.1 !! l) ∧ frame_number (deref r.1.1 l) = n ∧
         (R0 !! n = Some l ∨
          (R0 !! n = None ∧ ∃ x, x ∈ rem ∧ d_fn x = n)))).
Proof.
  intros (Hn & HD & Hrepl & Hmax & Hrd & Hdb & Hwf). cbn zeta.
  unfold iter_yield.
  destruct (if repl_done then None else _replacements self !! n) as [frame|] eqn:Hfirst.
  - (* the cursor has a pending replacement *)
    assert (R0 !! n = Some frame) as HR.
    { destruct repl_done; [done|]. rewrite <- Hrepl by lia. done. }
    destruct (Hwf n frame HR) as (f & Hf & Hnum).
    cbn. split_and!; [done|done|intros; apply Hrepl; lia|].
    right. exists frame. split_and!; [done | unfold wanted; left; by eauto | by eauto | | by left].
    unfold deref. by rewrite (lookup_total_correct _ _ _ Hf).
  - assert (R0 !! n = None) as HR.
    { destruct repl_done.
      - destruct (R0 !! n) eqn:E; [|done].
        assert (n ≤ max_repl_fn) by (apply Hmax; eauto).
        specialize (Hrd eq_refl). lia.
      - rewrite <- Hrepl by lia. done. }
    destruct d as [doc|]; cycle 1.
    { (* the scan was empty from the start *)
      cbn. split_and!; [done|done|intros; apply Hrepl; lia|].
      left. split; [done|]. unfold wanted, remaining.
      intros [[? HS]|[(x & Hx & _) _]]; [congruence|].
      destruct db_done; by apply elem_of_nil in Hx. }
    destruct (negb db_done && bool_decide (n = d_fn doc)
              && bool_decide (PInt n ∉ _delete_frames self)) eqn:Hcond.
    + (* the stored document of the cursor is materialized *)
      apply andb_true_iff in Hcond as [[Hnd Heq]%andb_true_iff Hdel].
      apply negb_true_iff in Hnd. apply bool_decide_eq_true in Heq, Hdel.
      subst db_done. rewrite HD in Hdel.
      pose proof (make_frame_frame w (bag_of_doc doc)) as (_ & _ & _ & _ & Hfn & Hother & Hsome).
      destruct (_make_frame w (bag_of_doc doc)) as [w' frame]. cbn in *.
      split_and!; [done|done| |].
      * intros k Hk. unfold _set_replacement. cbn. rewrite Hfn.
        rewrite lookup_insert_ne by lia. apply Hrepl. lia.
      * right. exists frame. split_and!; [done| | | |].
        -- unfold wanted. right. split; [|done]. exists doc. split; [by left|done].
        -- apply Hsome. lia.
        -- by rewrite Hfn.
        -- right. split; [done|]. exists doc. split; [by left|done].
    + (* nothing to yield at the cursor *)
      cbn. split_and!; [done|done|intros; apply Hrepl; lia|].
      left. split; [done|]. unfold wanted, remaining.
      intros [[? HS]|[(x & Hx & Hxn) Hnd]]; [congruence|].
      destruct db_done; [by apply elem_of_nil in Hx|].
      destruct (Hdb eq_refl) as (doc' & [= <-] & Hle & Hsorted).
      pose proof (sorted_head_least _ _ _ Hsorted Hx) as Hleast.
      cbn in Hcond. apply andb_false_iff in Hcond as [Hc|Hc].
      * apply bool_decide_eq_false in Hc. lia.
      * apply bool_decide_eq_false in Hc. rewrite HD in Hc. by apply Hc.
Qed.

(** The rest of the body: the scan is advanced to the next cursor. *)
Lemma iter_advance_spec n db_done d results :
  (db_done = false →
     ∃ doc, d = Some doc ∧ n ≤ d_fn doc ∧ StronglySorted fn_le (doc :: results)) →
  let r := iter_advance db_done d results (n + 1) in
  let rem := remaining db_done d results in
  let rem' := remaining r.2 r.1.1 r.1.2 in
  (r.2 = false →
     ∃ doc, r.1.1 = Some doc ∧ n + 1 ≤ d_fn doc ∧ StronglySorted fn_le (doc :: r.1.2)) ∧
  (∀ x, x ∈ rem' → x ∈ rem) ∧
  (∀ x, x ∈ rem → n + 1 ≤ d_fn x → x ∈ rem').
Proof.
  intros Hdb. cbn zeta. unfold iter_advance.
  destruct d as [doc|]; cycle 1.
  { destruct db_done; cbn; [done|]. by destruct (Hdb eq_refl) as (? & ? & _). }
  destruct db_done; cbn; [done|].
  destruct (Hdb eq_refl) as (doc0 & [= <-] & Hle & Hsorted).
  pose proof (advance_spec results doc (n + 1) Hsorted) as Hadv.
  destruct (advance doc results (n + 1)) as [[doc' rs] [|]]; cbn.
  - split_and!; [done|intros x Hx; by apply elem_of_nil in Hx|].
    intros x Hx Hge. specialize (Hadv x Hx). lia.
  - destruct Hadv as (Hge & Hs & Hsub & Hsup). split_and!; [by eauto|done|done].
Qed.

(** The loop: with enough fuel it stops, and what it has yielded are
    the keys to yield from the cursor on, in ascending order. *)
Lemma iter_loop_spec fuel : ∀ B w self n repl_done db_done d results,
  loop_inv R0 D max_repl_fn w self n repl_done db_done d results →
  (repl_done = false → max_repl_fn ≤ B) →
  (∀ x, x ∈ remaining db_done d results → d_fn x ≤ B) →
  (1 ≤ fuel)%nat →
  (repl_done && db_done = false → 2 ≤ fuel)%nat →
  B - n + 2 ≤ Z.of_nat fuel →
  ∃ res,
    iter_loop fuel max_repl_fn w self n repl_done db_done d results = Some res ∧
    loop_post R0 D w n (remaining db_done d results) res.
Proof.
  induction fuel as [|fuel IH]; intros B w self n repl_done db_done d results
    Hinv HBr HBd Hfuel Hfuel2 Hbound; [lia|].
  pose proof Hinv as (Hn & HD & Hrepl & Hmax & Hrd & Hdb & Hwf).
  cbn [iter_loop].
  destruct (repl_done && db_done) eqn:Hdone.
  - (* both sides are exhausted *)
    apply andb_true_iff in Hdone as [-> ->].
    eexists. split; [done|]. unfold loop_post. cbn.
    split_and!; [done|constructor| |intros l Hl; by apply elem_of_nil in Hl].
    intros k. split; [intros Hk; by apply elem_of_nil in Hk|].
    intros [Hk [[? HS]|[(x & Hx & _) _]]]; [|by apply elem_of_nil in Hx].
    assert (k ≤ max_repl_fn) by (apply Hmax; eauto).
    specialize (Hrd eq_refl). lia.
  - pose proof (iter_yield_spec w self n repl_done db_done d results Hinv)
      as (Hext & HD1 & Hrepl1 & Hout).
    pose proof (iter_advance_spec n db_done d results Hdb) as (Hdb' & Hsub & Hsup).
    destruct (iter_yield w self n repl_done db_done d) as [[w1 self1] out].
    destruct (iter_advance db_done d results (n + 1)) as [[d' results'] db_done'].
    cbn [fst snd] in *.
    set (repl_done' := if repl_done then true else bool_decide (max_repl_fn < n + 1)).
    assert (loop_inv R0 D max_repl_fn w1 self1 (n + 1) repl_done' db_done' d' results')
      as Hinv'.
    { split_and!; [lia|done|done|done| |done|].
      - subst repl_done'. destruct repl_done.
        + intros _. specialize (Hrd eq_refl). lia.
        + by intros ?%bool_decide_eq_true.
      - intros k l Hk. destruct (Hwf k l Hk) as (f & Hf & Hnum).
        exists f. split; [|done]. rewrite Hext; [done|by eauto]. }
    assert (¬ (repl_done' = true ∧ db_done' = true) → n + 1 ≤ B) as Hmore.
    { intros Hnot. destruct db_done' eqn:Hdd.
      - destruct repl_done' eqn:Hrr; [by destruct Hnot|].
        subst repl_done'. destruct repl_done; [done|].
        apply bool_decide_eq_false in Hrr. specialize (HBr eq_refl). lia.
      - destruct (Hdb' eq_refl) as (doc & -> & Hge & _).
        assert (d_fn doc ≤ B); [|lia].
        apply HBd, Hsub. cbn. by left. }
    destruct (IH B w1 self1 (n + 1) repl_done' db_done' d' results' Hinv')
      as (res & Hres & Hpost).
    { subst repl_done'. destruct repl_done; [done|]. intros _. by apply HBr. }
    { intros x Hx. by apply HBd, Hsub. }
    { specialize (Hfuel2 eq_refl). lia. }
    { intros Hnd. assert (n + 1 ≤ B); [|lia]. apply Hmore.
      intros [Hr' Hd']. rewrite Hr', Hd' in Hnd. done. }
    { lia. }
    rewrite Hres. destruct res as [[w2 self2] rest]. eexists. split; [done|].
    destruct Hpost as (Hext2 & Hsorted & Hmem & Hloc). cbn [fst snd] in *.
    assert (∀ l, is_Some (heap w !! l) → heap w2 !! l = heap w !! l) as Hext'.
    { intros l Hl. rewrite Hext2; [by apply Hext|]. by rewrite Hext. }
    assert (∀ k, n + 1 ≤ k →
              wanted R0 D (remaining db_done' d' results') k
              ↔ wanted R0 D (remaining db_done d results) k) as Hwanted.
    { unfold wanted. intros k Hk.
      split; (intros [?|[(x & Hx & Hxk) ?]]; [by left|right; split; [|done]]);
        exists x; (split; [|done]).
      - by apply Hsub.
      - apply Hsup; [done|lia]. }
    assert (∀ l, l ∈ rest →
              R0 !! frame_number (deref w2 l) = Some l ∨
              (R0 !! frame_number (deref w2 l) = None ∧
               ∃ x, x ∈ remaining db_done d results ∧ d_fn x = frame_number (deref w2 l)))
      as Hrest.
    { intros l Hl. destruct (Hloc l Hl) as [?|(HN & x & Hx & Hfn)]; [by left|].
      right. split; [done|]. exists x. split; [by apply Hsub|done]. }
    unfold loop_post. cbn [fst snd].
    destruct Hout as [[-> Hnot] | (l & -> & Hw & Hvalid & Hnum & Hsrc)].
    + cbn [app]. split_and!; [done|done| |done].
      intros k. rewrite Hmem. split.
      * intros [Hk Hwk]. split; [lia|]. by apply Hwanted.
      * intros [Hk Hwk]. assert (k ≠ n) by (intros ->; done).
        split; [lia|]. apply Hwanted; [lia|done].
    + assert (deref w2 l = deref w1 l) as Hsame
        by (apply deref_stable; [done|by apply Hext2]).
      assert (frame_number (deref w2 l) = n) as Hkey by by rewrite Hsame.
      cbn [app]. rewrite fmap_cons, Hkey. split_and!.
      * done.
      * constructor; [done|]. apply Forall_forall. intros k Hk%Hmem. lia.
      * intros k. rewrite elem_of_cons, Hmem. split.
        -- intros [->|[Hk Hwk]]; [split; [lia|done]|].
           split; [lia|]. by apply Hwanted.
        -- intros [Hk Hwk]. destruct (decide (k = n)) as [->|]; [by left|right].
           split; [lia|]. apply Hwanted; [lia|done].
      * intros l' [->|Hl']%elem_of_cons; [|by apply Hrest].
        rewrite Hkey.
        destruct Hsrc as [?|(HN & x & Hx & Hd)]; [by left|right].
        split; [done|]. by exists x.
Qed.

End iteration.


Lemma iter_frames_db_spec w sid :
  let docs := (_iter_frames_db w sid).2 in
  StronglySorted fn_le docs ∧
  (∀ x, x ∈ docs ↔ x ∈ coll w ∧ d_sample x = sid) ∧
  heap (_iter_frames_db w sid).1 = heap w.
Proof.
  cbn. split_and!; [apply StronglySorted_merge_sort; apply _| |done].
  intros x. rewrite merge_sort_Permutation, !list_elem_of_In, filter_In.
  unfold of_sample. by rewrite bool_decide_eq_true.
Qed.

(** Ordered iteration on a store-backed parent is a sorted merge when
    stored frame numbers are positive and every pending replacement is
    keyed by the frame number of its record: [items()] runs to the end and
    yields keys in strictly ascending order (hence without duplicates); a
    key is yielded exactly when it is positive and either has a pending
    replacement or is stored and not pending deletion; the record yielded
    for a key is its pending replacement if there is one, and otherwise
    what materialization returns for a stored document of that key. *)
Lemma items_sorted_merge (w : World) (self : Frames) (sid : SampleId) :
  s_id (_sample self) = Some sid →
  _delete_all self = false →
  (∀ d, d ∈ coll w → d_sample d = sid → 1 ≤ d_fn d) →
  replacements_wf w self →
  ∃ w' self' ys,
    items w self = Some (w', self', ys) ∧
    StronglySorted Z.lt ys.*1 ∧
    (∀ n, n ∈ ys.*1 ↔
          1 ≤ n ∧ (n ∈ dom (_replacements self) ∨
                   (stored w sid n ∧ PInt n ∉ _delete_frames self))) ∧
    (∀ n l, (n, l) ∈ ys →
       match _replacements self !! n with
       | Some l0 => l = l0
       | None => stored w sid n ∧ frame_number (deref w' l) = n
       end).
Proof.
  intros Hs Hall Hpos Hwf.
  unfold items, _iter_frames. rewrite Hs, Hall.
  pose proof (iter_frames_db_spec w sid) as (Hsorted & Hdocs & Hheap).
  destruct (_iter_frames_db w sid) as [w1 docs]. cbn [fst snd] in *.
  set (R0 := _replacements self). set (D := _delete_frames self).
  set (d := match docs with d :: _ => Some d | [] => None end).
  set (rs := match docs with _ :: rs => rs | [] => [] end).
  set (db_done := match docs with _ :: _ => false | [] => true end).
  assert ((let '(d, rs, db_done) :=
             match docs with
             | d :: rs => (Some d, rs, false)
             | [] => (None, [], true)
             end in
           iter_loop (iter_bound (max_key R0) docs) (max_key R0) w1 self 1
             (bool_decide (R0 = ∅)) db_done d rs)
          = iter_loop (iter_bound (max_key R0) docs) (max_key R0) w1 self 1
              (bool_decide (R0 = ∅)) db_done d rs) as -> by by destruct docs.
  assert (remaining db_done d rs = docs) as Hrem by by destruct docs.
  pose proof (foldr_max_ge (d_fn <$> docs) (max_key R0)) as [HB1 HB2].
  destruct (iter_loop_spec R0 D (max_key R0) (iter_bound (max_key R0) docs)
              (foldr Z.max (max_key R0) (d_fn <$> docs)) w1 self 1
              (bool_decide (R0 = ∅)) db_done d rs) as (res & Hres & Hpost).
  - split_and!; [done|done|done|apply max_key_ge| | |].
    + intros HE%bool_decide_eq_true. rewrite HE, max_key_empty. lia.
    + intros Hdd. destruct docs as [|d0 rs0]; [done|].
      exists d0. split_and!; [done| |done].
      apply Hpos; apply (Hdocs d0); by left.
    + intros k l Hk. rewrite Hheap. by apply Hwf.
  - done.
  - rewrite Hrem. intros x Hx. apply HB2. apply list_elem_of_fmap. eauto.
  - unfold iter_bound. lia.
  - intros _. unfold iter_bound. lia.
  - unfold iter_bound. lia.
  - rewrite Hres. destruct res as [[w' self'] frames].
    rewrite Hrem in Hpost. destruct Hpost as (Hext & Hss & Hmem & Hloc). cbn [fst snd] in *.
    exists w', self', ((λ l, (frame_number (deref w' l), l)) <$> frames).
    assert (((λ l, (frame_number (deref w' l), l)) <$> frames).*1
            = (λ l, frame_number (deref w' l)) <$> frames) as Hkeys.
    { rewrite <- list_fmap_compose. done. }
    rewrite Hkeys. split_and!; [done|done| |].
    + intros n. rewrite Hmem. unfold wanted, stored. fold R0. rewrite elem_of_dom.
      split.
      * intros [Hn Hw]. split; [done|].
        destruct Hw as [HS|[Hx Hd]]; [by left|right].
        destruct Hx as (x & Hx & Hxn).
        split; [|done]. exists x. apply Hdocs in Hx as [? ?]. done.
      * intros [Hn Hw]. split; [done|].
        destruct Hw as [HS|Hw]; [by left|right].
        destruct Hw as [Hx Hd]. destruct Hx as (x & Hx & Hsx & Hxn).
        split; [|done]. exists x. split; [by apply Hdocs|done].
    + intros n l (l' & [= -> ->] & Hl)%list_elem_of_fmap.
      destruct (Hloc l' Hl) as [HR|(HN & x & Hx & Hfn)].
      * fold R0. by rewrite HR.
      * fold R0. rewrite HN. split; [|done].
        apply Hdocs in Hx as [Hx Hsx]. by exists x.
Qed.

(** C1, as the code has it: [items()] is a sorted merge only while every
    pending record carries the key it is staged under, and the write
    path does not keep it so. [frames[2] = r] followed by [frames[4] = r]
    with the same not yet persisted [Frame] stages [r] under both keys and
    renumbers it to 4 in place. With the frames 1, 3 and 5 stored,
    [keys()] then emits 1, 2, 3, 4, 5, while [items()], which reports
    [frame.frame_number] at each cursor position, yields the keys
    1, 4, 3, 4, 5: not ascending, key 4 twice, key 2 never. *)
Theorem items_aliased_frame_breaks_order :
  ∃ w1 self1 w2 self2 w3 self3 l1 l3 l5,
    __setitem__ ex_world_input ex_backed (PInt 2) 0%nat = Ok (w1, self1) ∧
    __setitem__ w1 self1 (PInt 4) 0%nat = Ok (w2, self2) ∧
    _replacements self2 !! 2 = Some 0%nat ∧
    _replacements self2 !! 4 = Some 0%nat ∧
    frame_number (deref w2 0%nat) = 4 ∧
    (keys w2 self2).2 = [1; 2; 3; 4; 5] ∧
    items w2 self2
    = Some (w3, self3, [(1, l1); (4, 0%nat); (3, l3); (4, 0%nat); (5, l5)]) ∧
    ¬ StronglySorted Z.lt [(1, l1); (4, 0%nat); (3, l3); (4, 0%nat); (5, l5)].*1.
Proof.
  eexists _, _, _, _, _, _, _, _, _.
  split; [vm_compute; reflexivity|].
  split; [vm_compute; reflexivity|].
  split; [vm_compute; reflexivity|].
  split; [vm_compute; reflexivity|].
  split; [vm_compute; reflexivity|].
  split; [vm_compute; reflexivity|].
  split; [vm_compute; reflexivity|].
  cbn. intros Hs.
  apply StronglySorted_inv in Hs as [Hs _].
  apply StronglySorted_inv in Hs as [_ Hall].
  apply Forall_cons in Hall as [Hlt _]. lia.
Qed.


(** ** Flush *)

Lemma reset_all_lookup ls h l :
  frame_number (reset_all ls h !!! l) = frame_number (h !!! l) ∧
  fields (reset_all ls h !!! l) = fields (h !!! l) ∧
  (frame_in_db (h !!! l) = false → frame_in_db (reset_all ls h !!! l) = false).
Proof.
  induction ls as [|a ls (IH1 & IH2 & IH3)]; [done|].
  change (reset_all (a :: ls) h) with (alter _reset_backing_doc a (reset_all ls h)).
  destruct (decide (a = l)) as [->|Hne].
  - unfold lookup_total, map_lookup_total in *. rewrite lookup_alter_eq.
    destruct (reset_all ls h !! l) as [f|]; cbn in *; [|done].
    split_and!; [done|done|]. by intros _.
  - by rewrite lookup_total_alter_ne.
Qed.

Lemma reset_docs_spec w sid :
  _get_instances (_reset_docs w sid) sid = ∅ ∧
  coll (_reset_docs w sid) = coll w ∧
  next_id (_reset_docs w sid) = next_id w ∧
  ∀ l, frame_number (deref (_reset_docs w sid) l) = frame_number (deref w l) ∧
       fields (deref (_reset_docs w sid) l) = fields (deref w l) ∧
       (frame_in_db (deref w l) = false → frame_in_db (deref (_reset_docs w sid) l) = false).
Proof.
  split_and!; [|done|done|].
  - unfold _get_instances, _reset_docs. cbn. by rewrite lookup_delete_eq.
  - intros l. unfold deref, _reset_docs. cbn. apply reset_all_lookup.
Qed.

Lemma reset_docs_for_sample_spec w sid fns :
  coll (_reset_docs_for_sample w sid fns) = coll w ∧
  next_id (_reset_docs_for_sample w sid fns) = next_id w ∧
  (∀ k l, _get_instances w sid !! k = Some l → PInt k ∉ fns →
          _get_instances (_reset_docs_for_sample w sid fns) sid !! k = Some l) ∧
  ∀ l, frame_number (deref (_reset_docs_for_sample w sid fns) l) = frame_number (deref w l) ∧
       fields (deref (_reset_docs_for_sample w sid fns) l) = fields (deref w l) ∧
       (frame_in_db (deref w l) = false →
        frame_in_db (deref (_reset_docs_for_sample w sid fns) l) = false).
Proof.
  split_and!; [done|done| |].
  - intros k l Hk Hnot. unfold _get_instances at 1. unfold _reset_docs_for_sample. cbn.
    rewrite lookup_insert_eq. cbn. by apply map_lookup_filter_Some.
  - intros l. unfold deref, _reset_docs_for_sample. cbn. apply reset_all_lookup.
Qed.

(** The deletion phase leaves the pending replacements alone, raises
    only the error of its batch of deletes, and keeps transient records
    transient. *)
Lemma save_deletions_spec flt w self sid :
  let r := _save_deletions flt w self sid in
  _replacements r.1.2 = _replacements self ∧
  _sample r.1.2 = _sample self ∧
  (∀ e, r.2 = Some e → ∃ errs, delete_fault flt = Some errs ∧ e = BulkWriteError errs) ∧
  (∀ l, frame_number (deref r.1.1 l) = frame_number (deref w l) ∧
        fields (deref r.1.1 l) = fields (deref w l) ∧
        (frame_in_db (deref w l) = false → frame_in_db (deref r.1.1 l) = false)).
Proof.
  cbn zeta. unfold _save_deletions.
  destruct (_delete_all self) eqn:Hall.
  - cbn. split_and!; [done|done|done|].
    intros l.
    destruct (reset_docs_spec (log (delete_many_call sid)
                (set_coll (delete_many sid (coll w)) w)) sid) as (_ & _ & _ & Hl).
    apply (Hl l).
  - destruct (bool_decide (_delete_frames self = ∅)); [done|].
    destruct (delete_fault flt) as [errs|] eqn:Hf.
    + cbn. split_and!; [done|done| |done]. intros e [= <-]. eauto.
    + cbn. split_and!; [done|done|done|]. intros l.
      match goal with
      | |- context [_reset_docs_for_sample ?w0 sid ?fns] =>
          destruct (reset_docs_for_sample_spec w0 sid fns) as (_ & _ & _ & Hl)
      end.
      apply (Hl l).
Qed.

Lemma bind_inserted_spec (num : loc → Z) w l d :
  (∀ l', frame_number (deref w l') = num l') →
  d_fn d = num l →
  coll (bind_inserted w (l, d)) = coll w ∧
  next_id (bind_inserted w (l, d)) = next_id w ∧
  ∀ l', frame_number (deref (bind_inserted w (l, d)) l') = num l'.
Proof.
  intros Hnum Hd. unfold bind_inserted. cbn.
  destruct (doc_cls (deref w l)).
  - destruct (set_backing_doc_frame w l (bag_of_doc d)) as (Hc & _ & Hn & _ & Hh).
    split_and!; [done|done|]. intros l'. unfold deref. rewrite Hh.
    rewrite lookup_total_insert. case_decide; [subst l'; by cbn|apply Hnum].
  - split_and!; [done|done|]. intros l'. unfold deref. cbn.
    rewrite lookup_total_insert. case_decide; [subst l'; cbn; apply Hnum|apply Hnum].
Qed.

Lemma bind_inserted_fold (num : loc → Z) ps : ∀ w,
  (∀ l', frame_number (deref w l') = num l') →
  Forall (λ p, d_fn p.2 = num p.1) ps →
  coll (foldl bind_inserted w ps) = coll w ∧
  next_id (foldl bind_inserted w ps) = next_id w ∧
  ∀ l', frame_number (deref (foldl bind_inserted w ps) l') = num l'.
Proof.
  induction ps as [|[l d] ps IH]; intros w Hnum Hall; [done|].
  apply Forall_cons in Hall as [Hd Hall]. cbn in Hd. cbn [foldl].
  destruct (bind_inserted_spec num w l d Hnum Hd) as (Hc & Hn & Hnum').
  destruct (IH _ Hnum' Hall) as (Hc' & Hn' & Hnum'').
  split_and!; [congruence|congruence|done].
Qed.

Lemma zip_assign_ids (num : loc → Z) w sid ls : ∀ i,
  (∀ l, frame_number (deref w l) = num l) →
  Forall (λ p, d_fn p.2 = num p.1) (zip ls (assign_ids i (_make_dict w sid <$> ls))).
Proof.
  induction ls as [|l ls IH]; intros i Hnum; cbn; [constructor|].
  constructor; [cbn; apply Hnum|by apply IH].
Qed.



Lemma pop_new_lookup_Some w new_frames (R : gmap Z loc) k x :
  pop_new w new_frames R !! k = Some x → R !! k = Some x.
Proof.
  unfold pop_new. induction new_frames as [|a ls IH]; cbn; [done|].
  rewrite lookup_delete. case_decide; [done|apply IH].
Qed.








Lemma save_deletions_no_faults w self sid :
  (_save_deletions no_faults w self sid).2 = None.
Proof.
  pose proof (save_deletions_spec no_faults w self sid) as (_ & _ & He & _).
  destruct ((_save_deletions no_faults w self sid).2) as [e|]; [|done].
  by destruct (He e eq_refl) as (errs & ? & _).
Qed.


(** The write phase for a single pending record that has never been
    persisted, when the registry has nothing for the parent: exactly one
    document is appended to the collection. *)
Lemma save_replacements_single w self sid n l :
  _get_instances w sid = ∅ →
  _replacements self = {[n := l]} →
  frame_in_db (deref w l) = false →
  frame_number (deref w l) = n →
  ∃ w2 self2,
    _save_replacements no_faults w self sid true = (w2, self2, None) ∧
    _replacements self2 = ∅ ∧
    _delete_frames self2 = _delete_frames self ∧
    _delete_all self2 = _delete_all self ∧
    coll w2 = coll w ++ [mkDoc (next_id w) sid n (fields (deref w l))].
Proof.
  intros Hinst Hrepl Hnew Hnum. unfold _save_replacements. cbn zeta.
  rewrite Hinst, Hrepl. rewrite (bool_decide_eq_true_2 (∅ = ∅)) by done.
  rewrite bool_decide_eq_false_2 by apply insert_non_empty.
  rewrite map_to_list_singleton. cbn [fmap list_fmap snd List.filter].
  rewrite Hnew. cbn [negb insert_fault no_faults fmap list_fmap assign_ids zip zip_with foldl].
  set (d := doc_of_bag (next_id w) (_make_dict w sid l)).
  set (w1 := log insert_many_call
               (set_next_id (next_id w + length [d])%nat (set_coll (coll w ++ [d]) w))).
  destruct (bind_inserted_spec (λ l, frame_number (deref w l)) w1 l d) as (Hcoll & _ & Hnums);
    [done|done|].
  assert (pop_new (bind_inserted w1 (l, d)) [l] {[n := l]} = ∅) as ->.
  { unfold pop_new. cbn. rewrite (Hnums l), Hnum. apply delete_singleton_eq. }
  rewrite (bool_decide_eq_true_2 (∅ = ∅)) by done.
  eexists _, _. split; [done|]. split_and!; [done|done|done|].
  rewrite Hcoll. by rewrite <- Hnum.
Qed.

Lemma delete_many_none sid ds : List.filter (of_sample sid) (delete_many sid ds) = [].
Proof.
  unfold delete_many. induction ds as [|a ds IH]; [done|]. cbn.
  destruct (of_sample sid a) eqn:E; cbn; [done|]. by rewrite E.
Qed.

Lemma delete_many_others sid ds :
  List.filter (λ d, negb (of_sample sid d)) (delete_many sid ds)
  = List.filter (λ d, negb (of_sample sid d)) ds.
Proof.
  unfold delete_many. induction ds as [|a ds IH]; [done|]. cbn.
  destruct (of_sample sid a) eqn:E; cbn; [done|]. by rewrite E, IH.
Qed.

(** C4: [clear()], then [frames[n] = r], then [save()], on a store-backed
    parent and whatever the collection held: the flush completes, and
    afterwards the collection holds exactly one document of this parent,
    with key [n] and the fields of [r]; the documents of other parents
    are the ones it held before, and no pending state is left. *)
Theorem clear_set_save_only_key
    (w : World) (self : Frames) (sid : SampleId) (n : Z) (r : loc) :
  s_id (_sample self) = Some sid →
  1 ≤ n →
  ∃ w1 self1 w2 self2 i,
    __setitem__ w (clear self) (PInt n) r = Ok (w1, self1) ∧
    save no_faults w1 self1 = (w2, self2, None) ∧
    List.filter (of_sample sid) (coll w2) = [mkDoc i sid n (fields (deref w r))] ∧
    List.filter (λ d, negb (of_sample sid d)) (coll w2)
    = List.filter (λ d, negb (of_sample sid d)) (coll w) ∧
    _replacements self2 = ∅ ∧ _delete_frames self2 = ∅ ∧ _delete_all self2 = false.
Proof.
  intros Hs Hn.
  assert (clear self = mkFrames (_sample self) ∅ ∅ true) as Hclear.
  { unfold clear. by rewrite Hs. }
  destruct (add_frame_backed w (clear self) sid n r) as
    (w1 & frame & Hadd & _ & Hheap & Hcoll & _ & _ & _); [by rewrite Hclear|done|].
  rewrite Hclear in Hadd. cbn in Hadd.
  set (self1 := set_replacements (<[n:=frame]> ∅) (mkFrames (_sample self) ∅ ∅ true)) in *.
  set (flds := fields (deref w r)) in *.
  assert (frame_number (deref w1 frame) = n ∧ fields (deref w1 frame) = flds
          ∧ frame_in_db (deref w1 frame) = false) as (Hnum & Hflds & Hdb).
  { unfold deref at 1 2 3. by rewrite Hheap, lookup_total_insert_eq. }
  set (wd := _reset_docs (log (delete_many_call sid)
                            (set_coll (delete_many sid (coll w1)) w1)) sid).
  assert (_save_deletions no_faults w1 self1 sid
          = (wd, mkFrames (_sample self) (<[n:=frame]> ∅) ∅ false, None)) as Hdel.
  { unfold _save_deletions. cbn. by rewrite (bool_decide_eq_true_2 (∅ = ∅)). }
  destruct (reset_docs_spec (log (delete_many_call sid)
              (set_coll (delete_many sid (coll w1)) w1)) sid) as (Hinst & Hcd & Hnid & Hcontent).
  fold wd in Hinst, Hcd, Hnid, Hcontent.
  destruct (Hcontent frame) as (Hnum' & Hflds' & Hdb').
  destruct (save_replacements_single wd (mkFrames (_sample self) (<[n:=frame]> ∅) ∅ false)
              sid n frame) as (w2 & self2 & Hsave & Hr2 & Hd2 & Ha2 & Hcoll2).
  { done. }
  { done. }
  { by apply Hdb'. }
  { by rewrite Hnum'. }
  assert (fields (deref wd frame) = flds) as Hfd by (rewrite Hflds'; exact Hflds).
  exists w1, self1, w2, self2, (next_id wd).
  split_and!; [by rewrite Hclear| | | |done|done|done].
  - unfold save. change (s_id (_sample self1)) with (s_id (_sample self)).
    by rewrite Hs, Hdel.
  - rewrite Hcoll2, Hcd, Hfd. cbn [coll log set_coll].
    rewrite List.filter_app, delete_many_none.
    cbn. unfold of_sample. cbn. by rewrite bool_decide_eq_true_2.
  - rewrite Hcoll2, Hcd. cbn [coll log set_coll]. rewrite Hcoll.
    rewrite List.filter_app, delete_many_others.
    cbn. unfold of_sample at 2. cbn. rewrite bool_decide_eq_true_2 by done.
    cbn. by rewrite app_nil_r.
Qed.


(** How the write phase can fail: in the batched insert, whose first
    write error is raised as a [ValueError] before anything is popped, or
    in the batch of replaces, whose [BulkWriteError] is let through; the
    pending replacements then have lost at most the records that the
    same flush has inserted. *)
Lemma save_replacements_failure flt w self sid incl w' self' e :
  _save_replacements flt w self sid incl = (w', self', Some e) →
  (∃ errs, insert_fault flt = Some errs ∧
           e = match errs with msg :: _ => ValueError msg | [] => IndexError end ∧
           self' = self) ∨
  (∃ errs, replace_fault flt = Some errs ∧ e = BulkWriteError errs ∧
           (∀ k l, _replacements self' !! k = Some l → _replacements self !! k = Some l) ∧
           (_replacements self ≠ ∅ → _replacements self' ≠ ∅)).
Proof.
  unfold _save_replacements. cbn zeta.
  set (insts := if incl then _get_instances w sid else ∅).
  set (aliased := bool_decide (insts = ∅)).
  set (R := if aliased then _replacements self else _replacements self ∪ insts).
  destruct (bool_decide (R = ∅)) eqn:HR; [done|].
  set (nf := List.filter (λ l, negb (frame_in_db (deref w l))) (map_to_list R).*2).
  assert (∀ w2 R', (∀ k l, R' !! k = Some l → R !! k = Some l) →
    (let self0 := if aliased then set_replacements R' self else self in
     if bool_decide (R' = ∅) then (w2, set_replacements ∅ self0, None)
     else
       match replace_fault flt with
       | Some errs => (log bulk_write_call w2, self0, Some (BulkWriteError errs))
       | None =>
           let st := foldl (λ st op, upsert_one sid op.1 op.2 st) (coll w2, next_id w2)
                       ((λ kl, (kl.1, _make_dict w2 sid kl.2)) <$> map_to_list R') in
           (log bulk_write_call (set_next_id st.2 (set_coll st.1 w2)),
            set_replacements ∅ self0, None)
       end) = (w', self', Some e) →
    ∃ errs, replace_fault flt = Some errs ∧ e = BulkWriteError errs ∧
      (∀ k l, _replacements self' !! k = Some l → _replacements self !! k = Some l) ∧
      (_replacements self ≠ ∅ → _replacements self' ≠ ∅)) as Hreplace.
  { intros w2 R' Hsub. cbn zeta.
    destruct (bool_decide (R' = ∅)) eqn:HR'; [done|].
    destruct (replace_fault flt) as [errs|]; [|done].
    intros [= <- <- <-]. exists errs. split_and!; [done|done| |].
    - subst R. destruct aliased; [|done]. cbn. apply Hsub.
    - intros Hne. destruct aliased; cbn; [by apply bool_decide_eq_false in HR'|done]. }
  destruct nf as [|a nf'] eqn:Hnf.
  - intros H. right. by apply (Hreplace w R).
  - destruct (insert_fault flt) as [errs|] eqn:Hins.
    + intros [= <- <- <-]. left. eauto.
    + intros H. right. eapply Hreplace; [|exact H].
      intros k l. apply pop_new_lookup_Some.
Qed.


Lemma save_replacements_insert_fails flt w self sid errs k l :
  insert_fault flt = Some errs →
  _replacements self !! k = Some l →
  frame_in_db (deref w l) = false →
  _save_replacements flt w self sid true
  = (log insert_many_call w, self,
     Some (match errs with msg :: _ => ValueError msg | [] => IndexError end)).
Proof.
  intros Hins Hk Hnew. unfold _save_replacements. cbn zeta.
  set (aliased := bool_decide (_get_instances w sid = ∅)).
  set (R := if aliased then _replacements self else _replacements self ∪ _get_instances w sid).
  assert (R !! k = Some l) as HR.
  { subst R. destruct aliased; [done|]. by apply lookup_union_Some_l. }
  rewrite bool_decide_eq_false_2; cycle 1.
  { intros HE. rewrite HE in HR. by rewrite lookup_empty in HR. }
  set (nf := List.filter (λ l, negb (frame_in_db (deref w l))) (map_to_list R).*2).
  assert (l ∈ nf) as Hl.
  { subst nf. apply list_elem_of_In, filter_In. split; [|by rewrite Hnew].
    apply list_elem_of_In, list_elem_of_fmap. exists (k, l). split; [done|].
    by apply elem_of_map_to_list. }
  rewrite Hins. destruct nf; [by apply elem_of_nil in Hl|done].
Qed.

(** The exceptions of [save()]. When the batched insert of a flush fails
    with at least one write error, [save()] raises one [ValueError] whose
    message is that of the first write error, and the pending
    replacements are what they were. Any exception of [save()] comes from
    one of its three batches: the insert, the per-key deletes or the
    replaces, whose [BulkWriteError] is raised as the store gave it; in
    each case the pending replacements are not cleared: none is added,
    and they are not emptied. *)
Lemma save_failure_keeps_pending (flt : Faults) (w : World) (self : Frames) :
  (∀ sid msg rest k l,
     s_id (_sample self) = Some sid →
     delete_fault flt = None →
     insert_fault flt = Some (msg :: rest) →
     _replacements self !! k = Some l →
     frame_in_db (deref w l) = false →
     ∃ w' self',
       save flt w self = (w', self', Some (ValueError msg)) ∧
       wraps_first_error (msg :: rest) (ValueError msg) ∧
       _replacements self' = _replacements self) ∧
  (∀ w' self' e,
     save flt w self = (w', self', Some e) →
     (∀ k l, _replacements self' !! k = Some l → _replacements self !! k = Some l) ∧
     (_replacements self ≠ ∅ → _replacements self' ≠ ∅) ∧
     ((∃ errs, insert_fault flt = Some errs ∧
               e = match errs with msg :: _ => ValueError msg | [] => IndexError end ∧
               _replacements self' = _replacements self) ∨
      (∃ errs, delete_fault flt = Some errs ∧ e = BulkWriteError errs ∧
               _replacements self' = _replacements self) ∨
      (∃ errs, replace_fault flt = Some errs ∧ e = BulkWriteError errs))).
Proof.
  split.
  - intros sid msg rest k l Hs Hdel Hins Hk Hnew. unfold save. rewrite Hs.
    pose proof (save_deletions_spec flt w self sid) as (Hrepl & _ & He & Hcontent).
    destruct (_save_deletions flt w self sid) as [[w1 self1] oe]. cbn [fst snd] in *.
    destruct oe as [e|].
    { destruct (He e eq_refl) as (errs & Hf & _). congruence. }
    rewrite (save_replacements_insert_fails flt w1 self1 sid (msg :: rest) k l); try done.
    + eexists _, _. split_and!; [done|by exists msg, rest|done].
    + by rewrite Hrepl.
    + by apply (Hcontent l).
  - intros w' self' e. unfold save.
    destruct (s_id (_sample self)) as [sid|]; [|done].
    pose proof (save_deletions_spec flt w self sid) as (Hrepl & _ & He & _).
    destruct (_save_deletions flt w self sid) as [[w1 self1] oe]. cbn [fst snd] in *.
    destruct oe as [e1|].
    + intros [= <- <- <-]. destruct (He e1 eq_refl) as (errs & Hf & ->).
      split_and!; [by rewrite Hrepl|by rewrite Hrepl|].
      right. left. eauto.
    + intros [(errs & Hf & -> & ->)|(errs & Hf & -> & Hsub & Hne)]%save_replacements_failure.
      * split_and!; [by rewrite Hrepl|by rewrite Hrepl|]. left. eauto.
      * rewrite Hrepl in Hsub, Hne. split_and!; [done|done|]. right. right. eauto.
Qed.

Lemma filter_none {A} (P : A → bool) (ls : list A) :
  (∀ x, x ∈ ls → P x = false) → List.filter P ls = [].
Proof.
  induction ls as [|x ls IH]; [done|]. intros H. cbn.
  rewrite (H x) by left. apply IH. intros y Hy. apply H. by right.
Qed.

Lemma save_replacements_replace_fails flt w self sid errs :
  replace_fault flt = Some errs →
  _replacements self ≠ ∅ →
  (∀ k l, (_replacements self ∪ _get_instances w sid) !! k = Some l →
          frame_in_db (deref w l) = true) →
  _save_replacements flt w self sid true
  = (log bulk_write_call w, self, Some (BulkWriteError errs)).
Proof.
  intros Hrep Hne Hdb. unfold _save_replacements. cbn zeta.
  set (aliased := bool_decide (_get_instances w sid = ∅)).
  set (R := if aliased then _replacements self else _replacements self ∪ _get_instances w sid).
  assert (∀ k l, _replacements self !! k = Some l → R !! k = Some l) as Hsub.
  { intros k l Hk. subst R. destruct aliased; [done|]. by apply lookup_union_Some_l. }
  assert (∀ k l, R !! k = Some l → frame_in_db (deref w l) = true) as HR.
  { intros k l Hk. apply (Hdb k). subst R. destruct aliased eqn:Ha; [|done].
    by apply lookup_union_Some_l. }
  assert (R ≠ ∅) as HRne.
  { intros HE. apply Hne, map_empty. intros k.
    destruct (_replacements self !! k) as [l|] eqn:Hk; [|done].
    apply Hsub in Hk. rewrite HE in Hk. by rewrite lookup_empty in Hk. }
  rewrite (bool_decide_eq_false_2 _ HRne).
  rewrite filter_none; cycle 1.
  { intros l [[k l'] [-> Hkl]]%list_elem_of_fmap. apply elem_of_map_to_list in Hkl.
    cbn. by rewrite (HR k l'). }
  rewrite (bool_decide_eq_false_2 _ HRne). rewrite Hrep.
  subst R. destruct aliased; [|done]. by destruct self.
Qed.

(** C5, as the code has it. Only the batched insert of a flush is
    wrapped: when it fails, [save()] raises one [ValueError] whose
    message is that of the first write error (and an [IndexError] of the
    handler itself when the store reports no write error), with the
    pending replacements as they were. The two other batches are not:
    when the batch of per-key deletes or the batch of replaces fails,
    [save()] lets the [BulkWriteError] of the store escape with all its
    write errors, where the insert path raises the wrapped error. *)
Theorem save_bulk_write_error_propagates (flt : Faults) (w : World) (self : Frames)
    (sid : SampleId) :
  s_id (_sample self) = Some sid →
  _delete_all self = false →
  (∀ errs, insert_fault flt = Some errs →
     _delete_frames self = ∅ →
     (∃ k l, _replacements self !! k = Some l ∧ frame_in_db (deref w l) = false) →
     save flt w self
     = (log insert_many_call w, self,
        Some (match errs with msg :: _ => ValueError msg | [] => IndexError end))) ∧
  (∀ errs, delete_fault flt = Some errs →
     _delete_frames self ≠ ∅ →
     save flt w self = (log bulk_write_call w, self, Some (BulkWriteError errs)) ∧
     ¬ wraps_first_error errs (BulkWriteError errs)) ∧
  (∀ errs, replace_fault flt = Some errs →
     _delete_frames self = ∅ →
     _replacements self ≠ ∅ →
     (∀ k l, (_replacements self ∪ _get_instances w sid) !! k = Some l →
             frame_in_db (deref w l) = true) →
     save flt w self = (log bulk_write_call w, self, Some (BulkWriteError errs)) ∧
     ¬ wraps_first_error errs (BulkWriteError errs)).
Proof.
  intros Hs Hall.
  assert (∀ errs, ¬ wraps_first_error errs (BulkWriteError errs)) as Hnot.
  { intros errs (msg & rest & _ & He). discriminate He. }
  split_and!.
  - intros errs Hins HD (k & l & Hk & Hnew). unfold save, _save_deletions.
    rewrite Hs, Hall, HD, bool_decide_eq_true_2 by done.
    by apply (save_replacements_insert_fails flt w self sid errs k l).
  - intros errs Hdel HD. split; [|done]. unfold save, _save_deletions.
    rewrite Hs, Hall, bool_decide_eq_false_2, Hdel by done. done.
  - intros errs Hrep HD Hne Hdb. split; [|done]. unfold save, _save_deletions.
    rewrite Hs, Hall, HD, bool_decide_eq_true_2 by done.
    by apply save_replacements_replace_fails.
Qed.

(** ** What the write phase writes *)












(** ** Delete, and the flush that follows *)






(** ** The statements at concrete inputs *)

Lemma ex_docs_positive d : d ∈ coll ex_world → d_sample d = 7%nat → 1 ≤ d_fn d.
Proof.
  intros Hd _. unfold ex_world, ex_docs in Hd. cbn [coll] in Hd.
  repeat (apply elem_of_cons in Hd as [-> | Hd]); [cbn; lia ..|].
  by apply elem_of_nil in Hd.
Qed.

Lemma ex_frames_wf : replacements_wf ex_world ex_frames.
Proof.
  intros n l Hl. unfold ex_frames in Hl. cbn [_replacements] in Hl.
  apply lookup_singleton_Some in Hl as [<- <-]. exists ex_R2. split; [|done].
  vm_compute. reflexivity.
Qed.

(** Ordered iteration with store keys {1, 3, 5}, [R2] pending for 2, a
    pending delete of 3. [items()] yields 1 with a record materialized
    from the stored frame 1, then 2 with [R2], then 5 with a record
    materialized from the stored frame 5. *)
Lemma items_sorted_merge_witness :
  s_id (_sample ex_frames) = Some 7%nat ∧
  _delete_all ex_frames = false ∧
  ∃ w' self' ys,
    items ex_world ex_frames = Some (w', self', ys) ∧
    ys = [(1, 1%nat); (2, 0%nat); (5, 2%nat)] ∧
    StronglySorted Z.lt ys.*1 ∧
    deref w' 1%nat = frame_of_doc (mkDoc 10 7 1 {["label" := PStr "one"]}) ∧
    deref w' 0%nat = ex_R2 ∧
    deref w' 2%nat = frame_of_doc (mkDoc 12 7 5 {["label" := PStr "five"]}).
Proof.
  split; [reflexivity|]. split; [reflexivity|].
  destruct (items_sorted_merge ex_world ex_frames 7%nat)
    as (w' & self' & ys & Hitems & Hsorted & _ & _).
  - reflexivity.
  - reflexivity.
  - apply ex_docs_positive.
  - apply ex_frames_wf.
  - exists w', self', ys. split; [exact Hitems|].
    vm_compute in Hitems. injection Hitems as <- <- <-.
    split; [reflexivity|]. split; [exact Hsorted|].
    split; [vm_compute; reflexivity|]. split; vm_compute; reflexivity.
Defined.

(** Delete then assign on the empty cache of sample 7:
    [del frames[1]] then [frames[1] = r]. *)
Lemma del_then_set_not_in_frame_numbers_witness :
  s_id (_sample ex_backed) = Some 7%nat ∧
  _delete_all ex_backed = false ∧
  ∃ w1 self1 frame,
    __setitem__ ex_world_input (__delitem__ ex_backed (PInt 1)) (PInt 1) 0%nat
    = Ok (w1, self1) ∧
    _replacements self1 !! 1 = Some frame ∧
    __getitem__ w1 self1 (PInt 1) = Ok (w1, self1, frame) ∧
    (__contains__ w1 self1 (PInt 1)).2 = false ∧
    (1 ∉ snd (keys w1 self1)) ∧
    (__len__ w1 self1).2 = (__len__ w1 (__delitem__ ex_backed (PInt 1))).2.
Proof.
  split; [reflexivity|]. split; [reflexivity|].
  apply (del_then_set_not_in_frame_numbers ex_world_input ex_backed 7%nat 1 0%nat);
    [reflexivity|reflexivity|lia].
Defined.

(** At the same input [keys()] and [len] see the frames 3 and 5, while
    [items()] yields the frames 1, 3 and 5. *)
Lemma del_then_set_keys_items_disagree :
  ∃ w1 self1 w2 self2 l3 l5,
    __setitem__ ex_world_input (__delitem__ ex_backed (PInt 1)) (PInt 1) 0%nat
    = Ok (w1, self1) ∧
    (keys w1 self1).2 = [3; 5] ∧
    (__len__ w1 self1).2 = 2%nat ∧
    (__contains__ w1 self1 (PInt 1)).2 = false ∧
    items w1 self1 = Some (w2, self2, [(1, 0%nat); (3, l3); (5, l5)]).
Proof.
  eexists _, _, _, _, _, _. split; [vm_compute; reflexivity|].
  split_and!; vm_compute; reflexivity.
Qed.



(** Sample 7 has its frames 1, 3 and 5 stored: after
    [clear(); frames[2] = r; save()] only frame 2 is. *)
Lemma clear_set_save_only_key_witness :
  s_id (_sample ex_backed) = Some 7%nat ∧
  ∃ w1 self1 w2 self2 i,
    __setitem__ ex_world_input (clear ex_backed) (PInt 2) 0%nat = Ok (w1, self1) ∧
    save no_faults w1 self1 = (w2, self2, None) ∧
    List.filter (of_sample 7%nat) (coll w2)
    = [mkDoc i 7%nat 2 (fields (deref ex_world_input 0%nat))] ∧
    List.filter (λ d, negb (of_sample 7%nat d)) (coll w2)
    = List.filter (λ d, negb (of_sample 7%nat d)) (coll ex_world_input) ∧
    _replacements self2 = ∅ ∧ _delete_frames self2 = ∅ ∧ _delete_all self2 = false.
Proof.
  split; [reflexivity|].
  apply (clear_set_save_only_key ex_world_input ex_backed 7%nat 2 0%nat); [reflexivity|lia].
Defined.


(** A flush whose batch of replaces fails with two write errors, one
    whose batch of deletes fails, and one whose insert of a new frame
    fails with two write errors: the first two let the [BulkWriteError]
    of the store through, the third raises the first message wrapped in
    a [ValueError]. *)
Lemma save_bulk_write_error_propagates_witness :
  (replace_fault ex_replace_fails = Some ["first error"; "second error"] ∧
   save ex_replace_fails ex_world_edited ex_frames_edited
   = (log bulk_write_call ex_world_edited, ex_frames_edited,
      Some (BulkWriteError ["first error"; "second error"])) ∧
   ¬ wraps_first_error ["first error"; "second error"]
       (BulkWriteError ["first error"; "second error"])) ∧
  (save (mkFaults (Some ["first error"]) None None) ex_world (__delitem__ ex_backed (PInt 1))
   = (log bulk_write_call ex_world, __delitem__ ex_backed (PInt 1),
      Some (BulkWriteError ["first error"])) ∧
   ¬ wraps_first_error ["first error"] (BulkWriteError ["first error"])) ∧
  (insert_fault ex_insert_fails = Some ["E11000 duplicate key"; "second error"] ∧
   save ex_insert_fails ex_world_input ex_frames_input
   = (log insert_many_call ex_world_input, ex_frames_input,
      Some (ValueError "E11000 duplicate key")) ∧
   wraps_first_error ["E11000 duplicate key"; "second error"]
     (ValueError "E11000 duplicate key")).
Proof.
  split; [|split].
  - split; [reflexivity|].
    destruct (save_bulk_write_error_propagates ex_replace_fails ex_world_edited
                ex_frames_edited 7%nat) as (_ & _ & Hreplace); [reflexivity|reflexivity|].
    apply Hreplace; [reflexivity|reflexivity| |].
    + vm_compute. intros H. discriminate H.
    + intros k l Hk.
      assert (_replacements ex_frames_edited ∪ _get_instances ex_world_edited 7%nat
              = {[1 := 0%nat]}) as Heq by (vm_compute; reflexivity).
      rewrite Heq in Hk. apply lookup_singleton_Some in Hk as [<- <-].
      vm_compute. reflexivity.
  - destruct (save_bulk_write_error_propagates (mkFaults (Some ["first error"]) None None)
                ex_world (__delitem__ ex_backed (PInt 1)) 7%nat) as (_ & Hdelete & _);
      [reflexivity|reflexivity|].
    apply Hdelete; [reflexivity|]. vm_compute. intros H. discriminate H.
  - split; [reflexivity|].
    destruct (save_bulk_write_error_propagates ex_insert_fails ex_world_input
                ex_frames_input 7%nat) as (Hinsert & _); [reflexivity|reflexivity|].
    split.
    + apply (Hinsert ["E11000 duplicate key"; "second error"]); [reflexivity|reflexivity|].
      exists 1, 0%nat. split; vm_compute; reflexivity.
    + by exists "E11000 duplicate key", ["second error"].
Defined.

(** Repeated lookup on a transient parent and on a store-backed one
    (frame 1 is stored, frame 4 is not). *)
Lemma getitem_identity_stable_witness :
  1 ≤ 4 ∧
  (∃ w1 self1 frame,
     __getitem__ ex_world ex_transient (PInt 4) = Ok (w1, self1, frame) ∧
     _replacements self1 !! 4 = Some frame ∧
     __getitem__ w1 self1 (PInt 4) = Ok (w1, self1, frame)) ∧
  (∃ w1 self1 frame,
     __getitem__ ex_world ex_frames (PInt 1) = Ok (w1, self1, frame) ∧
     _replacements self1 !! 1 = Some frame ∧
     __getitem__ w1 self1 (PInt 1) = Ok (w1, self1, frame)).
Proof.
  split; [lia|]. split.
  - apply (getitem_identity_stable ex_world ex_transient 4). lia.
  - apply (getitem_identity_stable ex_world ex_frames 1). lia.
Defined.

(** Lookup of the stored frame 3 of sample 7, then delete and lookup
    again: the second lookup returns the record of the first, with the
    stored fields, and reads nothing from the store. On a world in which
    frame 3 was never materialized the lookup after the delete returns a
    new empty record. *)
Lemma del_then_get_returns_live_instance_witness :
  (∃ w1 self1 frame self2,
     __getitem__ ex_world ex_backed (PInt 3) = Ok (w1, self1, frame) ∧
     s_id (_sample self1) = Some 7%nat ∧
     live w1 7%nat 3 frame ∧
     fields (deref w1 frame) = {["label" := PStr "three"]} ∧
     __getitem__ w1 (__delitem__ self1 (PInt 3)) (PInt 3) = Ok (w1, self2, frame) ∧
     _replacements self2 !! 3 = Some frame) ∧
  (stored ex_world 7%nat 3 ∧
   (∀ L, ¬ live ex_world 7%nat 3 L) ∧
   ∃ w1 self1 frame,
     __getitem__ ex_world (__delitem__ ex_backed (PInt 3)) (PInt 3) = Ok (w1, self1, frame) ∧
     heap ex_world !! frame = None ∧
     deref w1 frame = mkFrame false DatasetDoc None (Some 7%nat) 3 ∅ ∧
     _replacements self1 !! 3 = Some frame ∧
     trace w1 = trace ex_world ∧
     coll w1 = coll ex_world).
Proof.
  split.
  - destruct (__getitem__ ex_world ex_backed (PInt 3)) as [[[w1 self1] frame]|e] eqn:Hget;
      [|vm_compute in Hget; discriminate Hget].
    assert (live w1 7%nat 3 frame ∧ s_id (_sample self1) = Some 7%nat ∧
            fields (deref w1 frame) = {["label" := PStr "three"]}) as (Hlive & Hs & Hf).
    { vm_compute in Hget. injection Hget as <- <- <-.
      split; [split; vm_compute; reflexivity|]. split; vm_compute; reflexivity. }
    destruct (del_then_get_returns_live_instance w1 self1 7%nat 3 Hs) as [Hsame _]; [lia|].
    destruct (Hsame frame Hlive) as (self2 & Hget2 & Hst).
    exists w1, self1, frame, self2.
    split; [reflexivity|]. split; [exact Hs|]. split; [exact Hlive|].
    split; [exact Hf|]. split; [exact Hget2|exact Hst].
  - assert (∀ L, ¬ live ex_world 7%nat 3 L) as Hnone.
    { intros L [HL _]. vm_compute in HL. discriminate HL. }
    split; [|split; [exact Hnone|]].
    + exists (mkDoc 11 7 3 {["label" := PStr "three"]}). split; [|done].
      right. by left.
    + destruct (del_then_get_returns_live_instance ex_world ex_backed 7%nat 3) as [_ Hnew];
        [reflexivity|lia|].
      apply Hnew. exact Hnone.
Defined.

(** Adding the caller's transient frame at location 0 through the view
    and through the unfiltered cache. *)
Lemma view_add_frame_never_aliases_witness :
  heap ex_world_input !! 0%nat = Some ex_input ∧
  frame_in_db ex_input = false ∧
  (∃ w' self' frame_view,
     FramesView.add_frame ex_world_input ex_frames_view (PInt 1) 0%nat true = Ok (w', self') ∧
     frame_view ≠ 0%nat ∧
     _replacements (FramesView.frames self') !! 1 = Some frame_view ∧
     heap w' !! 0%nat = Some ex_input) ∧
  (∃ w' fself',
     add_frame ex_world_input (FramesView.frames ex_frames_view) (PInt 1) 0%nat true
     = Ok (w', fself') ∧
     _replacements fself' !! 1 = Some 0%nat).
Proof.
  split; [vm_compute; reflexivity|]. split; [reflexivity|].
  destruct (view_add_frame_never_aliases ex_world_input ex_frames_view 1 0%nat ex_input true)
    as [Hview Hplain]; [vm_compute; reflexivity|].
  split.
  - destruct (FramesView.add_frame ex_world_input ex_frames_view (PInt 1) 0%nat true)
      as [[w' self']|e] eqn:Hadd; [|vm_compute in Hadd; discriminate Hadd].
    destruct (Hview w' self' eq_refl) as (frame_view & sid & _ & _ & Hne & Hst & _ & Hf).
    exists w', self', frame_view. split; [reflexivity|]. split; [exact Hne|].
    split; [exact Hst|exact Hf].
  - destruct (add_frame ex_world_input (FramesView.frames ex_frames_view) (PInt 1) 0%nat true)
      as [[w' fself']|e] eqn:Hadd; [|vm_compute in Hadd; discriminate Hadd].
    destruct (Hplain eq_refl w' fself' eq_refl) as [Hst _].
    exists w', fself'. split; [reflexivity|exact Hst].
Defined.

(** Reload with a live frame that was edited in memory: the filtered
    cache leaves the edit, the unfiltered cache reloads the stored value. *)
Lemma view_reload_only_clears_witness :
  s_id (_sample (FramesView.frames ex_view_edited)) = Some 7%nat ∧
  FramesView.reload ex_world_edited ex_view_edited
  = (ex_world_edited,
     FramesView.mk (mkFrames (mkSample (Some 7%nat)) ∅ ∅ false) ex_view) ∧
  fields (deref (FramesView.reload ex_world_edited ex_view_edited).1 0%nat)
  = {["label" := PStr "edited"]} ∧
  fields (deref (reload ex_world_edited (FramesView.frames ex_view_edited)).1.1 0%nat)
  = {["label" := PStr "one"]} ∧
  ∃ extra, trace (reload ex_world_edited (FramesView.frames ex_view_edited)).1.1
           = trace ex_world_edited ++ aggregate_call 7%nat :: extra.
Proof.
  split; [reflexivity|].
  destruct (view_reload_only_clears ex_world_edited ex_view_edited 7%nat)
    as (Hview & _ & Htrace); [reflexivity|].
  split; [exact Hview|]. split; [vm_compute; reflexivity|].
  split; [vm_compute; reflexivity|exact Htrace].
Defined.




(** * Further properties *)

(** ** Frame numbers: [keys], [len], [in], [bool] *)

Lemma sorted_le_NoDup_lt (l : list Z) :
  StronglySorted Z.le l → NoDup l → StronglySorted Z.lt l.
Proof.
  induction l as [|a l IH]; intros Hs Hn; [constructor|].
  apply StronglySorted_inv in Hs as [Hs Hall]. apply NoDup_cons in Hn as [Ha Hn].
  constructor; [by apply IH|].
  rewrite Forall_forall in Hall |- *. intros x Hx.
  specialize (Hall x Hx). assert (x ≠ a) by (intros ->; done). lia.
Qed.

Lemma sorted_elements (s : gset Z) :
  StronglySorted Z.lt (merge_sort Z.le (elements s)) ∧
  (∀ n, n ∈ merge_sort Z.le (elements s) ↔ n ∈ s) ∧
  length (merge_sort Z.le (elements s)) = size s.
Proof.
  split_and!.
  - apply sorted_le_NoDup_lt; [apply StronglySorted_merge_sort; apply _|].
    rewrite merge_sort_Permutation. apply NoDup_elements.
  - intros n. by rewrite merge_sort_Permutation, elem_of_elements.
  - by rewrite merge_sort_Permutation.
Qed.

Lemma stored_list_to_set w sid n :
  n ∈ (list_to_set (d_fn <$> List.filter (of_sample sid) (coll w)) : gset Z) ↔ stored w sid n.
Proof.
  rewrite elem_of_list_to_set, list_elem_of_fmap. unfold stored. split.
  - intros (d & -> & Hd). apply list_elem_of_In, filter_In in Hd as [Hd Hs].
    exists d. split_and!; [by apply list_elem_of_In| |done].
    unfold of_sample in Hs. by apply bool_decide_eq_true in Hs.
  - intros (d & Hd & Hs & Hn). exists d. split; [done|].
    apply list_elem_of_In, filter_In. split; [by apply list_elem_of_In|].
    unfold of_sample. by apply bool_decide_eq_true.
Qed.

Lemma get_frame_numbers_elem w self n :
  n ∈ (_get_frame_numbers w self).2 ↔ effective w self n.
Proof.
  unfold _get_frame_numbers, effective.
  destruct (s_id (_sample self)) as [sid|]; [|done].
  destruct (_delete_all self); [done|]. cbn.
  rewrite elem_of_filter, elem_of_union, stored_list_to_set. tauto.
Qed.

(** What a call of [_get_frame_numbers] does to the world: it appends one
    existence scan to the trace when the parent is stored and no
    delete-all is pending, and nothing else. *)
Lemma get_frame_numbers_world w self :
  (_get_frame_numbers w self).1
  = match s_id (_sample self) with
    | Some sid => if _delete_all self then w else log (aggregate_call sid) w
    | None => w
    end.
Proof.
  unfold _get_frame_numbers.
  destruct (s_id (_sample self)); [|done]. by destruct (_delete_all self).
Qed.

Lemma keys_eq w self :
  keys w self = ((_get_frame_numbers w self).1,
                 merge_sort Z.le (elements (_get_frame_numbers w self).2)).
Proof. unfold keys. by destruct (_get_frame_numbers w self). Qed.

Lemma len_eq w self :
  __len__ w self = ((_get_frame_numbers w self).1, size (_get_frame_numbers w self).2).
Proof. unfold __len__. by destruct (_get_frame_numbers w self). Qed.

Lemma contains_eq w self k :
  __contains__ w self k
  = ((_get_frame_numbers w self).1,
     match k with
     | PInt n => bool_decide (n ∈ (_get_frame_numbers w self).2)
     | _ => false
     end).
Proof. unfold __contains__. by destruct (_get_frame_numbers w self). Qed.

(** X1. [keys()] emits the frame numbers in strictly ascending order
    (hence without repetition), and a number is emitted exactly when it is
    effective: pending as a replacement, or stored for the parent, and, on
    a stored parent without a pending delete-all, not pending deletion. *)
Theorem keys_ascending_exact (w : World) (self : Frames) :
  StronglySorted Z.lt (keys w self).2 ∧
  ∀ n, n ∈ (keys w self).2 ↔ effective w self n.
Proof.
  rewrite keys_eq. cbn.
  pose proof (sorted_elements (_get_frame_numbers w self).2) as (Hs & Hm & _).
  split; [done|]. intros n. by rewrite Hm, get_frame_numbers_elem.
Qed.

(** X2. [len], [in] and [bool] agree with [keys()]: the length is the
    number of keys emitted, membership holds exactly for the integer keys
    emitted (never for a string or [None]), and the cache is truthy
    exactly when [keys()] emits something. *)
Theorem len_contains_bool_agree_with_keys (w : World) (self : Frames) :
  (__len__ w self).2 = length (keys w self).2 ∧
  (∀ k, (__contains__ w self k).2 = true ↔ ∃ n, k = PInt n ∧ n ∈ (keys w self).2) ∧
  ((__bool__ w self).2 = true ↔ (keys w self).2 ≠ []).
Proof.
  unfold __bool__. rewrite len_eq, keys_eq. cbn.
  pose proof (sorted_elements (_get_frame_numbers w self).2) as (_ & Hm & Hl).
  split_and!.
  - by rewrite Hl.
  - intros k. rewrite contains_eq. cbn. destruct k as [|n|s].
    + split; [done|]. by intros (n & ? & _).
    + rewrite bool_decide_eq_true, <- Hm. split.
      * intros Hn. by exists n.
      * by intros (n' & [= <-] & Hn).
    + split; [done|]. by intros (n & ? & _).
  - rewrite bool_decide_eq_true, <- Hl.
    destruct (merge_sort Z.le (elements (_get_frame_numbers w self).2)); cbn.
    + split; [lia|done].
    + split; [done|lia].
Qed.

(** X3. The four enumerations make the same store access: one existence
    scan of the parent when the parent is stored and no delete-all is
    pending, and none otherwise; nothing but the trace changes. *)
Theorem frame_number_queries_store_access (w : World) (self : Frames) (k : pyval) :
  let w' := match s_id (_sample self) with
            | Some sid => if _delete_all self then w else log (aggregate_call sid) w
            | None => w
            end in
  (keys w self).1 = w' ∧ (__len__ w self).1 = w' ∧
  (__contains__ w self k).1 = w' ∧ (__bool__ w self).1 = w'.
Proof.
  unfold __bool__. rewrite keys_eq, len_eq, contains_eq. cbn.
  by rewrite get_frame_numbers_world.
Qed.

(** X4. After [del frames[n]] the key is no longer a member and [keys()]
    does not emit it, whatever the parent and whatever was pending or
    stored before. *)
Theorem delitem_hides_key (w : World) (self : Frames) (n : Z) :
  (__contains__ w (__delitem__ self (PInt n)) (PInt n)).2 = false ∧
  n ∉ (keys w (__delitem__ self (PInt n))).2.
Proof.
  assert (¬ effective w (__delitem__ self (PInt n)) n) as Hne.
  { unfold effective.
    pose proof (delitem_sample self (PInt n)) as [Hs Ha].
    pose proof (delitem_replacements self (PInt n) n) as Hr.
    rewrite decide_True in Hr by done.
    rewrite Hs, Ha.
    assert (n ∉ dom (_replacements (__delitem__ self (PInt n)))) as Hd
      by (by apply not_elem_of_dom).
    destruct (s_id (_sample self)) as [sid|] eqn:Hsid; [|done].
    destruct (_delete_all self); [done|].
    intros [_ Hnd]. apply Hnd. by apply (delitem_pending self sid). }
  rewrite contains_eq, keys_eq. cbn.
  pose proof (sorted_elements (_get_frame_numbers w (__delitem__ self (PInt n))).2) as (_ & Hm & _).
  split.
  - apply bool_decide_eq_false. by rewrite get_frame_numbers_elem.
  - by rewrite Hm, get_frame_numbers_elem.
Qed.


(** ** [clear] and the enumerations without store access *)

Lemma omap_replacements_keys (w : World) (R : gmap Z loc) (ks : list Z) :
  (∀ n l, R !! n = Some l → frame_number (deref w l) = n) →
  Forall (λ k, k ∈ dom R) ks →
  ((λ l, (frame_number (deref w l), l)) <$> omap (λ n, R !! n) ks).*1 = ks ∧
  ∀ n l, (n, l) ∈ (λ l, (frame_number (deref w l), l)) <$> omap (λ n, R !! n) ks
         ↔ n ∈ ks ∧ R !! n = Some l.
Proof.
  intros Hwf. induction 1 as [|k ks Hk Hks [IH1 IH2]]; cbn.
  - split; [done|]. intros n l. rewrite !elem_of_nil. tauto.
  - apply elem_of_dom in Hk as [l0 Hl0]. rewrite Hl0. cbn.
    rewrite (Hwf _ _ Hl0), IH1. split; [done|].
    intros n l. rewrite !elem_of_cons, IH2. split.
    + intros [Heq|[? ?]]; [|by split; [right|]].
      injection Heq as -> ->. by split; [left|].
    + intros [[-> | Hn] Hl]; [left|right; done].
      rewrite Hl0 in Hl. by injection Hl as ->.
Qed.

Lemma replacements_wf_deref w self n l :
  replacements_wf w self → _replacements self !! n = Some l → frame_number (deref w l) = n.
Proof.
  intros Hwf Hl. destruct (Hwf _ _ Hl) as (f & Hf & Hn).
  unfold deref. by rewrite (lookup_total_correct _ _ _ Hf).
Qed.

(** X5. On a parent that is in no dataset, or while a delete-all is
    pending, [items()] does not touch the world or the cache: it yields
    exactly the pending replacements, in the order of [keys()]. *)
Theorem items_pending_only (w : World) (self : Frames) :
  s_id (_sample self) = None ∨ _delete_all self = true →
  replacements_wf w self →
  ∃ ys, items w self = Some (w, self, ys) ∧
        ys.*1 = (keys w self).2 ∧
        (keys w self).1 = w ∧
        ∀ n l, (n, l) ∈ ys ↔ _replacements self !! n = Some l.
Proof.
  intros Hcase Hwf.
  set (ks := merge_sort Z.le (elements (dom (_replacements self)))).
  assert (items w self
          = Some (w, self, (λ l, (frame_number (deref w l), l))
                             <$> omap (λ n, _replacements self !! n) ks)) as Hit.
  { unfold items, _iter_frames. destruct (s_id (_sample self)); [|done].
    destruct Hcase as [? | ->]; done. }
  assert (keys w self = (w, ks)) as Hks.
  { unfold keys, _get_frame_numbers. destruct (s_id (_sample self)); [|done].
    destruct Hcase as [? | ->]; done. }
  pose proof (sorted_elements (dom (_replacements self))) as (_ & Hm & _).
  destruct (omap_replacements_keys w (_replacements self) ks) as [H1 H2].
  { intros n l. by apply replacements_wf_deref. }
  { apply Forall_forall. intros k Hk. by apply Hm. }
  eexists. split; [exact Hit|]. rewrite Hks. cbn. split_and!; [done|done|].
  intros n l. rewrite H2. split; [tauto|]. intros Hl. split; [|done].
  apply Hm, elem_of_dom. by exists l.
Qed.

(** X6. After [clear()] the cache shows no frame: [keys()] and [items()]
    are empty, the length is zero and no key is a member, all of it
    without a call of the store, whatever the collection holds. *)
Theorem clear_shows_nothing (w : World) (self : Frames) :
  keys w (clear self) = (w, []) ∧
  __len__ w (clear self) = (w, 0%nat) ∧
  __bool__ w (clear self) = (w, false) ∧
  (∀ k, __contains__ w (clear self) k = (w, false)) ∧
  items w (clear self) = Some (w, clear self, []).
Proof.
  assert (_get_frame_numbers w (clear self) = (w, ∅)) as Hg.
  { unfold _get_frame_numbers, clear. destruct (s_id (_sample self)) eqn:Hs; cbn; rewrite Hs.
    - by rewrite dom_empty_L.
    - by rewrite dom_empty_L. }
  unfold __bool__, keys, __len__, __contains__. rewrite Hg.
  split_and!; try done.
  - by intros [|n|s].
  - by destruct self as [[[sid|]] R D a].
Qed.


(** ** Lookup and assignment *)

Lemma find_one_stored w sid n :
  (∀ d, find_one sid n (coll w) = Some d → d ∈ coll w ∧ d_sample d = sid ∧ d_fn d = n) ∧
  (find_one sid n (coll w) = None → ¬ stored w sid n).
Proof.
  split.
  - intros d (Hs & Hn & Hin)%find_one_key. by rewrite list_elem_of_In.
  - intros Hnone (d & Hd & Hs & Hn). unfold find_one in Hnone.
    apply list_elem_of_In in Hd.
    pose proof (find_none _ _ Hnone d Hd) as Hk. unfold on_key in Hk.
    by rewrite bool_decide_eq_true_2 in Hk.
Qed.

(** X7. A lookup of a key with nothing pending on a stored parent asks the
    store exactly once, with one [find_one] for that parent and key, and
    does not change the collection. The record it returns is staged
    under the key. When the parent has a live instance for the key, the
    lookup returns that instance as it is, unsaved edits included, and
    changes nothing else. When it has none, the record is new: if the
    key is stored it carries a stored document of that parent and key;
    if not, it is an empty record for the key that is not yet
    persisted. *)
Theorem getitem_reads_store_once (w : World) (self : Frames) (sid : SampleId) (n : Z) :
  s_id (_sample self) = Some sid →
  1 ≤ n →
  _replacements self !! n = None →
  _delete_all self = false →
  PInt n ∉ _delete_frames self →
  ∃ w1 self1 frame,
    __getitem__ w self (PInt n) = Ok (w1, self1, frame) ∧
    _replacements self1 = <[n := frame]> (_replacements self) ∧
    trace w1 = trace w ++ [find_one_call sid n] ∧
    coll w1 = coll w ∧
    (∀ L, live w sid n L →
       frame = L ∧ w1 = log (find_one_call sid n) w ∧ deref w1 frame = deref w L) ∧
    ((∀ L, ¬ live w sid n L) →
       heap w !! frame = None ∧
       (stored w sid n →
          ∃ d, d ∈ coll w ∧ d_sample d = sid ∧ d_fn d = n ∧
               deref w1 frame = frame_of_doc d) ∧
       (¬ stored w sid n →
          deref w1 frame = mkFrame false DatasetDoc None (Some sid) n ∅ ∧
          frame_in_db (deref w1 frame) = false)).
Proof.
  intros Hs Hn Hr Hda Hdf.
  destruct (getitem_miss w self n Hn Hr) as (w1 & frame & Hget & _ & _ & Hc & Hcase).
  rewrite Hs, Hda, bool_decide_eq_false_2 in Hcase by done. cbn in Hcase.
  destruct Hcase as [Ht Hd].
  eexists w1, _, frame. split; [exact Hget|]. split_and!; try done.
  - intros L [HL HLn]. destruct Hd as [[[Hf _] ->] | [Hnone _]].
    + rewrite HL in Hf. injection Hf as ->. done.
    + exfalso. by apply (Hnone L).
  - intros Hnone. destruct Hd as [[Hlive _] | (_ & Hfresh & Hd)].
    { exfalso. by apply (Hnone frame). }
    split; [done|]. split.
    + intros Hst. destruct (find_one sid n (coll w)) as [d|] eqn:Hfind.
      * apply (proj1 (find_one_stored w sid n)) in Hfind as (? & ? & ?). by exists d.
      * by apply (proj2 (find_one_stored w sid n)) in Hfind.
    + intros Hst. destruct (find_one sid n (coll w)) as [d|] eqn:Hfind.
      * apply (proj1 (find_one_stored w sid n)) in Hfind as (? & ? & ?).
        exfalso. apply Hst. by exists d.
      * by rewrite Hd.
Qed.

(** X8. Reading [frames[n]] changes what the cache enumerates, as for a
    [defaultdict]: afterwards [n] is a frame number of the cache, unless
    the parent is stored, no delete-all is pending and [n] is pending
    deletion; the status of every other number is unchanged. *)
Theorem getitem_adds_key (w : World) (self : Frames) (n : Z) :
  1 ≤ n →
  ∃ w1 self1 frame,
    __getitem__ w self (PInt n) = Ok (w1, self1, frame) ∧
    (∀ m, m ≠ n → (effective w1 self1 m ↔ effective w self m)) ∧
    (effective w1 self1 n ↔
       ¬ (is_Some (s_id (_sample self)) ∧ _delete_all self = false ∧
          PInt n ∈ _delete_frames self)).
Proof.
  intros Hn. destruct (_replacements self !! n) as [l|] eqn:Hr.
  - exists w, self, l. split; [by apply getitem_staged|]. split; [done|].
    assert (n ∈ dom (_replacements self)) by (apply elem_of_dom; by exists l).
    unfold effective. destruct (s_id (_sample self)) as [sid|].
    + destruct (_delete_all self); [split; [|done]; intros _ (_ & ? & _); done|].
      split; [intros [_ ?] (_ & _ & ?); done|].
      intros Hne. split; [by left|]. intros ?. apply Hne. by split_and!.
    + split; [|done]. intros _ ([? ?] & _). done.
  - destruct (getitem_miss w self n Hn Hr) as (w1 & frame & Hget & _ & _ & Hc & _).
    eexists w1, _, frame. split; [exact Hget|].
    assert (∀ sid m, stored w1 sid m ↔ stored w sid m) as Hst
      by (intros; unfold stored; by rewrite Hc).
    unfold effective. cbn. split.
    + intros m Hm. rewrite dom_insert_L.
      destruct (s_id (_sample self)) as [sid|]; [destruct (_delete_all self)|];
        rewrite ?Hst, elem_of_union, elem_of_singleton; tauto.
    + rewrite dom_insert_L. clear Hst.
      destruct (s_id (_sample self)) as [sid|]; [destruct (_delete_all self)|].
      * split; [intros _ (_ & ? & _); done|set_solver].
      * split; [intros [_ ?] (_ & _ & ?); done|].
        intros Hne. split; [set_solver|]. intros ?. apply Hne. by split_and!.
      * split; [intros _ ([? ?] & _); done|set_solver].
Qed.


Lemma set_fields_inv w flds es w1 :
  set_fields w flds es = Ok w1 →
  heap w1 = heap w ∧ coll w1 = coll w ∧ trace w1 = trace w ∧ next_id w1 = next_id w ∧
  instances w1 = instances w.
Proof.
  unfold set_fields. destruct es; [by intros [= <-]|].
  destruct (bool_decide _); [by intros [= <-]|done].
Qed.


Lemma set_frame_number_spec w frame n :
  let w' := set_frame_number w frame n in
  coll w' = coll w ∧ trace w' = trace w ∧ next_id w' = next_id w ∧
  instances w' = instances w ∧
  frame_number (deref w' frame) = n ∧
  fields (deref w' frame) = fields (deref w frame) ∧
  frame_in_db (deref w' frame) = frame_in_db (deref w frame) ∧
  (∀ l, l ≠ frame → heap w' !! l = heap w !! l).
Proof.
  unfold set_frame_number. cbn. split_and!; try done.
  - unfold deref at 1. cbn. by rewrite lookup_total_insert_eq.
  - unfold deref at 1. cbn. by rewrite lookup_total_insert_eq.
  - unfold deref at 1. cbn. by rewrite lookup_total_insert_eq.
  - intros l Hl. cbn. by rewrite lookup_insert_ne.
Qed.

(** What a successful [add_frame] has done. *)
Lemma add_frame_inv w self k frame es w' self' :
  add_frame w self k frame es = Ok (w', self') →
  ∃ n frame',
    k = PInt n ∧ 1 ≤ n ∧
    self' = set_replacements (<[n := frame']> (_replacements self)) self ∧
    frame' = (if frame_in_db (deref w frame) then fresh (dom (heap w)) else frame) ∧
    coll w' = coll w ∧ trace w' = trace w ∧ next_id w' = next_id w ∧
    frame_number (deref w' frame') = n ∧
    fields (deref w' frame') = fields (deref w frame) ∧
    frame_in_db (deref w' frame') = false ∧
    (∀ l, l ≠ frame' → heap w' !! l = heap w !! l).
Proof.
  unfold add_frame, validate_frame_number. destruct k as [|n|s]; try done.
  destruct (bool_decide (1 ≤ n)) eqn:Hn; [|done]. apply bool_decide_eq_true in Hn. cbn.
  destruct (s_id (_sample self)) as [sid|].
  - destruct (set_fields w (fields (deref w frame)) es) as [w1|e] eqn:Hsf; [|done]. cbn.
    apply set_fields_inv in Hsf as (Hh1 & Hc1 & Ht1 & Hn1 & Hi1).
    set (doc := mkBag None sid n (fields (deref w frame))).
    destruct (frame_in_db (deref w frame)) eqn:Hdb.
    + unfold new_Frame.
      set (f0 := mkFrame false NoDatasetDoc None None n ∅).
      pose proof (alloc_frame w1 f0) as (Hc & Ht & _ & _ & Hn').
      pose proof (alloc_heap f0 w1) as Hh.
      assert ((alloc f0 w1).2 = fresh (dom (heap w))) as Hl
        by (unfold alloc; cbn; by rewrite Hh1).
      destruct (alloc f0 w1) as [w2 l]. cbn in Hc, Ht, Hn', Hh, Hl. subst l.
      intros [= <- <-]. exists n, (fresh (dom (heap w))).
      pose proof (set_backing_doc_deref w2 (fresh (dom (heap w))) doc) as Hd.
      pose proof (set_backing_doc_frame w2 (fresh (dom (heap w))) doc) as (Hc' & Ht' & Hn'' & _ & Hh').
      unfold _set_replacement. rewrite Hd. cbn.
      split_and!; try done; try congruence.
      intros l Hne. by rewrite Hh', Hh, !lookup_insert_ne, Hh1.
    + intros [= <- <-]. exists n, frame.
      pose proof (set_backing_doc_deref w1 frame doc) as Hd.
      pose proof (set_backing_doc_frame w1 frame doc) as (Hc' & Ht' & Hn'' & _ & Hh').
      unfold _set_replacement. rewrite Hd. cbn.
      split_and!; try done; try congruence.
      intros l Hne. by rewrite Hh', lookup_insert_ne, Hh1.
  - destruct (frame_in_db (deref w frame)) eqn:Hdb.
    + unfold copy.
      set (f0 := mkFrame false NoDatasetDoc None None (frame_number (deref w frame))
                   (fields (deref w frame))).
      pose proof (alloc_frame w f0) as (Hc & Ht & _ & _ & Hn').
      pose proof (alloc_heap f0 w) as Hh.
      pose proof (alloc_deref f0 w) as Hd.
      assert ((alloc f0 w).2 = fresh (dom (heap w))) as Hl by done.
      destruct (alloc f0 w) as [w1 l]. cbn in Hc, Ht, Hn', Hh, Hl, Hd. subst l.
      intros [= <- <-]. exists n, (fresh (dom (heap w))).
      pose proof (set_frame_number_spec w1 (fresh (dom (heap w))) n)
        as (Hc' & Ht' & Hn'' & _ & Hfn & Hfl & Hin & Hh').
      unfold _set_replacement. rewrite Hfn, Hfl, Hin, Hd.
      split_and!; try done; try congruence.
      intros l Hne. by rewrite Hh', Hh, lookup_insert_ne.
    + intros [= <- <-]. exists n, frame.
      pose proof (set_frame_number_spec w frame n)
        as (Hc' & Ht' & Hn'' & _ & Hfn & Hfl & Hin & Hh').
      unfold _set_replacement. rewrite Hfn, Hfl, Hin.
      by split_and!.
Qed.



Lemma getitem_valid w self k r :
  __getitem__ w self k = Ok r → ∃ n, k = PInt n ∧ 1 ≤ n.
Proof.
  unfold __getitem__, validate_frame_number. destruct k as [|n|s]; try done.
  destruct (bool_decide (1 ≤ n)) eqn:Hn; [|done].
  apply bool_decide_eq_true in Hn. intros _. by exists n.
Qed.

Lemma effective_frame w self w' self' :
  coll w' = coll w → _sample self' = _sample self →
  _delete_frames self' = _delete_frames self → _delete_all self' = _delete_all self →
  ∀ m, effective w' self' m
       ↔ match s_id (_sample self) with
         | None => m ∈ dom (_replacements self')
         | Some sid =>
             if _delete_all self then m ∈ dom (_replacements self')
             else (m ∈ dom (_replacements self') ∨ stored w sid m)
                  ∧ PInt m ∉ _delete_frames self
         end.
Proof.
  intros Hc Hs Hd Ha m. unfold effective, stored. by rewrite Hc, Hs, Hd, Ha.
Qed.

(** ** [update] *)

Lemma update_keeps_visible (frames : list (pyval * loc)) (es : bool) : ∀ w self,
  let r := update w self frames false es in
  coll r.1.1 = coll w ∧ _sample r.1.2 = _sample self ∧
  _delete_frames r.1.2 = _delete_frames self ∧ _delete_all r.1.2 = _delete_all self ∧
  ∀ m, effective w self m →
       _replacements r.1.2 !! m = _replacements self !! m ∧ effective r.1.1 r.1.2 m.
Proof.
  induction frames as [|[k f] rest IH]; intros w self; cbn.
  - by split_and!.
  - rewrite contains_eq. cbn.
    set (w1 := (_get_frame_numbers w self).1).
    assert (coll w1 = coll w) as Hc1.
    { subst w1. rewrite get_frame_numbers_world.
      destruct (s_id (_sample self)); [|done]. by destruct (_delete_all self). }
    assert (∀ m, effective w1 self m ↔ effective w self m) as Heff
      by (intros m; unfold effective, stored; by rewrite Hc1).
    set (present := match k with
                    | PInt n => bool_decide (n ∈ (_get_frame_numbers w self).2)
                    | _ => false
                    end).
    destruct present eqn:Hp; cbn.
    + destruct (IH w1 self) as (Hc & Hs & Hd & Ha & Hm).
      split_and!; try done; try congruence.
      intros m Hm'. apply Hm. by apply Heff.
    + destruct (add_frame w1 self k f es) as [[w2 self2]|e] eqn:Hadd; cbn.
      * apply add_frame_inv in Hadd
          as (n & frame' & -> & Hn & -> & _ & Hc2 & _ & _ & _ & _ & _ & _).
        subst present. apply bool_decide_eq_false in Hp.
        rewrite get_frame_numbers_elem in Hp.
        set (self2 := set_replacements (<[n:=frame']> (_replacements self)) self).
        destruct (IH w2 self2) as (Hc & Hs & Hd & Ha & Hm).
        split_and!; try done; try congruence.
        intros m Hm'. assert (m ≠ n) as Hne by (intros ->; done).
        assert (effective w2 self2 m) as Hm2.
        { apply (effective_frame w self w2 self2); [congruence|done..|].
          unfold effective in Hm'. subst self2. cbn. rewrite dom_insert_L.
          destruct (s_id (_sample self)); [destruct (_delete_all self)|];
            rewrite elem_of_union, elem_of_singleton; tauto. }
        destruct (Hm m Hm2) as [Hr He]. split; [|done].
        rewrite Hr. subst self2. cbn. by rewrite lookup_insert_ne.
      * split_and!; try done. intros m Hm'. split; [done|]. by apply Heff.
Qed.

(** [update] writes to the records it is given and to the ones it
    allocates, and to no other record of the heap. *)
Lemma update_heap_frame (frames : list (pyval * loc)) (ow es : bool) (l : loc) : ∀ w self,
  l ∉ frames.*2 → is_Some (heap w !! l) →
  heap (update w self frames ow es).1.1 !! l = heap w !! l.
Proof.
  induction frames as [|[k f] rest IH]; intros w self Hl Hin; [done|].
  cbn in Hl. apply not_elem_of_cons in Hl as [Hne Hl]. cbn [update].
  rewrite contains_eq.
  set (w0 := (_get_frame_numbers w self).1).
  assert (heap w0 = heap w) as Hh0.
  { subst w0. rewrite get_frame_numbers_world.
    destruct (s_id (_sample self)); [|done]. by destruct (_delete_all self). }
  assert (∀ w1, heap w1 = heap w →
    heap (match add_frame w1 self k f es with
          | Ok (w2, self2) => update w2 self2 rest ow es
          | Raise e => (w1, self, Some e)
          end).1.1 !! l = heap w !! l) as Hadd.
  { intros w1 Hh1. destruct (add_frame w1 self k f es) as [[w2 self2]|e] eqn:Hadd.
    - apply add_frame_inv in Hadd
        as (n & frame' & _ & _ & _ & Hfr & _ & _ & _ & _ & _ & _ & Hh).
      assert (l ≠ frame') as Hne'.
      { intros Heq. destruct (frame_in_db (deref w1 f)); [|congruence].
        rewrite <- Hh1 in Hin. apply elem_of_dom in Hin.
        apply (is_fresh (dom (heap w1))). congruence. }
      rewrite IH; [|done|by rewrite Hh, Hh1].
      by rewrite Hh, Hh1.
    - cbn. by rewrite Hh1. }
  destruct ow.
  - by apply Hadd.
  - destruct (negb _).
    + by apply Hadd.
    + rewrite IH; [by rewrite Hh0|done|by rewrite Hh0].
Qed.

(** X10. [update(frames, overwrite=False)] never replaces or hides a
    frame of the cache: for every frame number that the cache showed
    before, the pending entry is what it was and the number is still
    shown afterwards, whether or not the update ran to its end. The
    record staged under the number is itself unchanged when it is not
    one of the records that the update is given for other numbers. *)
Theorem update_no_overwrite_keeps_frames
    (w : World) (self : Frames) (frames : list (pyval * loc)) (es : bool) (m : Z) :
  effective w self m →
  _replacements (update w self frames false es).1.2 !! m = _replacements self !! m ∧
  effective (update w self frames false es).1.1 (update w self frames false es).1.2 m ∧
  (∀ l, _replacements self !! m = Some l →
        is_Some (heap w !! l) →
        l ∉ frames.*2 →
        heap (update w self frames false es).1.1 !! l = heap w !! l).
Proof.
  intros Hm.
  destruct (update_keeps_visible frames es w self) as (_ & _ & _ & _ & Hvis).
  destruct (Hvis m Hm) as [Hr He]. split; [exact Hr|]. split; [exact He|].
  intros l _ Hin Hl. by apply update_heap_frame.
Qed.

(** ** A parent that is in no dataset *)

(** X11. The cache of a sample that is in no dataset never reaches the
    store: lookups and [add_frame] leave the collection and the trace of
    store calls as they were, deleting a key records no pending delete,
    [keys()] and [items()] leave the world as it is, and [save()] changes
    nothing, so that the pending replacements stay pending. *)
Theorem transient_parent_never_calls_store (flt : Faults) (w : World) (self : Frames) :
  s_id (_sample self) = None →
  (∀ k w1 self1 frame,
     __getitem__ w self k = Ok (w1, self1, frame) → trace w1 = trace w ∧ coll w1 = coll w) ∧
  (∀ k frame es w1 self1,
     add_frame w self k frame es = Ok (w1, self1) → trace w1 = trace w ∧ coll w1 = coll w) ∧
  (∀ k, _delete_frames (__delitem__ self k) = _delete_frames self) ∧
  (keys w self).1 = w ∧
  (∃ ys, items w self = Some (w, self, ys)) ∧
  save flt w self = (w, self, None).
Proof.
  intros Hs. split_and!.
  - intros k w1 self1 frame Hget.
    destruct (getitem_valid _ _ _ _ Hget) as (n & -> & Hn).
    destruct (_replacements self !! n) as [l|] eqn:Hr.
    + rewrite (getitem_staged w self n l Hn Hr) in Hget. by injection Hget as <- _ _.
    + destruct (getitem_miss w self n Hn Hr) as (w1' & frame' & Hget' & _ & _ & Hc & Hcase).
      rewrite Hget' in Hget. injection Hget as <- _ _. rewrite Hs in Hcase. by destruct Hcase.
  - intros k frame es w1 self1 Hadd.
    by apply add_frame_inv in Hadd as (_ & _ & _ & _ & _ & _ & -> & -> & _).
  - intros k. unfold __delitem__. by rewrite Hs.
  - rewrite keys_eq, get_frame_numbers_world. by rewrite Hs.
  - unfold items, _iter_frames. rewrite Hs. by eexists.
  - unfold save. by rewrite Hs.
Qed.


(** ** Flush and reload *)

Lemma save_deletions_success flt w self sid w1 self1 :
  _save_deletions flt w self sid = (w1, self1, None) →
  _delete_frames self1 = ∅ ∧ _delete_all self1 = false ∧
  _replacements self1 = _replacements self ∧ _sample self1 = _sample self.
Proof.
  unfold _save_deletions. destruct (_delete_all self) eqn:Ha; cbn.
  - rewrite bool_decide_eq_true_2 by done. by intros [= <- <-].
  - destruct (bool_decide (_delete_frames self = ∅)) eqn:Hd.
    + apply bool_decide_eq_true in Hd. by intros [= <- <-].
    + destruct (delete_fault flt); [done|]. by intros [= <- <-].
Qed.

Lemma save_replacements_success flt w self sid incl w' self' :
  _save_replacements flt w self sid incl = (w', self', None) →
  _replacements self' = ∅ ∧ _delete_frames self' = _delete_frames self ∧
  _delete_all self' = _delete_all self ∧ _sample self' = _sample self.
Proof.
  unfold _save_replacements. cbn zeta.
  set (insts := if incl then _get_instances w sid else ∅).
  set (aliased := bool_decide (insts = ∅)).
  set (R := if aliased then _replacements self else _replacements self ∪ insts).
  destruct (bool_decide (R = ∅)) eqn:HR.
  - apply bool_decide_eq_true in HR. intros [= <- <-]. split; [|done].
    subst R. destruct aliased; [done|]. by apply map_positive_l in HR.
  - set (nf := List.filter (λ l, negb (frame_in_db (deref w l))) (map_to_list R).*2).
    assert (∀ w2 R',
      (let self0 := if aliased then set_replacements R' self else self in
       if bool_decide (R' = ∅) then (w2, set_replacements ∅ self0, None)
       else
         match replace_fault flt with
         | Some errs => (log bulk_write_call w2, self0, Some (BulkWriteError errs))
         | None =>
             let st := foldl (λ st op, upsert_one sid op.1 op.2 st) (coll w2, next_id w2)
                         ((λ kl, (kl.1, _make_dict w2 sid kl.2)) <$> map_to_list R') in
             (log bulk_write_call (set_next_id st.2 (set_coll st.1 w2)),
              set_replacements ∅ self0, None)
         end) = (w', self', None) →
      _replacements self' = ∅ ∧ _delete_frames self' = _delete_frames self ∧
      _delete_all self' = _delete_all self ∧ _sample self' = _sample self) as Hreplace.
    { intros w2 R'. cbn zeta.
      destruct (bool_decide (R' = ∅)).
      - intros [= <- <-]. by destruct aliased.
      - destruct (replace_fault flt); [done|]. intros [= <- <-]. by destruct aliased. }
    destruct nf as [|a nf'] eqn:Hnf.
    + apply Hreplace.
    + destruct (insert_fault flt); [done|]. apply Hreplace.
Qed.

(** X12. A [save()] of a stored parent that raises nothing leaves nothing
    pending: no replacement, no pending delete, no delete-all; and with a
    store that accepts every write [save()] raises nothing. *)
Theorem save_leaves_nothing_pending (flt : Faults) (w : World) (self : Frames) (sid : SampleId) :
  s_id (_sample self) = Some sid →
  (∀ w' self', save flt w self = (w', self', None) →
     _replacements self' = ∅ ∧ _delete_frames self' = ∅ ∧ _delete_all self' = false ∧
     _sample self' = _sample self) ∧
  (save no_faults w self).2 = None.
Proof.
  intros Hs. unfold save. rewrite Hs. split.
  - intros w' self'.
    destruct (_save_deletions flt w self sid) as [[w1 self1] [e|]] eqn:Hsd; [done|].
    apply save_deletions_success in Hsd as (Hd & Ha & _ & Hsm).
    intros (Hr & Hd' & Ha' & Hsm')%save_replacements_success.
    split_and!; congruence.
  - pose proof (save_deletions_no_faults w self sid) as Hnf.
    destruct (_save_deletions no_faults w self sid) as [[w1 self1] e] eqn:Hsd.
    cbn in Hnf. subst e.
    destruct (_save_replacements no_faults w1 self1 sid true) as [[w2 self2] [e|]] eqn:Hsr;
      [|done].
    apply save_replacements_failure in Hsr as [(errs & ? & _)|(errs & ? & _)]; done.
Qed.


Lemma others_app sid ds1 ds2 : others sid (ds1 ++ ds2) = others sid ds1 ++ others sid ds2.
Proof. unfold others. apply List.filter_app. Qed.

Lemma others_cons sid d ds :
  others sid (d :: ds)
  = if bool_decide (d_sample d = sid) then others sid ds else d :: others sid ds.
Proof. unfold others, of_sample. cbn. by destruct (bool_decide (d_sample d = sid)). Qed.

Lemma others_own sid ds : Forall (λ d, d_sample d = sid) ds → others sid ds = [].
Proof.
  induction 1 as [|d ds Hd _ IH]; [done|].
  by rewrite others_cons, bool_decide_eq_true_2.
Qed.

Lemma delete_one_others sid (p : Doc → bool) docs :
  (∀ d, p d = true → d_sample d = sid) →
  others sid (delete_one p docs) = others sid docs.
Proof.
  intros Hp. induction docs as [|d ds IH]; [done|]. cbn [delete_one].
  destruct (p d) eqn:Hpd.
  - by rewrite (others_cons sid d), bool_decide_eq_true_2 by by apply Hp.
  - by rewrite !others_cons, IH.
Qed.

Lemma replace_one_others sid n b docs ds :
  b_sample b = sid →
  replace_one (on_key sid n) b docs = Some ds → others sid ds = others sid docs.
Proof.
  intros Hb. revert ds. induction docs as [|d docs IH]; intros ds; [done|].
  cbn [replace_one].
  destruct (on_key sid n d) eqn:Hk.
  - intros [= <-]. unfold on_key in Hk. apply bool_decide_eq_true in Hk as [Hs _].
    by rewrite !others_cons, !bool_decide_eq_true_2.
  - destruct (replace_one (on_key sid n) b docs) as [ds'|]; [|done].
    intros [= <-]. by rewrite !others_cons, (IH ds').
Qed.

Lemma upsert_one_others sid n b st :
  b_sample b = sid → others sid (upsert_one sid n b st).1 = others sid st.1.
Proof.
  intros Hb. unfold upsert_one.
  destruct (replace_one (on_key sid n) b st.1) as [ds|] eqn:Hr; cbn.
  - by apply (replace_one_others sid n b).
  - rewrite others_app, (others_own sid [_]), app_nil_r; [done|].
    by constructor.
Qed.

Lemma upsert_fold_others sid (ops : list (Z * Bag)) : ∀ st,
  Forall (λ op, b_sample op.2 = sid) ops →
  others sid (foldl (λ st op, upsert_one sid op.1 op.2 st) st ops).1 = others sid st.1.
Proof.
  induction ops as [|op ops IH]; intros st Hops; [done|]. cbn.
  apply Forall_cons in Hops as [Hop Hops].
  by rewrite IH, upsert_one_others.
Qed.

Lemma assign_ids_own w sid ls : ∀ i,
  Forall (λ d, d_sample d = sid) (assign_ids i (_make_dict w sid <$> ls)).
Proof. induction ls as [|l ls IH]; intros i; cbn; by constructor. Qed.

Lemma bind_inserted_coll ps : ∀ w, coll (foldl bind_inserted w ps) = coll w.
Proof.
  induction ps as [|p ps IH]; intros w; [done|]. cbn. rewrite IH.
  unfold bind_inserted. destruct (doc_cls (deref w p.1)); [|done].
  by destruct (set_backing_doc_frame w p.1 (bag_of_doc p.2)) as (-> & _).
Qed.

Lemma delete_fold_others sid (ks : list pyval) docs :
  others sid (foldr (λ k ds, delete_one (on_pykey sid k) ds) docs ks) = others sid docs.
Proof.
  induction ks as [|k ks IH]; [done|]. cbn. rewrite delete_one_others; [done|].
  intros d Hd. unfold on_pykey in Hd. by apply bool_decide_eq_true in Hd as [? _].
Qed.

Lemma save_deletions_others flt w self sid :
  others sid (coll (_save_deletions flt w self sid).1.1) = others sid (coll w).
Proof.
  unfold _save_deletions.
  set (p := if _delete_all self then _ else _).
  assert (others sid (coll p.1) = others sid (coll w)) as Hp.
  { subst p. destruct (_delete_all self); [|done]. cbn [fst].
    destruct (reset_docs_spec (log (delete_many_call sid)
                (set_coll (delete_many sid (coll w)) w)) sid) as (_ & -> & _).
    cbn. apply delete_many_others. }
  destruct p as [w1 self1]. cbn in Hp.
  destruct (bool_decide (_delete_frames self1 = ∅)); [done|].
  destruct (delete_fault flt); [done|]. cbn [fst].
  destruct (reset_docs_for_sample_spec
              (log bulk_write_call
                 (set_coll (foldr (λ k ds, delete_one (on_pykey sid k) ds) (coll w1)
                              (elements (_delete_frames self1))) w1))
              sid (_delete_frames self1)) as (-> & _).
  cbn. by rewrite delete_fold_others.
Qed.

Lemma save_replacements_others flt w self sid incl :
  others sid (coll (_save_replacements flt w self sid incl).1.1) = others sid (coll w).
Proof.
  unfold _save_replacements. cbn zeta.
  set (insts := if incl then _get_instances w sid else ∅).
  set (aliased := bool_decide (insts = ∅)).
  set (R := if aliased then _replacements self else _replacements self ∪ insts).
  destruct (bool_decide (R = ∅)); [done|].
  set (nf := List.filter (λ l, negb (frame_in_db (deref w l))) (map_to_list R).*2).
  assert (∀ w2 R',
    others sid (coll
      (let self0 := if aliased then set_replacements R' self else self in
       if bool_decide (R' = ∅) then (w2, set_replacements ∅ self0, None)
       else
         match replace_fault flt with
         | Some errs => (log bulk_write_call w2, self0, Some (BulkWriteError errs))
         | None =>
             let st := foldl (λ st op, upsert_one sid op.1 op.2 st) (coll w2, next_id w2)
                         ((λ kl, (kl.1, _make_dict w2 sid kl.2)) <$> map_to_list R') in
             (log bulk_write_call (set_next_id st.2 (set_coll st.1 w2)),
              set_replacements ∅ self0, None)
         end).1.1) = others sid (coll w2)) as Hreplace.
  { intros w2 R'. cbn zeta.
    destruct (bool_decide (R' = ∅)); [done|].
    destruct (replace_fault flt); [done|]. cbn.
    rewrite upsert_fold_others; [done|].
    apply Forall_fmap, Forall_forall. by intros. }
  destruct nf as [|a nf'] eqn:Hnf.
  - apply Hreplace.
  - destruct (insert_fault flt); [done|]. rewrite Hreplace, bind_inserted_coll.
    cbn [log set_next_id set_coll coll].
    rewrite others_app, (others_own sid (assign_ids _ _)), app_nil_r; [done|].
    apply assign_ids_own.
Qed.

(** X13. [save()] writes to the documents of its own parent only: the
    documents of every other parent are in the collection afterwards as
    they were before, in the same order, whatever is pending, whatever the
    registry of live frames holds, and whether or not a write fails. *)
Theorem save_keeps_other_parents (flt : Faults) (w : World) (self : Frames) (sid : SampleId) :
  s_id (_sample self) = Some sid →
  others sid (coll (save flt w self).1.1) = others sid (coll w).
Proof.
  intros Hs. unfold save. rewrite Hs.
  pose proof (save_deletions_others flt w self sid) as Hd.
  destruct (_save_deletions flt w self sid) as [[w1 self1] [e|]]; [done|].
  cbn in Hd. by rewrite save_replacements_others.
Qed.

(** X14. [reload()] on a stored parent drops everything pending before
    it resynchronizes the live records. Whatever the resynchronization
    does, the cache that [reload()] leaves has no pending replacement, no
    pending delete and no pending delete-all, and in every world with the
    collection as it was it enumerates exactly the frame numbers stored
    for the parent. *)
Theorem reload_shows_stored_frames (w : World) (self : Frames) (sid : SampleId) :
  s_id (_sample self) = Some sid →
  _replacements (reload w self).1.2 = ∅ ∧
  _delete_frames (reload w self).1.2 = ∅ ∧
  _delete_all (reload w self).1.2 = false ∧
  _sample (reload w self).1.2 = _sample self ∧
  ∀ w' n, coll w' = coll w → (n ∈ (keys w' (reload w self).1.2).2 ↔ stored w sid n).
Proof.
  intros Hs. unfold reload. rewrite Hs.
  destruct (_get_frame_numbers w (mkFrames (_sample self) ∅ ∅ false)) as [w1 fns].
  cbn [fst snd _replacements _delete_frames _delete_all _sample].
  split_and!; try done.
  intros w' n Hc. rewrite keys_eq. cbn [snd].
  pose proof (sorted_elements
    (_get_frame_numbers w' (mkFrames (_sample self) ∅ ∅ false)).2) as (_ & -> & _).
  rewrite get_frame_numbers_elem. unfold effective. cbn. rewrite Hs.
  unfold stored. rewrite Hc, dom_empty_L, elem_of_empty.
  assert (PInt n ∉ (∅ : gset pyval)) by apply not_elem_of_empty. tauto.
Qed.


(** ** The iterator protocol *)

Lemma drain_suspended (c : Frames) (ks : list Z) : ∀ w,
  drain (S (length ks)) w (mkIter c (Some (gen_suspended ks)))
  = (w, mkIter c None, (Yielded <$> ks) ++ [StopIteration]).
Proof.
  induction ks as [|k ks IH]; intros w; [done|].
  change (drain (S (length (k :: ks))) w (mkIter c (Some (gen_suspended (k :: ks)))))
    with (let '(w2, self2, os) := drain (S (length ks)) w (mkIter c (Some (gen_suspended ks)))
          in (w2, self2, Yielded k :: os)).
  by rewrite IH.
Qed.

(** X15. A [for] loop over the cache emits the frame numbers of [keys()],
    a snapshot taken at the first [next], and then stops; when it stops the
    attribute [_iter] is [None] again, whatever it held before the loop.
    A [next] after that, such as the one of an enclosing loop over the
    same object, raises [TypeError]. *)
Theorem for_loop_emits_keys_then_resets (w : World) (self : FramesIter) :
  let ks := (keys w (cache self)).2 in
  let w1 := (keys w (cache self)).1 in
  drain (S (length ks)) w (__iter__ self)
  = (w1, mkIter (cache self) None, (Yielded <$> ks) ++ [StopIteration]) ∧
  (__next__ w1 (drain (S (length ks)) w (__iter__ self)).1.2).2 = TypeError.
Proof.
  cbn zeta.
  assert (drain (S (length (keys w (cache self)).2)) w (__iter__ self)
          = ((keys w (cache self)).1, mkIter (cache self) None,
             (Yielded <$> (keys w (cache self)).2) ++ [StopIteration])) as Hd.
  { destruct (keys w (cache self)) as [w1 ks] eqn:Hk. cbn [fst snd].
    destruct ks as [|k ks].
    - cbn. by rewrite Hk.
    - change (drain (S (length (k :: ks))) w (__iter__ self))
        with (let '(w1, self1, o) := __next__ w (__iter__ self) in
              match o with
              | Yielded _ =>
                  let '(w2, self2, os) := drain (length (k :: ks)) w1 self1 in
                  (w2, self2, o :: os)
              | _ => (w1, self1, [o])
              end).
      unfold __next__, __iter__. cbn [_iter cache]. rewrite Hk.
      cbn [length]. by rewrite drain_suspended. }
  split; [exact Hd|]. by rewrite Hd.
Qed.


(** ** Ordered iteration: what it leaves behind *)

Lemma iter_yield_frame w self n repl_done db_done d :
  1 ≤ n →
  let r := iter_yield w self n repl_done db_done d in
  coll r.1.1 = coll w ∧ trace r.1.1 = trace w ∧
  _sample r.1.2 = _sample self ∧ _delete_frames r.1.2 = _delete_frames self ∧
  _delete_all r.1.2 = _delete_all self ∧
  (∀ l, is_Some (heap w !! l) → heap r.1.1 !! l = heap w !! l) ∧
  (∀ k, k ≠ n → _replacements r.1.2 !! k = _replacements self !! k) ∧
  (r.2 = [] → r.1 = (w, self)) ∧
  (∀ l, l ∈ r.2 →
     _replacements r.1.2 !! n = Some l ∧
     (_replacements self !! n = Some l ∨
      (is_Some (heap r.1.1 !! l) ∧ frame_number (deref r.1.1 l) = n))).
Proof.
  intros Hpos. unfold iter_yield.
  destruct (if repl_done then None else _replacements self !! n) as [frame|] eqn:Hrepl.
  - assert (_replacements self !! n = Some frame) as Hr by by destruct repl_done.
    cbn. split_and!; try done.
    intros l ->%list_elem_of_singleton. by split; [|left].
  - destruct d as [doc|]; [|cbn; split_and!; try done; by intros l ?%elem_of_nil].
    destruct (negb db_done && bool_decide (n = d_fn doc)
              && bool_decide (PInt n ∉ _delete_frames self)) eqn:Hc;
      [|cbn; split_and!; try done; by intros l ?%elem_of_nil].
    apply andb_true_iff in Hc as [Hc _]. apply andb_true_iff in Hc as [_ Hn].
    apply bool_decide_eq_true in Hn.
    pose proof (make_frame_frame w (bag_of_doc doc)) as (Hcl & Ht & _ & _ & Hd & Ho & Hin).
    destruct (_make_frame w (bag_of_doc doc)) as [w' frame]. cbn in *.
    unfold _set_replacement. rewrite Hd. cbn. rewrite <- Hn in *.
    split_and!; try done.
    + intros k Hk. by rewrite lookup_insert_ne.
    + intros l ->%list_elem_of_singleton. rewrite lookup_insert_eq. split; [done|].
      right. split; [apply Hin; lia|done].
Qed.

Lemma iter_loop_frame (max_repl_fn : Z) (fuel : nat) :
  ∀ w self n repl_done db_done d results res,
  1 ≤ n →
  iter_loop fuel max_repl_fn w self n repl_done db_done d results = Some res →
  coll res.1.1 = coll w ∧ trace res.1.1 = trace w ∧
  _sample res.1.2 = _sample self ∧ _delete_frames res.1.2 = _delete_frames self ∧
  _delete_all res.1.2 = _delete_all self ∧
  (∀ l, is_Some (heap w !! l) → heap res.1.1 !! l = heap w !! l) ∧
  (∀ k, k < n → _replacements res.1.2 !! k = _replacements self !! k) ∧
  (res.2 = [] → res.1 = (w, self)) ∧
  (∀ l, l ∈ res.2 →
     ∃ k, n ≤ k ∧ _replacements res.1.2 !! k = Some l ∧
          (_replacements self !! k = Some l ∨ frame_number (deref res.1.1 l) = k)).
Proof.
  induction fuel as [|fuel IH]; intros w self n repl_done db_done d results res Hpos; [done|].
  cbn [iter_loop].
  destruct (repl_done && db_done).
  { intros [= <-]. cbn. split_and!; try done. by intros l ?%elem_of_nil. }
  pose proof (iter_yield_frame w self n repl_done db_done d Hpos)
    as (Hc1 & Ht1 & Hs1 & Hd1 & Ha1 & Hh1 & Hr1 & He1 & Hy1).
  destruct (iter_yield w self n repl_done db_done d) as [[w1 self1] out]. cbn in *.
  destruct (iter_advance db_done d results (n + 1)) as [[d' results'] db_done'].
  destruct (iter_loop fuel max_repl_fn w1 self1 (n + 1) _ db_done' d' results')
    as [[[w2 self2] rest]|] eqn:Hloop; [|done].
  intros [= <-]. cbn.
  apply IH in Hloop as (Hc2 & Ht2 & Hs2 & Hd2 & Ha2 & Hh2 & Hr2 & He2 & Hy2); [|lia]. cbn in *.
  split_and!; try congruence.
  - intros l Hl. rewrite Hh2; [by apply Hh1|]. rewrite Hh1; done.
  - intros k Hk. rewrite Hr2 by lia. apply Hr1. lia.
  - intros [-> ->]%app_eq_nil. rewrite He2 by done. by apply He1.
  - intros l [Hl|Hl]%elem_of_app.
    + destruct (Hy1 l Hl) as [Hst Hor]. exists n. split; [lia|].
      split; [rewrite Hr2 by lia; done|].
      destruct Hor as [?|[Hsome Hfn]]; [by left|right].
      by rewrite (deref_stable w1 w2 l Hsome (Hh2 l Hsome)).
    + destruct (Hy2 l Hl) as (k & Hk & Hst & Hor). exists k. split; [lia|].
      split; [done|]. destruct Hor as [Hor|?]; [|by right].
      rewrite Hr1 in Hor by lia. by left.
Qed.

(** [items()] on a stored parent without a pending delete-all, as the
    loop that it runs: the loop ends within its bound and meets its
    postcondition. *)
Lemma iter_frames_backed w self sid :
  s_id (_sample self) = Some sid →
  _delete_all self = false →
  (∀ d, d ∈ coll w → d_sample d = sid → 1 ≤ d_fn d) →
  replacements_wf w self →
  let docs := merge_sort fn_le (List.filter (of_sample sid) (coll w)) in
  let w1 := log (aggregate_call sid) w in
  let d := match docs with d :: _ => Some d | [] => None end in
  let rs := match docs with _ :: rs => rs | [] => [] end in
  let db_done := match docs with _ :: _ => false | [] => true end in
  ∃ res,
    _iter_frames w self
    = iter_loop (iter_bound (max_key (_replacements self)) docs)
        (max_key (_replacements self)) w1 self 1
        (bool_decide (_replacements self = ∅)) db_done d rs ∧
    _iter_frames w self = Some res ∧
    loop_post (_replacements self) (_delete_frames self) w1 1 docs res.
Proof.
  intros Hs Hall Hpos Hwf docs w1 d rs db_done.
  pose proof (iter_frames_db_spec w sid) as (Hsorted & Hdocs & Hheap).
  change ((_iter_frames_db w sid).2) with docs in Hsorted, Hdocs.
  change ((_iter_frames_db w sid).1) with w1 in Hheap.
  set (R0 := _replacements self). set (D := _delete_frames self).
  assert (_iter_frames w self
          = iter_loop (iter_bound (max_key R0) docs) (max_key R0) w1 self 1
              (bool_decide (R0 = ∅)) db_done d rs) as Heq.
  { unfold _iter_frames. rewrite Hs, Hall. unfold _iter_frames_db.
    fold docs w1 R0. subst d rs db_done. by destruct docs. }
  assert (remaining db_done d rs = docs) as Hrem by (subst d rs db_done; by destruct docs).
  pose proof (foldr_max_ge (d_fn <$> docs) (max_key R0)) as [HB1 HB2].
  destruct (iter_loop_spec R0 D (max_key R0) (iter_bound (max_key R0) docs)
              (foldr Z.max (max_key R0) (d_fn <$> docs)) w1 self 1
              (bool_decide (R0 = ∅)) db_done d rs) as (res & Hres & Hpost).
  - split_and!; [done|done|done|apply max_key_ge| | |].
    + intros HE%bool_decide_eq_true. rewrite HE, max_key_empty. lia.
    + intros Hdd. subst d rs db_done. destruct docs as [|d0 rs0] eqn:Hdocs'; [done|].
      exists d0. split_and!; [done| |done].
      apply Hpos; apply (Hdocs d0); by left.
    + intros k l Hk. rewrite Hheap. by apply Hwf.
  - done.
  - rewrite Hrem. intros x Hx. apply HB2. apply list_elem_of_fmap. eauto.
  - unfold iter_bound. lia.
  - intros _. unfold iter_bound. lia.
  - unfold iter_bound. lia.
  - exists res. rewrite Hrem in Hpost. split_and!; try done.
    by rewrite Heq.
Qed.

(** X16. [items()] on a stored parent makes one store call, the ordered
    scan of the parent's documents, and changes neither the collection nor
    the pending deletes; every record it yields is afterwards staged under
    the key it was yielded with, so that a lookup of that key returns the
    identical record without a store call. *)
Theorem items_stages_what_it_yields (w : World) (self : Frames) (sid : SampleId) :
  s_id (_sample self) = Some sid →
  _delete_all self = false →
  (∀ d, d ∈ coll w → d_sample d = sid → 1 ≤ d_fn d) →
  replacements_wf w self →
  ∃ w' self' ys,
    items w self = Some (w', self', ys) ∧
    coll w' = coll w ∧
    trace w' = trace w ++ [aggregate_call sid] ∧
    _delete_frames self' = _delete_frames self ∧
    _delete_all self' = false ∧
    (∀ k l, _replacements self !! k = Some l → 1 ≤ k → _replacements self' !! k = Some l) ∧
    (∀ n l, (n, l) ∈ ys →
       _replacements self' !! n = Some l ∧
       __getitem__ w' self' (PInt n) = Ok (w', self', l)).
Proof.
  intros Hs Hall Hpos Hwf.
  destruct (iter_frames_backed w self sid Hs Hall Hpos Hwf)
    as ([[w' self'] frames] & Heq & Hres & Hpost).
  rewrite Hres in Heq. symmetry in Heq.
  apply iter_loop_frame in Heq as (Hc & Ht & _ & Hd & Ha & Hh & Hr & _ & Hy); [|lia].
  cbn [fst snd] in *.
  destruct Hpost as (_ & _ & Hmem & Hloc). cbn [fst snd] in *.
  unfold items. rewrite Hres.
  exists w', self', ((λ l, (frame_number (deref w' l), l)) <$> frames).
  assert (∀ l, l ∈ frames →
            1 ≤ frame_number (deref w' l) ∧
            _replacements self' !! frame_number (deref w' l) = Some l) as Hstaged.
  { intros l Hl. destruct (Hy l Hl) as (k & Hk & Hst & Hor).
    assert (frame_number (deref w' l) = k) as ->; [|done].
    destruct Hor as [Hor|?]; [|done].
    destruct (Hwf _ _ Hor) as (f & Hf & Hfn).
    unfold deref. rewrite (lookup_total_correct (heap w') l f); [done|].
    rewrite Hh; [done|]. by exists f. }
  split_and!; try done; try congruence.
  - intros k l Hk Hpos'.
    assert (k ∈ (λ l, frame_number (deref w' l)) <$> frames) as Hin.
    { apply Hmem. split; [done|]. left. by exists l. }
    apply list_elem_of_fmap in Hin as (l' & -> & Hl').
    destruct (Hloc l' Hl') as [Hsame|(Hnone & _)]; [|congruence].
    destruct (Hstaged l' Hl') as [_ Hst]. congruence.
  - intros n l (l' & [= -> ->] & Hl)%list_elem_of_fmap.
    destruct (Hstaged l' Hl) as [Hn Hst]. split; [done|]. by apply getitem_staged.
Qed.


Lemma sorted_lt_ext (l1 : list Z) : ∀ l2,
  StronglySorted Z.lt l1 → StronglySorted Z.lt l2 → (∀ x, x ∈ l1 ↔ x ∈ l2) → l1 = l2.
Proof.
  induction l1 as [|a l1 IH]; intros [|b l2] H1 H2 Hm.
  - done.
  - exfalso. apply (elem_of_nil b), Hm. by left.
  - exfalso. apply (elem_of_nil a), Hm. by left.
  - apply StronglySorted_inv in H1 as [H1 Ha]. apply StronglySorted_inv in H2 as [H2 Hb].
    rewrite Forall_forall in Ha, Hb.
    assert (a = b) as ->.
    { assert (a ∈ b :: l2) as [?|Hin1]%elem_of_cons by (apply Hm; by left); [done|].
      assert (b ∈ a :: l1) as [?|Hin2]%elem_of_cons by (apply Hm; by left); [done|].
      specialize (Ha _ Hin2). specialize (Hb _ Hin1). lia. }
    f_equal. apply IH; [done|done|]. intros x. split.
    + intros Hx. assert (x ∈ b :: l2) as [->|?]%elem_of_cons by (apply Hm; by right); [|done].
      specialize (Ha _ Hx). lia.
    + intros Hx. assert (x ∈ b :: l1) as [->|?]%elem_of_cons by (apply Hm; by right); [|done].
      specialize (Hb _ Hx). lia.
Qed.

(** X17. When every pending replacement has a valid key that is not
    pending deletion, [keys()] and [items()] agree on a stored parent:
    the keys that [items()] yields are, in order, the frame numbers that
    [keys()] emits. *)
Theorem keys_items_agree (w : World) (self : Frames) (sid : SampleId) :
  s_id (_sample self) = Some sid →
  _delete_all self = false →
  (∀ d, d ∈ coll w → d_sample d = sid → 1 ≤ d_fn d) →
  replacements_wf w self →
  (∀ n, n ∈ dom (_replacements self) → 1 ≤ n ∧ PInt n ∉ _delete_frames self) →
  ∃ w' self' ys,
    items w self = Some (w', self', ys) ∧
    ys.*1 = (keys w self).2.
Proof.
  intros Hs Hall Hpos Hwf Hrepl.
  destruct (iter_frames_backed w self sid Hs Hall Hpos Hwf)
    as ([[w' self'] frames] & _ & Hres & Hpost).
  destruct Hpost as (_ & Hsorted & Hmem & _). cbn [fst snd] in *.
  pose proof (iter_frames_db_spec w sid) as (_ & Hdocs & _). cbn in Hdocs.
  unfold items. rewrite Hres.
  exists w', self', ((λ l, (frame_number (deref w' l), l)) <$> frames).
  split; [done|].
  rewrite <- list_fmap_compose.
  change (fst ∘ (λ l, (frame_number (deref w' l), l)))
    with (λ l, frame_number (deref w' l)).
  rewrite keys_eq. cbn [snd].
  pose proof (sorted_elements (_get_frame_numbers w self).2) as (Hks & Hkm & _).
  apply sorted_lt_ext; [done|done|].
  intros n. rewrite Hmem, Hkm, get_frame_numbers_elem.
  unfold effective, wanted, stored. rewrite Hs, Hall, elem_of_dom.
  split.
  - intros [Hn [Hr|[(x & Hx & Hfn) Hd]]].
    + split; [by left|]. apply Hrepl. by apply elem_of_dom.
    + split; [|done]. right. exists x. apply Hdocs in Hx as [? ?]. done.
  - intros [[Hr|(x & Hx & Hsx & Hfn)] Hd].
    + split; [by apply Hrepl, elem_of_dom|by left].
    + split; [rewrite <- Hfn; by apply Hpos|]. right. split; [|done].
      exists x. split; [|done]. by apply Hdocs.
Qed.

(** ** [first] *)

Lemma iter_loop_first_spec (max_repl_fn : Z) (fuel : nat) :
  ∀ w self n repl_done db_done d results res,
  iter_loop fuel max_repl_fn w self n repl_done db_done d results = Some res →
  match res.2 with
  | [] => iter_loop_first fuel max_repl_fn w self n repl_done db_done d results
          = Some (res.1.1, res.1.2, None)
  | l :: _ => ∃ w1 self1,
      iter_loop_first fuel max_repl_fn w self n repl_done db_done d results
      = Some (w1, self1, Some l)
  end.
Proof.
  induction fuel as [|fuel IH]; intros w self n repl_done db_done d results res; [done|].
  cbn [iter_loop iter_loop_first].
  destruct (repl_done && db_done); [by intros [= <-]|].
  destruct (iter_yield w self n repl_done db_done d) as [[w1 self1] out].
  destruct (iter_advance db_done d results (n + 1)) as [[d' results'] db_done'].
  destruct (iter_loop fuel max_repl_fn w1 self1 (n + 1) _ db_done' d' results')
    as [[[w2 self2] rest]|] eqn:Hloop; [|done].
  intros [= <-]. cbn [fst snd].
  destruct out as [|l out]; cbn [app].
  - by apply IH in Hloop.
  - by eexists _, _.
Qed.

Lemma advance_sub results : ∀ doc n x,
  x ∈ (advance doc results n).1.1 :: (advance doc results n).1.2 → x ∈ doc :: results.
Proof.
  induction results as [|d' rs IH]; intros doc n x; rewrite advance_eq.
  - by case_bool_decide.
  - case_bool_decide; [|done]. intros Hx. right. by apply (IH d' n).
Qed.

Lemma advance_stop results : ∀ doc n,
  (∀ x, x ∈ doc :: results → d_fn x < n) → (advance doc results n).2 = true.
Proof.
  induction results as [|d' rs IH]; intros doc n Hall; rewrite advance_eq.
  - rewrite bool_decide_eq_true_2; [done|]. apply Hall. by left.
  - rewrite bool_decide_eq_true_2; [|apply Hall; by left].
    apply IH. intros x Hx. apply Hall. by right.
Qed.

(** The [while True] loop of [_iter_frames] ends: once the cursor has
    passed the largest pending key and the largest key of the scan, both
    sources are done. No assumption is made on the keys or on the records
    that are pending. *)
Lemma iter_loop_terminates (max_repl_fn B : Z) (fuel : nat) :
  ∀ w self n repl_done db_done d results,
  max_repl_fn ≤ B →
  (∀ x, x ∈ remaining db_done d results → d_fn x ≤ B) →
  (db_done = false → is_Some d) →
  ((if repl_done && db_done then 1 else Z.to_nat (B - n) + 2) ≤ fuel)%nat →
  is_Some (iter_loop fuel max_repl_fn w self n repl_done db_done d results).
Proof.
  induction fuel as [|fuel IH]; intros w self n repl_done db_done d results HM Hdocs Hd Hfuel.
  { destruct (repl_done && db_done); lia. }
  cbn [iter_loop].
  destruct (repl_done && db_done) eqn:Hdone; [by eexists|].
  destruct (iter_yield w self n repl_done db_done d) as [[w1 self1] out].
  set (repl_done' := if repl_done then true else bool_decide (max_repl_fn < n + 1)).
  assert (∃ d' results' db_done',
    iter_advance db_done d results (n + 1) = (d', results', db_done') ∧
    (∀ x, x ∈ remaining db_done' d' results' → d_fn x ≤ B) ∧
    (db_done' = false → is_Some d') ∧
    (B ≤ n → db_done' = true)) as (d' & results' & db_done' & -> & Hdocs' & Hd' & Hstop).
  { unfold iter_advance. destruct d as [doc|].
    - destruct db_done.
      + eexists _, _, _. split; [done|]. split_and!; [|done|done].
        intros x Hx. by apply elem_of_nil in Hx.
      + pose proof (advance_sub results doc (n + 1)) as Hsub.
        pose proof (advance_stop results doc (n + 1)) as Hst.
        destruct (advance doc results (n + 1)) as [[doc' rs] stop]. cbn [fst snd] in *.
        eexists _, _, _. split; [done|]. split_and!.
        * intros x Hx. destruct stop; [by apply elem_of_nil in Hx|].
          apply Hdocs. cbn. by apply Hsub.
        * intros _. by eexists.
        * intros HB. apply Hst. intros x Hx. specialize (Hdocs x Hx). lia.
    - destruct db_done; [|by destruct (Hd eq_refl)].
      eexists _, _, _. split; [done|]. split_and!; [|done|done].
      intros x Hx. by apply elem_of_nil in Hx. }
  assert (B ≤ n → repl_done' = true) as Hrepl.
  { intros HB. subst repl_done'. destruct repl_done; [done|].
    apply bool_decide_eq_true_2. lia. }
  destruct (IH w1 self1 (n + 1) repl_done' db_done' d' results' HM Hdocs' Hd')
    as [[[w2 self2] rest] ->]; [|by eexists].
  destruct (decide (B ≤ n)) as [HB|HB].
  - rewrite (Hrepl HB), (Hstop HB). cbn. lia.
  - destruct (repl_done' && db_done'); lia.
Qed.

(** [_iter_frames] always runs to its end. *)
Lemma iter_frames_total w self : is_Some (_iter_frames w self).
Proof.
  unfold _iter_frames. destruct (s_id (_sample self)) as [sid|]; [|by eexists].
  destruct (_delete_all self); [by eexists|].
  unfold _iter_frames_db.
  set (docs := merge_sort fn_le (List.filter (of_sample sid) (coll w))).
  set (M := max_key (_replacements self)).
  pose proof (foldr_max_ge (d_fn <$> docs) M) as [HB1 HB2].
  assert (∀ x, x ∈ docs → d_fn x ≤ foldr Z.max M (d_fn <$> docs)) as Hdocs.
  { intros x Hx. apply HB2, list_elem_of_fmap. by exists x. }
  destruct docs as [|d0 rs] eqn:Hdocs'.
  - apply (iter_loop_terminates M (foldr Z.max M (d_fn <$> []))); [done| |done|].
    + intros x Hx. by apply elem_of_nil in Hx.
    + unfold iter_bound. destruct (_ && _); lia.
  - apply (iter_loop_terminates M (foldr Z.max M (d_fn <$> d0 :: rs))); [done|done|by eexists|].
    unfold iter_bound. destruct (_ && _); lia.
Qed.

(** X18. [first()] returns the record that [values()] yields first, and
    raises a [ValueError] that names the sample exactly when [values()]
    yields nothing; in that case world and cache are as [values()] leaves
    them. Both run to their end whatever is pending and whatever is
    stored. *)
Theorem first_is_head_of_values
    (id_str : SampleId → string) (w : World) (self : Frames) :
  ∃ w' self' frames,
    values w self = Some (w', self', frames) ∧
    match frames with
    | [] =>
        first id_str w self
        = Some (w', self',
                Raise (ValueError
                         ("Sample"
                          +:+ match s_id (_sample self) with
                              | Some sid => " '" +:+ id_str sid +:+ "'"
                              | None => EmptyString
                              end
                          +:+ " has no frame labels")))
    | l :: _ => ∃ w1 self1, first id_str w self = Some (w1, self1, Ok l)
    end.
Proof.
  assert (∀ R : gmap Z loc,
    match omap (M:=list) (λ n, R !! n) (merge_sort Z.le (elements (dom R))) with
    | [] => match merge_sort Z.le (elements (dom R)) with
            | n :: _ => R !! n
            | [] => None
            end = None
    | l :: _ => match merge_sort Z.le (elements (dom R)) with
                | n :: _ => R !! n
                | [] => None
                end = Some l
    end) as Hpending.
  { intros R. pose proof (sorted_elements (dom R)) as (_ & Hm & _).
    destruct (merge_sort Z.le (elements (dom R))) as [|n ks]; [done|].
    assert (n ∈ dom R) as [l Hl]%elem_of_dom by (apply Hm; by left).
    cbn. by rewrite Hl. }
  destruct (iter_frames_total w self) as [[[w' self'] frames] Hres].
  exists w', self', frames. split; [exact Hres|].
  revert Hres. unfold first, next_values, _iter_frames.
  destruct (s_id (_sample self)) as [sid|] eqn:Hs.
  - destruct (_delete_all self) eqn:Hall.
    + intros [= <- <- <-].
      specialize (Hpending (_replacements self)).
      destruct (omap _ _) as [|l ls]; rewrite Hpending; [done|by eexists _, _].
    + unfold _iter_frames_db.
      set (docs := merge_sort fn_le (List.filter (of_sample sid) (coll w))).
      intros Heq.
      assert (iter_loop (iter_bound (max_key (_replacements self)) docs)
                (max_key (_replacements self)) (log (aggregate_call sid) w) self 1
                (bool_decide (_replacements self = ∅))
                match docs with _ :: _ => false | [] => true end
                match docs with d :: _ => Some d | [] => None end
                match docs with _ :: rs => rs | [] => [] end
              = Some (w', self', frames)) as Heq'
        by (rewrite <- Heq; by destruct docs).
      apply iter_loop_first_spec in Heq'. cbn [fst snd] in Heq'.
      assert ((let '(d, rs, db_done) :=
                 match docs with
                 | d :: rs => (Some d, rs, false)
                 | [] => (None, [], true)
                 end in
               iter_loop_first (iter_bound (max_key (_replacements self)) docs)
                 (max_key (_replacements self)) (log (aggregate_call sid) w) self 1
                 (bool_decide (_replacements self = ∅)) db_done d rs)
              = iter_loop_first (iter_bound (max_key (_replacements self)) docs)
                  (max_key (_replacements self)) (log (aggregate_call sid) w) self 1
                  (bool_decide (_replacements self = ∅))
                  match docs with _ :: _ => false | [] => true end
                  match docs with d :: _ => Some d | [] => None end
                  match docs with _ :: rs => rs | [] => [] end) as -> by by destruct docs.
      destruct frames as [|l ls].
      * by rewrite Heq'.
      * destruct Heq' as (w1 & self1 & ->). by eexists _, _.
  - intros [= <- <- <-].
    specialize (Hpending (_replacements self)).
    destruct (omap _ _) as [|l ls]; rewrite Hpending; [done|by eexists _, _].
Qed.


(** ** Round trips through the store *)

(** The write phase for a single pending record that has never been
    persisted and is the only live instance of the parent, if any. *)
Lemma save_replacements_one w self sid n l :
  _get_instances w sid = ∅ ∨ _get_instances w sid = {[n := l]} →
  _replacements self = {[n := l]} →
  frame_in_db (deref w l) = false →
  frame_number (deref w l) = n →
  ∃ w2 self2,
    _save_replacements no_faults w self sid true = (w2, self2, None) ∧
    _replacements self2 = ∅ ∧
    _delete_frames self2 = _delete_frames self ∧
    _delete_all self2 = _delete_all self ∧
    _sample self2 = _sample self ∧
    coll w2 = coll w ++ [mkDoc (next_id w) sid n (fields (deref w l))] ∧
    (doc_cls (deref w l) = DatasetDoc →
     instances w2 = instances w ∧
     deref w2 l = mkFrame (is_view (deref w l)) DatasetDoc (Some (next_id w))
                    (f_sample_id (deref w l)) n (fields (deref w l))).
Proof.
  intros Hinst Hrepl Hnew Hnum. unfold _save_replacements. cbn zeta.
  set (aliased := bool_decide (_get_instances w sid = ∅)).
  assert ((if aliased then _replacements self
           else _replacements self ∪ _get_instances w sid) = {[n := l]}) as ->.
  { rewrite Hrepl. destruct aliased; [done|].
    destruct Hinst as [->| ->]; [by rewrite (right_id_L ∅ (∪))|].
    apply (idemp_L (∪)). }
  rewrite bool_decide_eq_false_2 by apply insert_non_empty.
  rewrite map_to_list_singleton. cbn [fmap list_fmap snd List.filter].
  rewrite Hnew. cbn [negb insert_fault no_faults fmap list_fmap assign_ids zip zip_with foldl].
  set (d := doc_of_bag (next_id w) (_make_dict w sid l)).
  set (w1 := log insert_many_call
               (set_next_id (next_id w + length [d])%nat (set_coll (coll w ++ [d]) w))).
  destruct (bind_inserted_spec (λ l, frame_number (deref w l)) w1 l d) as (Hcoll & _ & Hnums);
    [done|done|].
  assert (pop_new (bind_inserted w1 (l, d)) [l] {[n := l]} = ∅) as ->.
  { unfold pop_new. cbn. rewrite (Hnums l), Hnum. apply delete_singleton_eq. }
  rewrite (bool_decide_eq_true_2 (∅ = ∅)) by done.
  eexists _, _. split; [done|]. split_and!; try (by destruct aliased).
  - rewrite Hcoll. by rewrite <- Hnum.
  - intros Hcls. unfold bind_inserted. cbn [fst snd].
    assert (deref w1 l = deref w l) as -> by done.
    rewrite Hcls. split; [done|].
    unfold deref at 1. cbn [heap set_heap]. rewrite lookup_total_insert_eq.
    by rewrite Hnum.
Qed.

Lemma find_one_app_new sid n docs d :
  ¬ (∃ x, x ∈ docs ∧ d_sample x = sid ∧ d_fn x = n) →
  d_sample d = sid → d_fn d = n →
  find_one sid n (docs ++ [d]) = Some d.
Proof.
  intros Hno Hs Hn. unfold find_one. induction docs as [|x docs IH]; cbn.
  - unfold on_key. by rewrite bool_decide_eq_true_2.
  - destruct (on_key sid n x) eqn:Hk.
    + exfalso. apply Hno. exists x. unfold on_key in Hk.
      apply bool_decide_eq_true in Hk as [? ?]. split_and!; [by left|done..].
    + apply IH. intros (y & Hy & ?). apply Hno. exists y. by split; [right|].
Qed.

(** X19. Assign, flush, read back: on a stored parent with nothing
    pending and no other live frame, [frames[n] = r] for a key that is not
    stored, then [save()], appends exactly one document to the collection
    (parent, key [n], the fields of [r]) and leaves nothing pending; a lookup
    of [n] then asks the store and returns a persisted record with key [n]
    and the fields of [r]. *)
Theorem set_save_get_round_trip
    (w : World) (self : Frames) (sid : SampleId) (n : Z) (r : loc) :
  s_id (_sample self) = Some sid →
  1 ≤ n →
  _replacements self = ∅ →
  _delete_frames self = ∅ →
  _delete_all self = false →
  _get_instances w sid = ∅ →
  ¬ stored w sid n →
  ∃ w1 self1 w2 self2 w3 self3 frame,
    __setitem__ w self (PInt n) r = Ok (w1, self1) ∧
    save no_faults w1 self1 = (w2, self2, None) ∧
    coll w2 = coll w ++ [mkDoc (next_id w) sid n (fields (deref w r))] ∧
    _replacements self2 = ∅ ∧ _delete_frames self2 = ∅ ∧ _delete_all self2 = false ∧
    __getitem__ w2 self2 (PInt n) = Ok (w3, self3, frame) ∧
    frame_number (deref w3 frame) = n ∧
    fields (deref w3 frame) = fields (deref w r) ∧
    frame_in_db (deref w3 frame) = true.
Proof.
  intros Hs Hn HR HD HA Hinst Hnst.
  destruct (add_frame_backed w self sid n r Hs Hn)
    as (w1 & frame & Hadd & Hfr & Hh1 & Hc1 & _ & Hn1 & Hi1).
  set (self1 := set_replacements (<[n:=frame]> (_replacements self)) self) in *.
  set (view := if frame_in_db (deref w r) then false else is_view (deref w r)) in *.
  assert (deref w1 frame = mkFrame view DatasetDoc None (Some sid) n (fields (deref w r)))
    as Hd1.
  { unfold deref. rewrite Hh1. by rewrite lookup_total_insert_eq. }
  assert (_save_deletions no_faults w1 self1 sid = (w1, self1, None)) as Hsd.
  { unfold _save_deletions. change (_delete_all self1) with (_delete_all self).
    rewrite HA. change (_delete_frames self1) with (_delete_frames self).
    rewrite HD. by rewrite bool_decide_eq_true_2. }
  destruct (save_replacements_one w1 self1 sid n frame)
    as (w2 & self2 & Hsr & HR2 & HD2 & HA2 & HS2 & Hc2 & Hlive).
  { unfold _get_instances. rewrite Hi1. destruct view.
    - left. exact Hinst.
    - right. rewrite lookup_insert_eq. cbn. by rewrite Hinst. }
  { subst self1. cbn. by rewrite HR. }
  { by rewrite Hd1. }
  { by rewrite Hd1. }
  set (d := mkDoc (next_id w) sid n (fields (deref w r))).
  assert (coll w2 = coll w ++ [d]) as Hc2'.
  { rewrite Hc2, Hc1, Hn1, Hd1. done. }
  assert (_replacements self2 !! n = None) as Hmiss by (by rewrite HR2).
  destruct Hlive as [Hi2 Hd2]; [by rewrite Hd1|]. rewrite Hd1 in Hd2. cbn in Hd2.
  destruct (getitem_miss w2 self2 n Hn Hmiss) as (w3 & frame3 & Hget & Hfn3 & _ & _ & Hcase).
  rewrite HS2 in Hcase. change (_sample self1) with (_sample self) in Hcase.
  rewrite Hs, HA2, HD2 in Hcase. change (_delete_all self1) with (_delete_all self) in Hcase.
  change (_delete_frames self1) with (_delete_frames self) in Hcase.
  rewrite HA, HD in Hcase.
  rewrite bool_decide_eq_false_2 in Hcase by apply not_elem_of_empty.
  cbn [orb] in Hcase. destruct Hcase as [_ Hd3].
  rewrite Hc2', (find_one_app_new sid n (coll w) d) in Hd3 by done.
  assert (fields (deref w3 frame3) = fields (deref w r) ∧
          frame_in_db (deref w3 frame3) = true) as [Hf3 Hdb3].
  { destruct Hd3 as [[[Hreg _] ->] | (_ & _ & ->)]; [|done].
    assert (frame3 = frame) as ->.
    { unfold _get_instances in Hreg. rewrite Hi2, Hi1 in Hreg. destruct view.
      - fold (_get_instances w sid) in Hreg. rewrite Hinst in Hreg.
        by rewrite lookup_empty in Hreg.
      - rewrite lookup_insert_eq in Hreg. cbn in Hreg.
        rewrite lookup_insert_eq in Hreg. by injection Hreg as <-. }
    assert (deref (log (find_one_call sid n) w2) frame = deref w2 frame) as -> by done.
    by rewrite Hd2. }
  eexists w1, self1, w2, self2, w3, _, frame3.
  split; [exact Hadd|]. split.
  { unfold save. change (_sample self1) with (_sample self). rewrite Hs, Hsd. exact Hsr. }
  split; [exact Hc2'|].
  split; [exact HR2|].
  split; [by rewrite HD2|].
  split; [by rewrite HA2|].
  split; [exact Hget|]. by split_and!.
Qed.

Lemma delete_one_key sid n docs :
  (length (List.filter (on_key sid n) docs) ≤ 1)%nat →
  List.filter (on_key sid n) (delete_one (on_pykey sid (PInt n)) docs) = [] ∧
  ∀ q : Doc → bool, (∀ d, on_key sid n d = true → q d = false) →
    List.filter q (delete_one (on_pykey sid (PInt n)) docs) = List.filter q docs.
Proof.
  assert (∀ d, on_pykey sid (PInt n) d = on_key sid n d) as Hpk.
  { intros d. unfold on_pykey, on_key. apply bool_decide_ext.
    split; intros [? ?]; split; congruence. }
  induction docs as [|d docs IH]; [done|]. cbn [delete_one List.filter].
  rewrite Hpk. destruct (on_key sid n d) eqn:Hk.
  - cbn [length]. intros Hlen. split.
    + destruct (List.filter (on_key sid n) docs); [done|]. cbn in Hlen. lia.
    + intros q Hq. by rewrite (Hq d Hk).
  - intros Hlen. destruct (IH Hlen) as [IH1 IH2]. split.
    + cbn. by rewrite Hk.
    + intros q Hq. cbn. by rewrite (IH2 q Hq).
Qed.

Lemma stored_filter w sid n :
  stored w sid n ↔ List.filter (on_key sid n) (coll w) ≠ [].
Proof.
  unfold stored. split.
  - intros (d & Hd & Hs & Hn) Hnil.
    assert (In d (List.filter (on_key sid n) (coll w))) as Hin.
    { apply filter_In. split; [by apply list_elem_of_In|].
      unfold on_key. by apply bool_decide_eq_true. }
    by rewrite Hnil in Hin.
  - destruct (List.filter (on_key sid n) (coll w)) as [|d ds] eqn:Hf; [done|].
    intros _. assert (In d (List.filter (on_key sid n) (coll w))) as Hin
      by (rewrite Hf; by left).
    apply filter_In in Hin as [Hin Hk]. unfold on_key in Hk.
    apply bool_decide_eq_true in Hk as [? ?]. exists d. by rewrite list_elem_of_In.
Qed.

(** X20. Delete and flush: on a stored parent with nothing pending and
    no live frame, when the collection holds at most one document per
    parent and key, [del frames[n]] then [save()] issues one batch of
    deletes that removes the document of [n], if there is one: afterwards
    [n] is not stored, every other document is where it was, and nothing
    is pending. *)
Theorem del_save_removes_frame (w : World) (self : Frames) (sid : SampleId) (n : Z) :
  s_id (_sample self) = Some sid →
  _replacements self = ∅ →
  _delete_frames self = ∅ →
  _delete_all self = false →
  _get_instances w sid = ∅ →
  (length (List.filter (on_key sid n) (coll w)) ≤ 1)%nat →
  ∃ w2 self2,
    save no_faults w (__delitem__ self (PInt n)) = (w2, self2, None) ∧
    trace w2 = trace w ++ [bulk_write_call] ∧
    ¬ stored w2 sid n ∧
    (∀ q : Doc → bool, (∀ d, on_key sid n d = true → q d = false) →
       List.filter q (coll w2) = List.filter q (coll w)) ∧
    _replacements self2 = ∅ ∧ _delete_frames self2 = ∅ ∧ _delete_all self2 = false.
Proof.
  intros Hs HR HD HA Hinst Hlen.
  assert (__delitem__ self (PInt n) = mkFrames (_sample self) ∅ {[PInt n]} false) as ->.
  { unfold __delitem__. rewrite Hs, HR, HD, HA.
    by rewrite delete_empty, (right_id_L ∅ (∪)). }
  unfold save. cbn [_sample]. rewrite Hs.
  unfold _save_deletions. cbn [_delete_all _delete_frames _replacements _sample].
  rewrite bool_decide_eq_false_2 by (apply non_empty_singleton_L).
  cbn [delete_fault no_faults]. rewrite elements_singleton. cbn [foldr].
  set (docs := delete_one (on_pykey sid (PInt n)) (coll w)).
  set (w1 := _reset_docs_for_sample (log bulk_write_call (set_coll docs w)) sid {[PInt n]}).
  assert (coll w1 = docs) as Hc1.
  { subst w1.
    by destruct (reset_docs_for_sample_spec (log bulk_write_call (set_coll docs w)) sid
                   {[PInt n]}) as (-> & _). }
  assert (trace w1 = trace w ++ [bulk_write_call]) as Ht1 by done.
  assert (_get_instances w1 sid = ∅) as Hi1.
  { subst w1. unfold _reset_docs_for_sample, _get_instances. cbn.
    rewrite lookup_insert_eq. cbn. fold (_get_instances w sid). rewrite Hinst.
    apply map_filter_empty. }
  unfold _save_replacements. cbn zeta. rewrite Hi1. cbn [_replacements].
  rewrite !(bool_decide_eq_true_2 (∅ = ∅)) by done.
  destruct (delete_one_key sid n (coll w) Hlen) as [Hgone Hkeep].
  fold docs in Hgone, Hkeep.
  exists w1, (mkFrames (_sample self) ∅ ∅ false). split_and!; try done.
  rewrite stored_filter, Hc1. by intros [].
Qed.


(** X21. With a delete-all pending and no replacement staged (the state
    after [clear()], and after any [del] that follows it), [save()] makes
    exactly one store call, the [delete_many] of the parent: the per-key
    deletes recorded since are dropped without a write, so that no fault
    of a bulk write can make this flush fail. Afterwards no frame of the
    parent is stored. *)
Theorem save_delete_all_single_call (flt : Faults) (w : World) (self : Frames) (sid : SampleId) :
  s_id (_sample self) = Some sid →
  _delete_all self = true →
  _replacements self = ∅ →
  ∃ w',
    save flt w self = (w', mkFrames (_sample self) ∅ ∅ false, None) ∧
    trace w' = trace w ++ [delete_many_call sid] ∧
    coll w' = delete_many sid (coll w) ∧
    ∀ n, ¬ stored w' sid n.
Proof.
  intros Hs Ha HR. unfold save. rewrite Hs. unfold _save_deletions. rewrite Ha.
  cbn [_delete_frames]. rewrite (bool_decide_eq_true_2 (∅ = ∅)) by done.
  set (w0 := log (delete_many_call sid) (set_coll (delete_many sid (coll w)) w)).
  destruct (reset_docs_spec w0 sid) as (Hi & Hc & _).
  unfold _save_replacements. cbn zeta. rewrite Hi. cbn [_replacements]. rewrite HR.
  rewrite !(bool_decide_eq_true_2 (∅ = ∅)) by done.
  exists (_reset_docs w0 sid). split_and!; [done|done|by rewrite Hc|].
  intros n (d & Hd & Hsd & _). rewrite Hc in Hd. cbn in Hd.
  apply list_elem_of_In in Hd. unfold delete_many in Hd.
  apply filter_In in Hd as [_ Hd]. unfold of_sample in Hd.
  by rewrite bool_decide_eq_true_2 in Hd.
Qed.

(** *** The flush writes pending keys only *)

Lemma delete_one_filter (p q : Doc → bool) docs :
  (∀ d, p d = true → q d = false) →
  List.filter q (delete_one p docs) = List.filter q docs.
Proof.
  intros Hpq. induction docs as [|d docs IH]; [done|]. cbn [delete_one].
  destruct (p d) eqn:Hp.
  - cbn [List.filter]. by rewrite (Hpq d Hp).
  - cbn [List.filter]. by rewrite IH.
Qed.

Lemma replace_one_filter sid k m b docs ds :
  k ≠ m → b_fn b ≠ m →
  replace_one (on_key sid k) b docs = Some ds →
  List.filter (on_key sid m) ds = List.filter (on_key sid m) docs.
Proof.
  intros Hk Hb. revert ds. induction docs as [|d docs IH]; intros ds; [done|].
  cbn [replace_one]. destruct (on_key sid k d) eqn:Hd.
  - intros [= <-]. unfold on_key in Hd. apply bool_decide_eq_true in Hd as [_ Hd].
    assert (on_key sid m (doc_of_bag (d_id d) b) = false) as H1
      by (apply bool_decide_eq_false; intros [_ ?]; done).
    assert (on_key sid m d = false) as H2
      by (apply bool_decide_eq_false; intros [_ ?]; congruence).
    cbn [List.filter]. by rewrite H1, H2.
  - destruct (replace_one (on_key sid k) b docs) as [ds'|]; [|done].
    intros [= <-]. cbn [List.filter]. by rewrite (IH ds').
Qed.

Lemma upsert_one_filter sid k m b st :
  k ≠ m → b_fn b ≠ m →
  List.filter (on_key sid m) (upsert_one sid k b st).1 = List.filter (on_key sid m) st.1.
Proof.
  intros Hk Hb. unfold upsert_one.
  destruct (replace_one (on_key sid k) b st.1) as [ds|] eqn:Hr; cbn [fst].
  - by apply (replace_one_filter sid k m b).
  - assert (on_key sid m (doc_of_bag st.2 b) = false) as H1
      by (apply bool_decide_eq_false; intros [_ ?]; done).
    rewrite List.filter_app. cbn [List.filter]. by rewrite H1, app_nil_r.
Qed.

Lemma upsert_fold_filter sid m (ops : list (Z * Bag)) : ∀ st,
  Forall (λ op, op.1 ≠ m ∧ b_fn op.2 ≠ m) ops →
  List.filter (on_key sid m) (foldl (λ st op, upsert_one sid op.1 op.2 st) st ops).1
  = List.filter (on_key sid m) st.1.
Proof.
  induction ops as [|op ops IH]; intros st Hops; [done|]. cbn.
  apply Forall_cons in Hops as [[Hop1 Hop2] Hops].
  by rewrite IH, upsert_one_filter.
Qed.

Lemma assign_ids_filter sid m (bs : list Bag) : ∀ i,
  Forall (λ b, b_fn b ≠ m) bs →
  List.filter (on_key sid m) (assign_ids i bs) = [].
Proof.
  induction bs as [|b bs IH]; intros i Hbs; [done|]. cbn.
  apply Forall_cons in Hbs as [Hb Hbs].
  assert (on_key sid m (doc_of_bag i b) = false) as H1
    by (apply bool_decide_eq_false; intros [_ ?]; done).
  cbn [List.filter]. rewrite H1. by apply IH.
Qed.

Lemma delete_fold_filter sid m (ks : list pyval) docs :
  Forall (λ k, k ≠ PInt m) ks →
  List.filter (on_key sid m) (foldr (λ k ds, delete_one (on_pykey sid k) ds) docs ks)
  = List.filter (on_key sid m) docs.
Proof.
  induction 1 as [|k ks Hk _ IH]; [done|]. cbn [foldr].
  rewrite delete_one_filter; [done|].
  intros d Hd. unfold on_pykey in Hd. apply bool_decide_eq_true in Hd as [_ Hd].
  unfold on_key. apply bool_decide_eq_false. intros [_ ?]. congruence.
Qed.

Lemma save_deletions_filter flt w self sid m :
  _delete_all self = false →
  PInt m ∉ _delete_frames self →
  _get_instances w sid = ∅ →
  let r := _save_deletions flt w self sid in
  List.filter (on_key sid m) (coll r.1.1) = List.filter (on_key sid m) (coll w) ∧
  heap r.1.1 = heap w ∧
  _get_instances r.1.1 sid = ∅ ∧
  (r.2 = None → _replacements r.1.2 = _replacements self).
Proof.
  intros Ha Hm Hinst. unfold _save_deletions. rewrite Ha.
  destruct (bool_decide (_delete_frames self = ∅)); [done|].
  destruct (delete_fault flt); [done|]. cbn zeta.
  set (docs := foldr (λ k ds, delete_one (on_pykey sid k) ds) (coll w)
                 (elements (_delete_frames self))).
  set (w2 := log bulk_write_call (set_coll docs w)).
  assert (_get_instances w2 sid = ∅) as Hinst2 by done.
  cbn [fst snd].
  destruct (reset_docs_for_sample_spec w2 sid (_delete_frames self)) as (-> & _).
  split_and!; [| | |done].
  - change (coll w2) with docs. subst docs. apply delete_fold_filter.
    apply Forall_forall. intros k Hk%elem_of_elements ->. done.
  - unfold _reset_docs_for_sample. rewrite Hinst2. cbn zeta.
    by rewrite !map_filter_empty, map_to_list_empty.
  - unfold _reset_docs_for_sample. rewrite Hinst2. cbn zeta.
    unfold _get_instances at 1. cbn [instances set_instances set_heap].
    rewrite lookup_insert_eq. cbn. apply map_filter_empty.
Qed.

Lemma save_replacements_filter flt w self sid m :
  _get_instances w sid = ∅ →
  replacements_wf w self →
  m ∉ dom (_replacements self) →
  List.filter (on_key sid m) (coll (_save_replacements flt w self sid true).1.1)
  = List.filter (on_key sid m) (coll w).
Proof.
  intros Hinst Hwf Hm. unfold _save_replacements. cbn zeta. rewrite Hinst.
  rewrite (bool_decide_eq_true_2 (∅ = ∅)) by done.
  set (R := _replacements self) in *.
  destruct (bool_decide (R = ∅)); [done|].
  set (nf := List.filter (λ l, negb (frame_in_db (deref w l))) (map_to_list R).*2).
  assert (∀ k l, R !! k = Some l → frame_number (deref w l) = k ∧ k ≠ m) as Hkeys.
  { intros k l Hl. split; [by apply (replacements_wf_deref w self)|].
    intros ->. apply Hm, elem_of_dom. by exists l. }
  assert (∀ w2 R',
    (∀ l, frame_number (deref w2 l) = frame_number (deref w l)) →
    (∀ k l, R' !! k = Some l → R !! k = Some l) →
    List.filter (on_key sid m) (coll
      (if bool_decide (R' = ∅) then (w2, set_replacements ∅ (set_replacements R' self), None)
       else
         match replace_fault flt with
         | Some errs => (log bulk_write_call w2, set_replacements R' self,
                         Some (BulkWriteError errs))
         | None =>
             let st := foldl (λ st op, upsert_one sid op.1 op.2 st) (coll w2, next_id w2)
                         ((λ kl, (kl.1, _make_dict w2 sid kl.2)) <$> map_to_list R') in
             (log bulk_write_call (set_next_id st.2 (set_coll st.1 w2)),
              set_replacements ∅ (set_replacements R' self), None)
         end).1.1) = List.filter (on_key sid m) (coll w2)) as Hreplace.
  { intros w2 R' Hnum Hsub.
    destruct (bool_decide (R' = ∅)); [done|].
    destruct (replace_fault flt); [done|]. cbn.
    rewrite upsert_fold_filter; [done|].
    apply Forall_fmap, Forall_forall. intros [k l] Hkl%elem_of_map_to_list. cbn.
    apply Hsub in Hkl. destruct (Hkeys k l Hkl) as [Hfn Hne].
    split; [done|]. by rewrite Hnum, Hfn. }
  destruct nf as [|a nf'] eqn:Hnf.
  - by apply Hreplace.
  - destruct (insert_fault flt); [done|].
    set (docs := assign_ids (next_id w) (_make_dict w sid <$> a :: nf')).
    set (w1 := log insert_many_call
                 (set_next_id (next_id w + length docs)%nat (set_coll (coll w ++ docs) w))).
    destruct (bind_inserted_fold (λ l, frame_number (deref w l)) (zip (a :: nf') docs) w1)
      as (Hc & _ & Hnum);
      [done|subst docs; by apply (zip_assign_ids (λ l, frame_number (deref w l)))|].
    rewrite Hreplace; [|done|intros k l; apply pop_new_lookup_Some].
    rewrite Hc. cbn [coll w1 log set_next_id set_coll].
    rewrite List.filter_app. subst docs. rewrite assign_ids_filter; [by rewrite app_nil_r|].
    apply Forall_fmap, Forall_forall. intros l Hl. cbn.
    rewrite <- Hnf in Hl. subst nf.
    apply list_elem_of_In, filter_In in Hl as [Hl _]. apply list_elem_of_In in Hl.
    apply list_elem_of_fmap in Hl as ([k l'] & -> & Hkl%elem_of_map_to_list). cbn.
    destruct (Hkeys k l' Hkl) as [-> ?]. done.
Qed.

(** X22. [save()] writes pending keys only: on a stored parent without
    a pending delete-all and without live frames in the registry, the
    documents of a key that is neither staged as a replacement nor pending
    deletion are in the collection afterwards exactly as before, whether or
    not a write fails. *)
Theorem save_keeps_unrelated_frames
    (flt : Faults) (w : World) (self : Frames) (sid : SampleId) (m : Z) :
  s_id (_sample self) = Some sid →
  _delete_all self = false →
  _get_instances w sid = ∅ →
  replacements_wf w self →
  m ∉ dom (_replacements self) →
  PInt m ∉ _delete_frames self →
  List.filter (on_key sid m) (coll (save flt w self).1.1)
  = List.filter (on_key sid m) (coll w).
Proof.
  intros Hs Ha Hinst Hwf Hm Hd. unfold save. rewrite Hs.
  pose proof (save_deletions_filter flt w self sid m Ha Hd Hinst) as (Hc & Hh & Hi & Hr).
  destruct (_save_deletions flt w self sid) as [[w1 self1] [e|]]; [done|].
  cbn [fst snd] in *. rewrite save_replacements_filter; [done|done| |].
  - intros k l Hl. rewrite Hh. apply Hwf. by rewrite <- Hr.
  - by rewrite Hr.
Qed.


(** ** The name of the sample collection *)

Lemma split_dot_cons s : ∃ h t, split_dot s = h :: t.
Proof.
  induction s as [|c s (h & t & IH)]; cbn; [by eexists _, _|].
  destruct (Ascii.eqb c "."); [by eexists _, _|]. rewrite IH. by eexists _, _.
Qed.

Lemma concat_split_dot s : String.concat "." (split_dot s) = s.
Proof.
  induction s as [|c s IH]; [done|]. cbn [split_dot].
  destruct (Ascii.eqb c ".") eqn:Hc.
  - apply Ascii.eqb_eq in Hc as ->.
    destruct (split_dot_cons s) as (h & t & Hs). rewrite Hs in IH |- *.
    cbn [String.concat]. cbn [String.concat] in IH. by rewrite IH.
  - destruct (split_dot_cons s) as (h & t & Hs). rewrite Hs in IH |- *.
    cbn [String.concat] in IH |- *. destruct t; cbn; by rewrite <- IH.
Qed.

Lemma split_dot_prefix a rest :
  has_dot a = false → split_dot (a +:+ String "." rest) = a :: split_dot rest.
Proof.
  induction a as [|c a IH]; intros Ha.
  - change (EmptyString +:+ String "." rest) with (String "." rest). done.
  - change (String c a +:+ String "." rest) with (String c (a +:+ String "." rest)).
    cbn [split_dot]. cbn [has_dot] in Ha.
    destruct (Ascii.eqb c "."); [done|]. cbn [orb] in Ha. by rewrite (IH Ha).
Qed.

(** X23. The name of the sample collection is the class name without
    its first dotted component: whatever follows the first dot is kept
    as it is, further dots included, and a name without a dot gives the
    empty string. *)
Theorem sample_collection_name_drops_prefix (a rest : string) :
  has_dot a = false →
  _sample_collection_name (a +:+ "." +:+ rest) = rest ∧
  _sample_collection_name a = EmptyString.
Proof.
  intros Ha. unfold _sample_collection_name. split.
  - change ("." +:+ rest) with (String "." rest).
    rewrite split_dot_prefix by done. cbn [tail]. apply concat_split_dot.
  - assert (split_dot a = [a]) as ->; [|done].
    clear rest. induction a as [|c a IH]; [done|]. cbn in Ha |- *.
    destruct (Ascii.eqb c "."); [done|]. by rewrite (IH Ha).
Qed.


(** ** The further properties at concrete inputs *)

Lemma ex_frames_cleared_wf : replacements_wf ex_world ex_frames_cleared.
Proof.
  intros n l Hl. unfold ex_frames_cleared in Hl. cbn [_replacements] in Hl.
  apply lookup_singleton_Some in Hl as [<- <-]. exists ex_R2. split; [|done].
  vm_compute. reflexivity.
Qed.

Lemma ex_frames_pending n :
  n ∈ dom (_replacements ex_frames) → 1 ≤ n ∧ PInt n ∉ _delete_frames ex_frames.
Proof.
  unfold ex_frames. cbn [_replacements _delete_frames].
  rewrite dom_singleton_L. intros ->%elem_of_singleton.
  split; [lia|]. intros H%elem_of_singleton. discriminate H.
Qed.

Lemma ex_not_stored_4 : ¬ stored ex_world_input 7%nat 4.
Proof.
  intros (d & Hd & _ & Hn). unfold ex_world_input, ex_docs in Hd. cbn [coll] in Hd.
  repeat (apply elem_of_cons in Hd as [-> | Hd]); [done..|].
  by apply elem_of_nil in Hd.
Qed.

(** A delete-all pending with [R2] staged: [items()] yields [R2] only. *)
Lemma items_pending_only_witness :
  _delete_all ex_frames_cleared = true ∧
  ∃ ys, items ex_world ex_frames_cleared = Some (ex_world, ex_frames_cleared, ys) ∧
        ys.*1 = (keys ex_world ex_frames_cleared).2 ∧
        (keys ex_world ex_frames_cleared).1 = ex_world ∧
        ∀ n l, (n, l) ∈ ys ↔ _replacements ex_frames_cleared !! n = Some l.
Proof.
  split; [reflexivity|].
  apply (items_pending_only ex_world ex_frames_cleared);
    [right; reflexivity|apply ex_frames_cleared_wf].
Defined.

(** Frame 1 of sample 7 is stored and nothing is pending for it: with no
    live instance the lookup materializes the stored document; with the
    live instance that was edited in memory the lookup returns it, edit
    included. *)
Lemma getitem_reads_store_once_witness :
  (s_id (_sample ex_frames) = Some 7%nat ∧
   _replacements ex_frames !! 1 = None ∧
   _delete_all ex_frames = false ∧
   (∀ L, ¬ live ex_world 7%nat 1 L) ∧
   stored ex_world 7%nat 1 ∧
   ∃ w1 self1 frame,
     __getitem__ ex_world ex_frames (PInt 1) = Ok (w1, self1, frame) ∧
     _replacements self1 = <[1 := frame]> (_replacements ex_frames) ∧
     trace w1 = trace ex_world ++ [find_one_call 7%nat 1] ∧
     coll w1 = coll ex_world ∧
     heap ex_world !! frame = None ∧
     ∃ d, d ∈ coll ex_world ∧ d_sample d = 7%nat ∧ d_fn d = 1 ∧
          deref w1 frame = frame_of_doc d) ∧
  (live ex_world_edited 7%nat 1 0%nat ∧
   ∃ w1 self1,
     __getitem__ ex_world_edited ex_backed (PInt 1) = Ok (w1, self1, 0%nat) ∧
     trace w1 = trace ex_world_edited ++ [find_one_call 7%nat 1] ∧
     fields (deref w1 0%nat) = {["label" := PStr "edited"]}).
Proof.
  assert (∀ L, ¬ live ex_world 7%nat 1 L) as Hnone.
  { intros L [HL _]. vm_compute in HL. discriminate HL. }
  assert (stored ex_world 7%nat 1) as Hst.
  { exists (mkDoc 10 7 1 {["label" := PStr "one"]}). split; [by left|done]. }
  assert (live ex_world_edited 7%nat 1 0%nat) as Hlive
    by (split; vm_compute; reflexivity).
  split.
  - split; [reflexivity|]. split; [reflexivity|]. split; [reflexivity|].
    split; [exact Hnone|]. split; [exact Hst|].
    destruct (getitem_reads_store_once ex_world ex_frames 7%nat 1)
      as (w1 & self1 & frame & Hget & Hr & Ht & Hc & _ & Hnew);
      [reflexivity|lia|reflexivity|reflexivity| |].
    { unfold ex_frames. cbn [_delete_frames]. intros H%elem_of_singleton. discriminate H. }
    destruct (Hnew Hnone) as (Hf & Hstored & _).
    exists w1, self1, frame. split; [exact Hget|]. split; [exact Hr|].
    split; [exact Ht|]. split; [exact Hc|]. split; [exact Hf|]. exact (Hstored Hst).
  - split; [exact Hlive|].
    destruct (getitem_reads_store_once ex_world_edited ex_backed 7%nat 1)
      as (w1 & self1 & frame & Hget & _ & Ht & _ & Hsame & _);
      [reflexivity|lia|reflexivity|reflexivity| |].
    { vm_compute. intros H. discriminate H. }
    destruct (Hsame 0%nat Hlive) as (Hfr & _ & Hd). subst frame.
    exists w1, self1. split; [exact Hget|]. split; [exact Ht|].
    rewrite Hd. vm_compute. reflexivity.
Defined.

(** Reading frame 4, which is neither stored nor pending. *)
Lemma getitem_adds_key_witness :
  1 ≤ 4 ∧
  ∃ w1 self1 frame,
    __getitem__ ex_world ex_frames (PInt 4) = Ok (w1, self1, frame) ∧
    (∀ m, m ≠ 4 → (effective w1 self1 m ↔ effective ex_world ex_frames m)) ∧
    (effective w1 self1 4 ↔
       ¬ (is_Some (s_id (_sample ex_frames)) ∧ _delete_all ex_frames = false ∧
          PInt 4 ∈ _delete_frames ex_frames)).
Proof.
  split; [lia|]. apply (getitem_adds_key ex_world ex_frames 4). lia.
Defined.


Lemma ex_effective_2 : effective ex_world_two ex_frames 2.
Proof.
  unfold effective, ex_frames. cbn [_sample s_id _delete_all _replacements _delete_frames].
  rewrite dom_singleton_L. split; [left; by apply elem_of_singleton|].
  intros H%elem_of_singleton. discriminate H.
Qed.

(** An update without overwrite that brings the caller's frame for the
    frames 2 and 4, while [R2] is staged for frame 2: [R2] stays staged
    and is not touched. *)
Lemma update_no_overwrite_keeps_frames_witness :
  effective ex_world_two ex_frames 2 ∧
  _replacements ex_frames !! 2 = Some 0%nat ∧
  _replacements (update ex_world_two ex_frames [(PInt 2, 1%nat); (PInt 4, 1%nat)] false true).1.2
    !! 2 = _replacements ex_frames !! 2 ∧
  effective (update ex_world_two ex_frames [(PInt 2, 1%nat); (PInt 4, 1%nat)] false true).1.1
            (update ex_world_two ex_frames [(PInt 2, 1%nat); (PInt 4, 1%nat)] false true).1.2 2 ∧
  heap (update ex_world_two ex_frames [(PInt 2, 1%nat); (PInt 4, 1%nat)] false true).1.1 !! 0%nat
  = heap ex_world_two !! 0%nat.
Proof.
  split; [apply ex_effective_2|]. split; [reflexivity|].
  destruct (update_no_overwrite_keeps_frames ex_world_two ex_frames
              [(PInt 2, 1%nat); (PInt 4, 1%nat)] true 2 ex_effective_2)
    as (Hr & He & Hh).
  split; [exact Hr|]. split; [exact He|].
  apply Hh; [reflexivity|vm_compute; eauto|].
  cbn. intros Hin. repeat (apply elem_of_cons in Hin as [Hin | Hin]; [discriminate Hin|]).
  by apply elem_of_nil in Hin.
Defined.

(** The cache of a sample that is in no dataset. *)
Lemma transient_parent_never_calls_store_witness :
  s_id (_sample ex_transient) = None ∧
  (∀ k w1 self1 frame,
     __getitem__ ex_world_input ex_transient k = Ok (w1, self1, frame) →
     trace w1 = trace ex_world_input ∧ coll w1 = coll ex_world_input) ∧
  (∀ k frame es w1 self1,
     add_frame ex_world_input ex_transient k frame es = Ok (w1, self1) →
     trace w1 = trace ex_world_input ∧ coll w1 = coll ex_world_input) ∧
  (∀ k, _delete_frames (__delitem__ ex_transient k) = _delete_frames ex_transient) ∧
  (keys ex_world_input ex_transient).1 = ex_world_input ∧
  (∃ ys, items ex_world_input ex_transient = Some (ex_world_input, ex_transient, ys)) ∧
  save no_faults ex_world_input ex_transient = (ex_world_input, ex_transient, None).
Proof.
  split; [reflexivity|].
  apply (transient_parent_never_calls_store no_faults ex_world_input ex_transient).
  reflexivity.
Defined.

(** A flush of the iteration scenario: [R2] staged, frame 3 pending
    deletion. *)
Lemma save_leaves_nothing_pending_witness :
  s_id (_sample ex_frames) = Some 7%nat ∧
  (∀ w' self', save no_faults ex_world ex_frames = (w', self', None) →
     _replacements self' = ∅ ∧ _delete_frames self' = ∅ ∧ _delete_all self' = false ∧
     _sample self' = _sample ex_frames) ∧
  (save no_faults ex_world ex_frames).2 = None.
Proof.
  split; [reflexivity|].
  apply (save_leaves_nothing_pending no_faults ex_world ex_frames 7%nat). reflexivity.
Defined.

(** The same flush leaves the frame of sample 8 alone. *)
Lemma save_keeps_other_parents_witness :
  s_id (_sample ex_frames) = Some 7%nat ∧
  others 7%nat (coll (save no_faults ex_world ex_frames).1.1) = others 7%nat (coll ex_world) ∧
  others 7%nat (coll ex_world) = [mkDoc 13 8 2 {["label" := PStr "other"]}].
Proof.
  split; [reflexivity|]. split.
  - apply (save_keeps_other_parents no_faults ex_world ex_frames 7%nat). reflexivity.
  - reflexivity.
Defined.

(** Reload of the cache in which the edited frame is pending. *)
Lemma reload_shows_stored_frames_witness :
  s_id (_sample ex_frames_edited) = Some 7%nat ∧
  _replacements (reload ex_world_edited ex_frames_edited).1.2 = ∅ ∧
  _delete_frames (reload ex_world_edited ex_frames_edited).1.2 = ∅ ∧
  _delete_all (reload ex_world_edited ex_frames_edited).1.2 = false ∧
  ∀ n, n ∈ (keys (reload ex_world_edited ex_frames_edited).1.1
                 (reload ex_world_edited ex_frames_edited).1.2).2
       ↔ stored ex_world_edited 7%nat n.
Proof.
  split; [reflexivity|].
  destruct (reload_shows_stored_frames ex_world_edited ex_frames_edited 7%nat)
    as (HR & HD & HA & _ & Hkeys); [reflexivity|].
  split; [exact HR|]. split; [exact HD|]. split; [exact HA|].
  intros n. apply Hkeys. vm_compute. reflexivity.
Defined.

(** Ordered iteration of the scenario with store keys {1, 3, 5}, [R2]
    staged and frame 3 pending deletion. *)
Lemma items_stages_what_it_yields_witness :
  s_id (_sample ex_frames) = Some 7%nat ∧
  _delete_all ex_frames = false ∧
  ∃ w' self' ys,
    items ex_world ex_frames = Some (w', self', ys) ∧
    coll w' = coll ex_world ∧
    trace w' = trace ex_world ++ [aggregate_call 7%nat] ∧
    _delete_frames self' = _delete_frames ex_frames ∧
    _delete_all self' = false ∧
    (∀ k l, _replacements ex_frames !! k = Some l → 1 ≤ k →
            _replacements self' !! k = Some l) ∧
    (∀ n l, (n, l) ∈ ys →
       _replacements self' !! n = Some l ∧
       __getitem__ w' self' (PInt n) = Ok (w', self', l)).
Proof.
  split; [reflexivity|]. split; [reflexivity|].
  apply (items_stages_what_it_yields ex_world ex_frames 7%nat);
    [reflexivity|reflexivity|apply ex_docs_positive|apply ex_frames_wf].
Defined.

(** In the same scenario the staged key 2 is not pending deletion. *)
Lemma keys_items_agree_witness :
  s_id (_sample ex_frames) = Some 7%nat ∧
  _delete_all ex_frames = false ∧
  ∃ w' self' ys,
    items ex_world ex_frames = Some (w', self', ys) ∧
    ys.*1 = (keys ex_world ex_frames).2.
Proof.
  split; [reflexivity|]. split; [reflexivity|].
  apply (keys_items_agree ex_world ex_frames 7%nat);
    [reflexivity|reflexivity|apply ex_docs_positive|apply ex_frames_wf|
     apply ex_frames_pending].
Defined.

(** [first()] in the same scenario. *)
Lemma first_is_head_of_values_witness :
  ∃ w' self' frames,
    values ex_world ex_frames = Some (w', self', frames) ∧
    match frames with
    | [] =>
        first (λ _, "id7") ex_world ex_frames
        = Some (w', self',
                Raise (ValueError
                         ("Sample"
                          +:+ match s_id (_sample ex_frames) with
                              | Some sid => " '" +:+ "id7" +:+ "'"
                              | None => EmptyString
                              end
                          +:+ " has no frame labels")))
    | l :: _ => ∃ w1 self1, first (λ _, "id7") ex_world ex_frames = Some (w1, self1, Ok l)
    end.
Proof.
  apply (first_is_head_of_values (λ _, "id7") ex_world ex_frames).
Defined.

(** Frame 4 of sample 7 is not stored; the caller's frame is assigned to
    it, flushed and read back. *)
Lemma set_save_get_round_trip_witness :
  s_id (_sample ex_backed) = Some 7%nat ∧
  _replacements ex_backed = ∅ ∧
  _delete_frames ex_backed = ∅ ∧
  _delete_all ex_backed = false ∧
  _get_instances ex_world_input 7%nat = ∅ ∧
  ∃ w1 self1 w2 self2 w3 self3 frame,
    __setitem__ ex_world_input ex_backed (PInt 4) 0%nat = Ok (w1, self1) ∧
    save no_faults w1 self1 = (w2, self2, None) ∧
    coll w2 = coll ex_world_input
              ++ [mkDoc (next_id ex_world_input) 7 4 (fields (deref ex_world_input 0%nat))] ∧
    _replacements self2 = ∅ ∧ _delete_frames self2 = ∅ ∧ _delete_all self2 = false ∧
    __getitem__ w2 self2 (PInt 4) = Ok (w3, self3, frame) ∧
    frame_number (deref w3 frame) = 4 ∧
    fields (deref w3 frame) = fields (deref ex_world_input 0%nat) ∧
    frame_in_db (deref w3 frame) = true.
Proof.
  split; [reflexivity|]. split; [reflexivity|]. split; [reflexivity|].
  split; [reflexivity|]. split; [reflexivity|].
  apply (set_save_get_round_trip ex_world_input ex_backed 7%nat 4 0%nat);
    [reflexivity|lia|reflexivity|reflexivity|reflexivity|reflexivity|apply ex_not_stored_4].
Defined.

(** Frame 1 of sample 7 deleted and flushed. *)
Lemma del_save_removes_frame_witness :
  s_id (_sample ex_backed) = Some 7%nat ∧
  _get_instances ex_world 7%nat = ∅ ∧
  (length (List.filter (on_key 7%nat 1) (coll ex_world)) ≤ 1)%nat ∧
  ∃ w2 self2,
    save no_faults ex_world (__delitem__ ex_backed (PInt 1)) = (w2, self2, None) ∧
    trace w2 = trace ex_world ++ [bulk_write_call] ∧
    ¬ stored w2 7%nat 1 ∧
    (∀ q : Doc → bool, (∀ d, on_key 7%nat 1 d = true → q d = false) →
       List.filter q (coll w2) = List.filter q (coll ex_world)) ∧
    _replacements self2 = ∅ ∧ _delete_frames self2 = ∅ ∧ _delete_all self2 = false.
Proof.
  split; [reflexivity|]. split; [reflexivity|].
  assert (length (List.filter (on_key 7%nat 1) (coll ex_world)) ≤ 1)%nat as Hlen
    by (vm_compute; lia).
  split; [exact Hlen|].
  apply (del_save_removes_frame ex_world ex_backed 7%nat 1);
    [reflexivity|reflexivity|reflexivity|reflexivity|reflexivity|exact Hlen].
Defined.

(** [clear()] then [del frames[3]], flushed by a store whose bulk writes
    all fail. *)
Lemma save_delete_all_single_call_witness :
  let self := __delitem__ (clear ex_frames) (PInt 3) in
  let flt := mkFaults (Some ["down"]) (Some ["down"]) (Some ["down"]) in
  s_id (_sample self) = Some 7%nat ∧
  _delete_all self = true ∧
  _replacements self = ∅ ∧
  ∃ w',
    save flt ex_world self = (w', mkFrames (_sample self) ∅ ∅ false, None) ∧
    trace w' = trace ex_world ++ [delete_many_call 7%nat] ∧
    coll w' = delete_many 7%nat (coll ex_world) ∧
    ∀ n, ¬ stored w' 7%nat n.
Proof.
  cbn zeta. split; [reflexivity|]. split; [reflexivity|]. split; [reflexivity|].
  apply (save_delete_all_single_call
           (mkFaults (Some ["down"]) (Some ["down"]) (Some ["down"]))
           ex_world (__delitem__ (clear ex_frames) (PInt 3)) 7%nat);
    reflexivity.
Defined.

(** The flush of the iteration scenario does not touch the stored
    frame 5. *)
Lemma save_keeps_unrelated_frames_witness :
  s_id (_sample ex_frames) = Some 7%nat ∧
  _delete_all ex_frames = false ∧
  _get_instances ex_world 7%nat = ∅ ∧
  List.filter (on_key 7%nat 5) (coll (save no_faults ex_world ex_frames).1.1)
  = List.filter (on_key 7%nat 5) (coll ex_world).
Proof.
  split; [reflexivity|]. split; [reflexivity|]. split; [reflexivity|].
  apply (save_keeps_unrelated_frames no_faults ex_world ex_frames 7%nat 5);
    [reflexivity|reflexivity|reflexivity|apply ex_frames_wf| |].
  - unfold ex_frames. cbn [_replacements]. rewrite dom_singleton_L.
    intros H%elem_of_singleton. discriminate H.
  - unfold ex_frames. cbn [_delete_frames]. intros H%elem_of_singleton. discriminate H.
Defined.

(** The class name of the frame documents of a dataset. *)
Lemma sample_collection_name_drops_prefix_witness :
  has_dot "frames" = false ∧
  _sample_collection_name ("frames" +:+ "." +:+ "samples.5f8d2a") = "samples.5f8d2a" ∧
  _sample_collection_name "frames" = EmptyString.
Proof.
  split; [reflexivity|].
  apply (sample_collection_name_drops_prefix "frames" "samples.5f8d2a"). reflexivity.
Defined.

